(** * rootfs-builder: the image-assembly pipeline of [sub.py]

    A shallow embedding of the functions of [src/rootfs/sub.py] that the
    specification talks about, followed by the properties proved about
    them.

    Conventions of the embedding.
    - A Python [str] is a [string]; one [ascii] stands for one character
      (code points below 256; the config format and the tool output are
      ASCII).
    - A Python computation is a function from a state to an [outcome] and a
      new state.  The three outcomes are normal return, a raised exception
      that [except Exception] catches, and [SystemExit] (raised by
      [sys.exit]), which [except Exception] does not catch but [finally]
      still sees.
    - What the host does (exit status of a tool, a failing system call) is
      not decided by the program: it enters the definitions as an explicit
      argument and the theorems quantify over it. *)

From Stdlib Require Import ZArith Ascii String.
From stdpp Require Import base option list strings gmap pretty.

Local Open Scope Z_scope.

(* ===================================================================== *)
(** * Part I: definitions                                                  *)
(* ===================================================================== *)

(** ** Python strings *)

Module Str.

Definition LF : ascii := "010"%char.
Definition CR : ascii := "013"%char.

(** The one-character string holding a newline, written ["\n"] in Python. *)
Definition nl : string := String LF EmptyString.

(** [str.isspace] on the characters below 256: TAB, LF, VT, FF, CR, FS, GS,
    RS, US, SPACE, NEL and NBSP. *)
Definition isspace (c : ascii) : bool :=
  let n := N_of_ascii c in
  ((9 <=? n) && (n <=? 13) || (28 <=? n) && (n <=? 32)
   || (n =? 133) || (n =? 160))%N.

(** [s.startswith(p)] *)
Definition startswith (p s : string) : bool := String.prefix p s.

(** [s.lstrip()], [s.rstrip()] and [s.strip()] *)
Fixpoint lstrip (s : string) : string :=
  match s with
  | EmptyString => EmptyString
  | String c r => if isspace c then lstrip r else s
  end.

Fixpoint rstrip (s : string) : string :=
  match s with
  | EmptyString => EmptyString
  | String c r =>
      match rstrip r with
      | EmptyString => if isspace c then EmptyString else String c EmptyString
      | r' => String c r'
      end
  end.

Definition strip (s : string) : string := rstrip (lstrip s).

(** [s.endswith(p)]: [p] is [s] from position [len(s) - len(p)] on. *)
Definition endswith (p s : string) : bool :=
  let n := String.length s in
  let k := String.length p in
  (k <=? n)%nat && String.eqb (String.substring (n - k) k s) p.

(** [needle in s] for strings and for byte strings. *)
Fixpoint contains (needle s : string) : bool :=
  String.prefix needle s ||
  match s with
  | EmptyString => false
  | String _ r => contains needle r
  end.

(** ASCII case mapping: what [str.upper] does on ASCII text. *)
Definition ascii_upper_char (c : ascii) : ascii :=
  let n := N_of_ascii c in
  if ((97 <=? n) && (n <=? 122))%N then ascii_of_N (n - 32) else c.

Fixpoint ascii_upper (s : string) : string :=
  match s with
  | EmptyString => EmptyString
  | String c r => String (ascii_upper_char c) (ascii_upper r)
  end.

(** Text-mode reading with the default [newline=None]: every ["\r\n"] and
    every lone ["\r"] is handed to the program as ["\n"]. *)
Fixpoint universal_newlines (s : string) : string :=
  match s with
  | EmptyString => EmptyString
  | String c r =>
      if Ascii.eqb c CR then
        match r with
        | String c' r' =>
            if Ascii.eqb c' LF then String LF (universal_newlines r')
            else String LF (universal_newlines r)
        | EmptyString => nl
        end
      else String c (universal_newlines r)
  end.

(** Cut a text after every newline, keeping the newline with its line. *)
Fixpoint keepends (s : string) : list string :=
  match s with
  | EmptyString => []
  | String c r =>
      if Ascii.eqb c LF then nl :: keepends r
      else match keepends r with
           | [] => [String c EmptyString]
           | l :: ls => String c l :: ls
           end
  end.

(** [f.readlines()] and [f.writelines(lines)] on the text of a file.  On
    the Linux host the program runs on, writing leaves ["\n"] as it is. *)
Definition readlines (text : string) : list string :=
  keepends (universal_newlines text).

Definition writelines (lines : list string) : string :=
  String.concat EmptyString lines.

(** [s.rstrip(c)] for a single character [c] *)
Fixpoint rstrip_char (c : ascii) (s : string) : string :=
  match s with
  | EmptyString => EmptyString
  | String a r =>
      match rstrip_char c r with
      | EmptyString => if Ascii.eqb a c then EmptyString else String a EmptyString
      | r' => String a r'
      end
  end.

(** The line boundaries of [str.splitlines] below 256: LF, VT, FF, CR,
    FS, GS, RS and NEL. *)
Definition is_linebreak (c : ascii) : bool :=
  let n := N_of_ascii c in
  ((10 <=? n) && (n <=? 13) || (28 <=? n) && (n <=? 30) || (n =? 133))%N.

(** [s.splitlines()]: the lines without their ends; CR LF is one end. *)
Fixpoint splitlines_from (current : string) (s : string) : list string :=
  match s with
  | EmptyString =>
      match current with EmptyString => [] | _ => [current] end
  | String c r =>
      if is_linebreak c then
        current ::
        match r with
        | String c' r' =>
            if Ascii.eqb c CR && Ascii.eqb c' LF
            then splitlines_from EmptyString r'
            else splitlines_from EmptyString r
        | EmptyString => []
        end
      else splitlines_from (current +:+ String c EmptyString) r
  end.

Definition splitlines (s : string) : list string := splitlines_from EmptyString s.

(** The text after the first occurrence of [needle] in [s]. *)
Fixpoint after_first (needle s : string) : option string :=
  if String.prefix needle s
  then Some (String.substring (String.length needle)
               (String.length s - String.length needle) s)
  else match s with
       | EmptyString => None
       | String _ r => after_first needle r
       end.

(** The text of [s] before the first [c], when [c] occurs. *)
Fixpoint before_first (c : ascii) (s : string) : option string :=
  match s with
  | EmptyString => None
  | String a r =>
      if Ascii.eqb a c then Some EmptyString
      else String a <$> before_first c r
  end.

End Str.

(** ** Python control flow: exceptions, [sys.exit], [try] *)

(** The exception classes the program meets.  All of them are subclasses of
    [Exception]; the first four are [OSError] subclasses ([OSError] itself
    stands for any other member of that family). *)
Inductive exn : Type :=
  | FileNotFoundError
  | FileExistsError
  | PermissionError
  | OSError
  | CalledProcessError (returncode : Z) (out err : string)
  | OtherException.

Definition is_OSError (e : exn) : bool :=
  match e with
  | FileNotFoundError | FileExistsError | PermissionError | OSError => true
  | CalledProcessError _ _ _ | OtherException => false
  end.

Inductive outcome (A : Type) : Type :=
  | Return (a : A)
  | Raise (e : exn)
  | SystemExit (code : Z).
Arguments Return {A} a.
Arguments Raise {A} e.
Arguments SystemExit {A} code.

(** The state a computation runs in: the part of the host it acts on, and
    what it has printed so far. *)
Record state (W : Type) : Type := St { world : W; stdout : list string }.
Arguments St {W} world stdout.
Arguments world {W} s.
Arguments stdout {W} s.

Definition py (W A : Type) : Type := state W → outcome A * state W.

Module Py.
Section Ops.
Context {W : Type}.

Definition ret {A} (a : A) : py W A := λ s, (Return a, s).

Definition bind {A B} (m : py W A) (k : A → py W B) : py W B :=
  λ s, match m s with
       | (Return a, s') => k a s'
       | (Raise e, s') => (Raise e, s')
       | (SystemExit c, s') => (SystemExit c, s')
       end.

Definition raise {A} (e : exn) : py W A := λ s, (Raise e, s).

(** [sys.exit(code)] *)
Definition sys_exit {A} (code : Z) : py W A := λ s, (SystemExit code, s).

(** [print(msg)] *)
Definition print (msg : string) : py W () :=
  λ s, (Return (), St (world s) (stdout s ++ [msg])).

Definition get : py W W := λ s, (Return (world s), s).

Definition modify (f : W → W) : py W () :=
  λ s, (Return (), St (f (world s)) (stdout s)).

(** [try: body  except ...: handler].  The except clauses are one
    function: [None] for an exception no clause matches.  [SystemExit]
    is not an [Exception] and passes through. *)
Definition try_except {A} (body : py W A)
    (handler : exn → option (py W A)) : py W A :=
  λ s, match body s with
       | (Raise e, s') =>
           match handler e with
           | Some h => h s'
           | None => (Raise e, s')
           end
       | r => r
       end.

(** [try: body  finally: cleanup].  The cleanup runs on every outcome
    of the body; when the cleanup itself raises or exits, that replaces
    the outcome of the body. *)
Definition try_finally {A} (body : py W A) (cleanup : py W ()) : py W A :=
  λ s, match body s with
       | (r, s') =>
           match cleanup s' with
           | (Return _, s'') => (r, s'')
           | (Raise e, s'') => (Raise e, s'')
           | (SystemExit c, s'') => (SystemExit c, s'')
           end
       end.

(** [for x in xs: body x] *)
Fixpoint for_each {X} (xs : list X) (body : X → py W ()) : py W () :=
  match xs with
  | [] => ret ()
  | x :: rest => bind (body x) (λ _, for_each rest body)
  end.

(** [except Exception as e: h e] and [except OSError as e: h e] *)
Definition except_Exception {A} (h : exn → py W A) : exn → option (py W A) :=
  λ e, Some (h e).

Definition except_OSError_then {A} (h : exn → py W A)
    (others : exn → option (py W A)) : exn → option (py W A) :=
  λ e, if is_OSError e then Some (h e) else others e.

(** [except subprocess.CalledProcessError: h] as the only clause *)
Definition except_CalledProcessError {A} (h : py W A) :
    exn → option (py W A) :=
  λ e, match e with
       | CalledProcessError _ _ _ => Some h
       | _ => None
       end.

(** [if b: m] *)
Definition when (b : bool) (m : py W ()) : py W () :=
  if b then m else ret ().

(** [triple P m Q E]: run from a world satisfying [P], the computation
    [m] either returns a value [a] in a world satisfying [Q a], or it
    raises or exits in a world satisfying [E]. *)
Definition triple {A} (P : W → Prop) (m : py W A)
    (Q : A → W → Prop) (E : W → Prop) : Prop :=
  ∀ s, P (world s) →
    match m s with
    | (Return a, s') => Q a (world s')
    | (Raise _, s') | (SystemExit _, s') => E (world s')
    end.

(** [inv I m]: the computation [m] keeps [I], however it ends. *)
Definition inv {A} (I : W → Prop) (m : py W A) : Prop :=
  triple I m (λ _, I) I.
End Ops.
End Py.

(** The computations form a monad; stdpp's [x ← m; k] and [m ;; k] are
    used for sequencing. *)
Global Instance py_ret {W} : MRet (py W) := λ A, Py.ret.
Global Instance py_bind {W} : MBind (py W) := λ A B k m, Py.bind m k.

(** ** 4.2 Feature-Toggle Config Patcher

    The [.config] rewriting loop of [configure_and_install_busybox]
    ([sub.py], lines 201-233; the copy in [test.py] is identical). *)

Module ConfigPatcher.
Import Str.

(** What the inner [for feature in disabled_features] loop decides for one
    line: the line it appended, or that it only reported the feature as
    off already, or that no feature matched ([modified] still [False]). *)
Inductive verdict : Type :=
  | Disabled (new_line : string) (feature : string)
  | AlreadyDisabled (feature : string)
  | NotModified.

Section Patcher.
(** [str.upper], left open: nothing below depends on how it maps
    characters. *)
Variable upper : string → string.

(** [feature_pattern = f"CONFIG_{feature.upper()}="] *)
Definition feature_pattern (feature : string) : string :=
  "CONFIG_" +:+ upper feature +:+ "=".

(** [f"# {feature_pattern} is not set"] *)
Definition not_set (feature : string) : string :=
  "# " +:+ feature_pattern feature +:+ " is not set".

(** [line.strip().endswith(('=y', '=m'))] *)
Definition ends_enabled (line : string) : bool :=
  endswith "=y" (strip line) || endswith "=m" (strip line).

Fixpoint scan_features (line : string) (features : list string) : verdict :=
  match features with
  | [] => NotModified
  | feature :: rest =>
      if startswith (feature_pattern feature) line then
        if ends_enabled line
        then Disabled (not_set feature +:+ nl) feature
        else scan_features line rest
      else if String.eqb (strip line) (not_set feature)
        then AlreadyDisabled feature
        else scan_features line rest
  end.

(** The outer [for line in lines] loop: [modified_lines] and what was
    printed, in order. *)
Fixpoint patch_lines (disabled_features : list string)
    (lines : list string) : list string * list string :=
  match lines with
  | [] => ([], [])
  | line :: rest =>
      let '(modified_lines, printed) := patch_lines disabled_features rest in
      match scan_features line disabled_features with
      | Disabled new_line feature =>
          (new_line :: modified_lines,
           ("  - Deaktiviert: " +:+ feature) :: printed)
      | AlreadyDisabled feature =>
          (modified_lines,
           ("  - " +:+ feature +:+ " bereits deaktiviert.") :: printed)
      | NotModified => (line :: modified_lines, printed)
      end
  end.

(** From [readlines] to [writelines]: the new text of the file and what
    the loop printed. *)
Definition patch_text (disabled_features : list string)
    (text : string) : string * list string :=
  let '(modified_lines, printed) :=
    patch_lines disabled_features (readlines text) in
  (writelines modified_lines, printed).

Definition patch_file (disabled_features : list string)
    (text : string) : string :=
  (patch_text disabled_features text).1.

(** The patching phase of [configure_and_install_busybox]; the world is
    the text of [.config].  The phase is guarded by
    [if disabled_features:], which an empty list does not pass. *)
Definition patch_phase (disabled_features : list string) : py string () :=
  match disabled_features with
  | [] => mret ()
  | _ :: _ =>
      Py.print ("Modifiziere BusyBox .config zur Deaktivierung der Features: "
                +:+ String.concat ", " disabled_features) ;;
      text ← Py.get;
      let '(new_text, printed) := patch_text disabled_features text in
      Py.for_each printed Py.print ;;
      Py.modify (λ _, new_text) ;;
      Py.print "BusyBox .config erfolgreich modifiziert."
  end.
(** The lines the loop copies as they are. *)
Definition kept (features : list string) (line : string) : bool :=
  match scan_features line features with
  | NotModified => true
  | _ => false
  end.
End Patcher.

(** The two forms of a config line of section 6 of the specification. *)
Definition spec_disabled_form (NAME : string) : string :=
  "# CONFIG_" +:+ NAME +:+ " is not set".
Definition spec_enabled_form (NAME value : string) : string :=
  "CONFIG_" +:+ NAME +:+ "=" +:+ value.

End ConfigPatcher.

(** ** File modes and paths *)

Module Mode.
(** The octal mode constants of the program. *)
Definition o644 : Z := 420.
Definition o660 : Z := 432.
Definition o666 : Z := 438.
Definition o755 : Z := 493.
Definition o777 : Z := 511.
Definition o1777 : Z := 1023.
(** [stat.S_IFCHR] and [stat.S_IFBLK] *)
Definition S_IFCHR : Z := 8192.
Definition S_IFBLK : Z := 24576.

Definition o700 : Z := 448.

(** The mode a new file gets from [mkdir(2)] or [mknod(2)] called with
    [mode] in a process whose file mode creation mask is [umask]:
    [mode & ~umask]; only the permission bits of the mask count. *)
Definition masked (umask mode : Z) : Z :=
  Z.land mode (Z.lnot (Z.land umask o777)).
End Mode.

Module Path.
(** A relative [pathlib.Path] is the list of its parts; the empty list is
    the current directory [Path(".")]. *)
Definition path : Type := list string.

(** The parts of a string with slashes; empty parts and [.] are dropped,
    as the [Path] constructor does. *)
Fixpoint parts_from (current : string) (s : string) : list string :=
  match s with
  | EmptyString =>
      if decide (current = "" ∨ current = ".") then [] else [current]
  | String c r =>
      if Ascii.eqb c "/"%char then
        (if decide (current = "" ∨ current = ".") then [] else [current])
        ++ parts_from "" r
      else parts_from (current +:+ String c EmptyString) r
  end.

Definition parts (s : string) : path := parts_from "" s.

(** [p / s] for a relative [s] *)
Definition join (p : path) (s : string) : path := p ++ parts s.

(** [p.parent]; the parent of [Path(".")] is itself. *)
Definition parent (p : path) : path := removelast p.

(** [p.name] *)
Definition name (p : path) : string := default "" (last p).

(** [str(p)] *)
Definition to_string (p : path) : string :=
  match p with
  | [] => "."
  | _ => String.concat "/" p
  end.
End Path.

(** ** 4.1 Directory Scaffold Builder

    [create_dirs] ([sub.py], lines 113-129), and the first definition of it
    in [test.py] (lines 126-143), which differs in the directory list and in
    the [mkdir] flags. *)

Module Scaffold.
Import Path.

(** The system calls through which the functions below act on a path. *)
Inductive call : Type := Mkdir | Chmod | Stat.

(** What the process sees of the file system: the paths that name a
    directory, with their modes; the paths at which something else exists
    (a regular file, a device, a dangling link), with its mode; the umask
    of the process; and the host's refusals: the error, if any, with
    which it fails a call at a path for a reason other than what exists
    there (no permission, a read-only file system, a name that is too
    long).  The current directory is the path [[]]. *)
Record fs : Type := FS {
  dirs : gmap path Z;
  others : gmap path Z;
  umask : Z;
  refusal : call → path → option exn;
}.

(** [p.is_dir()]: [False] where nothing or something else exists; an
    error of [stat] other than that is raised. *)
Definition is_dir (p : path) : py fs bool :=
  w ← Py.get;
  match refusal w Stat p with
  | Some e => Py.raise e
  | None => mret (bool_decide (is_Some (dirs w !! p)))
  end.

(** Some proper ancestor of [p] exists and is not a directory. *)
Definition blocked (w : fs) (p : path) : bool :=
  existsb (λ k, bool_decide (is_Some (others w !! take k p)))
          (seq 0 (length p)).

(** [os.mkdir(p, mode)]: [FileExistsError] when anything exists at [p],
    [NotADirectoryError] (an [OSError]) below something that is not a
    directory, [FileNotFoundError] when the parent is missing. *)
Definition os_mkdir (p : path) (mode : Z) : py fs () :=
  w ← Py.get;
  match refusal w Mkdir p with
  | Some e => Py.raise e
  | None =>
      if bool_decide (is_Some (dirs w !! p))
         || bool_decide (is_Some (others w !! p))
      then Py.raise FileExistsError
      else if blocked w p then Py.raise OSError
      else if bool_decide (is_Some (dirs w !! parent p)) then
        Py.modify (λ w, FS (<[p := Mode.masked (umask w) mode]> (dirs w))
                           (others w) (umask w) (refusal w))
      else Py.raise FileNotFoundError
  end.

(** [Path.mkdir(mode=0o777, parents, exist_ok)] of [pathlib]: try
    [os.mkdir]; on [FileNotFoundError] create the parent with
    [parents=True, exist_ok=True] and try again; on another [OSError]
    give in when [exist_ok] is set and the directory is there.  The
    recursion climbs towards the current directory; [depth] bounds it. *)
Fixpoint mkdir_rec (depth : nat) (p : path) (parents exist_ok : bool)
    : py fs () :=
  match depth with
  | O => Py.raise OtherException
  | S depth' =>
      Py.try_except (os_mkdir p Mode.o777)
        (λ e, match e with
              | FileNotFoundError => Some (
                  if negb parents || bool_decide (parent p = p)
                  then Py.raise e
                  else mkdir_rec depth' (parent p) true true ;;
                       mkdir_rec depth' p false exist_ok)
              | _ =>
                  if is_OSError e then Some (
                    here ← is_dir p;
                    if negb exist_ok || negb here then Py.raise e
                    else mret ())
                  else None
              end)
  end.

Definition mkdir (p : path) (parents exist_ok : bool) : py fs () :=
  mkdir_rec (2 * S (length p)) p parents exist_ok.

(** [os.chmod(p, mode)] *)
Definition chmod (p : path) (mode : Z) : py fs () :=
  w ← Py.get;
  match refusal w Chmod p with
  | Some e => Py.raise e
  | None =>
      if bool_decide (is_Some (dirs w !! p))
      then Py.modify (λ w, FS (<[p := mode]> (dirs w)) (others w)
                              (umask w) (refusal w))
      else if bool_decide (is_Some (others w !! p))
      then Py.modify (λ w, FS (dirs w) (<[p := mode]> (others w))
                              (umask w) (refusal w))
      else if blocked w p then Py.raise OSError
      else Py.raise FileNotFoundError
  end.

Definition build_dir : path := parts "build".
Definition rootfs_dir : path := join build_dir "rootfs".

(** [rootfs_dirs] of [sub.py] ("bereinigt"). *)
Definition rootfs_dirs : list string :=
  ["bin"; "sbin"; "etc"; "proc"; "sys"; "dev"; "lib"; "lib64"; "home";
   "usr"; "usr/bin"; "usr/sbin"; "usr/lib"; "usr/local";
   "var"; "var/log"; "var/run"; "var/tmp"; "var/lock";
   "mnt"; "opt"; "srv";
   "root";
   "home/pi"].

Definition create_dirs : py fs () :=
  Py.print ("Erstelle Build-Verzeichnis: " +:+ to_string build_dir) ;;
  mkdir build_dir true true ;;
  Py.print ("Erstelle Rootfs-Verzeichnis: " +:+ to_string rootfs_dir) ;;
  mkdir rootfs_dir true true ;;
  Py.print "Erstelle grundlegende Rootfs-Ordner..." ;;
  Py.for_each rootfs_dirs (λ d, mkdir (join rootfs_dir d) false true) ;;
  chmod (join rootfs_dir "tmp") Mode.o1777 ;;
  chmod (join rootfs_dir "var/log") Mode.o777 ;;
  chmod (join rootfs_dir "var/run") Mode.o777 ;;
  chmod (join rootfs_dir "var/tmp") Mode.o1777 ;;
  Py.print "Spezielle Berechtigungen für /tmp, /var/log, /var/run, /var/tmp gesetzt.".

(** A fresh output root: only the current directory exists, the umask is
    [0o022] and the host refuses nothing. *)
Definition fresh : fs := FS {[ [] := Mode.o755 ]} ∅ 18 (λ _ _, None).

(** The first definition in [test.py], lines 71-79 and 126-143.  Further
    down the same file binds both names again: the function (lines
    688-704) has the text of the one in [sub.py], and the list (lines
    628-635) is the one of [sub.py] without [home]; like it, it has no
    [tmp].  It is the later definition that [main()] of [test.py] runs;
    the first one is not run by anything, and is kept here only as the
    sibling that shows what the function is meant to do. *)
Module TestPy.
Definition rootfs_dirs : list string :=
  ["bin"; "sbin"; "etc"; "proc"; "sys"; "dev"; "lib"; "lib64"; "home";
   "tmp"; "var";
   "boot";
   "usr"; "usr/bin"; "usr/sbin"; "usr/lib"; "usr/local";
   "var"; "var/log"; "var/run"; "var/tmp"; "var/lock";
   "mnt"; "opt"; "srv";
   "root";
   "home/pi"].

Definition create_dirs : py fs () :=
  Py.print ("Erstelle Build-Verzeichnis: " +:+ to_string build_dir) ;;
  mkdir build_dir true true ;;
  Py.print ("Erstelle Rootfs-Verzeichnis: " +:+ to_string rootfs_dir) ;;
  mkdir rootfs_dir true true ;;
  Py.print "Erstelle grundlegende Rootfs-Ordner..." ;;
  Py.for_each rootfs_dirs (λ d, mkdir (join rootfs_dir d) true true) ;;
  chmod (join rootfs_dir "tmp") Mode.o1777 ;;
  chmod (join rootfs_dir "var/log") Mode.o777 ;;
  chmod (join rootfs_dir "var/run") Mode.o777 ;;
  chmod (join rootfs_dir "var/tmp") Mode.o1777 ;;
  Py.print "Spezielle Berechtigungen für /tmp, /var/log, /var/run, /var/tmp gesetzt.".
End TestPy.

(** *** Vocabulary of the scaffold's properties *)

(** From [w] to [w'] directories were only added, each of them a path of
    [ps] or an ancestor of one; modes, the umask, what else exists and
    the host's refusals are as they were. *)
Definition grows (ps : list path) (w w' : fs) : Prop :=
  (umask w' = umask w ∧ others w' = others w ∧ refusal w' = refusal w) ∧
  (∀ q m, dirs w !! q = Some m → dirs w' !! q = Some m) ∧
  (∀ q, is_Some (dirs w' !! q) →
        is_Some (dirs w !! q) ∨ ∃ p, p ∈ ps ∧ q `prefix_of` p).

(** Every directory of [todo] has its parent among [have] or earlier in
    [todo]. *)
Fixpoint covered (have todo : list path) : bool :=
  match todo with
  | [] => true
  | p :: rest => bool_decide (parent p ∈ have) && covered (p :: have) rest
  end.

(** The directories with the four overrides at the end of [create_dirs]
    applied. *)
Definition overridden (t : gmap path Z) : gmap path Z :=
  <[join rootfs_dir "var/tmp" := Mode.o1777]>
    (<[join rootfs_dir "var/run" := Mode.o777]>
       (<[join rootfs_dir "var/log" := Mode.o777]>
          (<[join rootfs_dir "tmp" := Mode.o1777]> t))).

Definition override_paths : list path :=
  [join rootfs_dir "tmp"; join rootfs_dir "var/log";
   join rootfs_dir "var/run"; join rootfs_dir "var/tmp"].

(** Nothing hinders work on the paths [ps]: at each of them and at each
    of their ancestors nothing exists that is not a directory, and the
    host refuses no call there. *)
Definition unhindered (ps : list path) (w : fs) : Prop :=
  ∀ p q, p ∈ ps → q `prefix_of` p →
    others w !! q = None ∧ ∀ c, refusal w c q = None.

(** The paths [create_dirs] works on. *)
Definition scaffold_paths : list path :=
  (join rootfs_dir <$> rootfs_dirs) ++ override_paths.

End Scaffold.

(** ** 4.4 Permission Classifier

    [set_rootfs_permissions] ([sub.py], lines 353-433).  [test.py] ends up
    with the same function: its second definition (lines 928-1009) has the
    text of the one in [sub.py]; its first definition (lines 400-492, with
    the file rule at lines 435-447) is replaced by the second before
    anything is called. *)

Module Permissions.
Import Path.

(** A file-system object: a directory, a regular file with its bytes, or
    something else (a device, a FIFO, a socket). *)
Inductive node : Type :=
  | NDir (mode : Z)
  | NFile (mode : Z) (content : string)
  | NSpecial (mode : Z).

Definition mode_of (n : node) : Z :=
  match n with NDir m | NFile m _ | NSpecial m => m end.

Definition set_mode (mode : Z) (n : node) : node :=
  match n with
  | NDir _ => NDir mode
  | NFile _ content => NFile mode content
  | NSpecial _ => NSpecial mode
  end.

(** What a path names: the object it leads to once symbolic links are
    followed, and whether the path itself is a symbolic link; or a
    symbolic link that leads nowhere.  Objects are numbered: two names of
    one object (a symbolic link and its target, or two hard links) carry
    the same number. *)
Inductive dirent : Type :=
  | Resolves (ino : nat) (symlink : bool)
  | Dangling.

Record tree : Type := Tree {
  names : gmap path dirent;
  nodes : gmap nat node;
}.

(** The calls through which the function acts on a path: [os.chmod],
    [read_bytes], the [stat] behind [exists()], [is_dir()] and
    [is_file()], the [lstat] behind [os.path.islink], [os.scandir], and
    the [is_dir()] of a directory entry. *)
Inductive call : Type := Chmod | Read | Stat | Lstat | Scandir | EntryIsDir.

(** The host's refusals: the error, if any, with which it fails a call
    at a path for a reason other than what the path names (no
    permission, a name that is too long, an input/output error).  The
    answer may depend on the state of the tree at the time of the call,
    modes included. *)
Record permos : Type := PermOS {
  refuses : call → tree → path → option exn;
}.

(** The object a path names, symbolic links followed. *)
Definition resolve (t : tree) (p : path) : option (nat * node) :=
  match names t !! p with
  | Some (Resolves i _) =>
      match nodes t !! i with
      | Some n => Some (i, n)
      | None => None
      end
  | _ => None
  end.

Definition is_dir_in (t : tree) (p : path) : bool :=
  match resolve t p with Some (_, NDir _) => true | _ => false end.

Definition is_file_in (t : tree) (p : path) : bool :=
  match resolve t p with Some (_, NFile _ _) => true | _ => false end.

Definition is_link_in (t : tree) (p : path) : bool :=
  match names t !! p with
  | Some (Resolves _ true) | Some Dangling => true
  | _ => false
  end.

(** The names in a directory.  Their order is the host's; the model
    takes the order of the map. *)
Definition names_in (t : tree) (dir : path) : list string :=
  omap (λ '(p, _),
          match last p with
          | Some n => if bool_decide (p = dir ++ [n]) then Some n else None
          | None => None
          end)
       (map_to_list (names t)).

(** The length of the longest path that names something. *)
Definition depth (t : tree) : nat :=
  max_list (length <$> (map_to_list (names t)).*1).

Definition describe (e : exn) : string :=
  match e with
  | FileNotFoundError => "[Errno 2] No such file or directory"
  | FileExistsError => "[Errno 17] File exists"
  | PermissionError => "[Errno 1] Operation not permitted"
  | OSError => "[Errno 5] Input/output error"
  | CalledProcessError rc _ _ =>
      "Command returned non-zero exit status " +:+ pretty rc +:+ "."
  | OtherException => "error"
  end.

(** [a or b] and [a and b] on conditions that may raise: [b] is only
    evaluated when [a] does not decide. *)
Definition or_ {W} (a b : py W bool) : py W bool :=
  x ← a; if (x : bool) then mret true else b.
Definition and_ {W} (a b : py W bool) : py W bool :=
  x ← a; if (x : bool) then b else mret false.

Section Calls.
Variable sys : permos.

(** [entry.is_dir()] of an entry that [os.scandir] yields: it follows
    symbolic links; [os.walk] takes an error for "not a directory". *)
Definition entry_is_dir (t : tree) (p : path) : bool :=
  match refuses sys EntryIsDir t p with
  | Some _ => false
  | None => is_dir_in t p
  end.

(** [os.path.islink(p)]: [False] when [lstat] fails. *)
Definition islink (t : tree) (p : path) : bool :=
  match refuses sys Lstat t p with
  | Some _ => false
  | None => is_link_in t p
  end.

(** What [os.walk] learns of a directory: the names of its entries
    that are directories and of those that are not, or nothing when the
    directory cannot be listed. *)
Definition scandir (t : tree) (dir : path)
    : option (list string * list string) :=
  match refuses sys Scandir t dir with
  | Some _ => None
  | None =>
      if is_dir_in t dir then
        let entries := names_in t dir in
        Some (List.filter (λ n, entry_is_dir t (dir ++ [n])) entries,
              List.filter (λ n, negb (entry_is_dir t (dir ++ [n]))) entries)
      else None
  end.

(** [for dirpath, dirnames, filenames in os.walk(top): body], top-down
    and without following links ([followlinks=False]), as the generator
    runs it: a directory is listed when the walk gets to it, the body
    runs on the triple, and only then the walk goes on into the
    subdirectories that are not symbolic links.  A directory that
    cannot be listed is passed over in silence ([onerror=None]).
    [fuel] bounds the depth of the recursion. *)
Fixpoint walk (fuel : nat) (top : path)
    (body : path → list string → list string → py tree ()) : py tree () :=
  match fuel with
  | O => Py.raise OtherException
  | S fuel' =>
      t ← Py.get;
      match scandir t top with
      | None => mret ()
      | Some (dirnames, filenames) =>
          body top dirnames filenames ;;
          Py.for_each dirnames (λ dirname,
            t' ← Py.get;
            if islink t' (top ++ [dirname]) then mret ()
            else walk fuel' (top ++ [dirname]) body)
      end
  end.

(** No directory lies deeper than the longest path is long. *)
Definition os_walk (top : path)
    (body : path → list string → list string → py tree ()) : py tree () :=
  t ← Py.get; walk (S (depth t)) top body.

(** [os.chmod(p, mode)]: it follows symbolic links and changes the
    mode of the object. *)
Definition chmod (p : path) (mode : Z) : py tree () :=
  t ← Py.get;
  match refuses sys Chmod t p with
  | Some e => Py.raise e
  | None =>
      match resolve t p with
      | Some (i, n) =>
          Py.modify (λ t, Tree (names t) (<[i := set_mode mode n]> (nodes t)))
      | None => Py.raise FileNotFoundError
      end
  end.

(** [p.read_bytes()] *)
Definition read_bytes (p : path) : py tree string :=
  t ← Py.get;
  match refuses sys Read t p with
  | Some e => Py.raise e
  | None =>
      match resolve t p with
      | Some (_, NFile _ content) => mret content
      | Some (_, NDir _) | Some (_, NSpecial _) => Py.raise OSError
      | None => Py.raise FileNotFoundError
      end
  end.

(** [p.exists()], [p.is_dir()], [p.is_file()]: [False] where the path
    names nothing; another error of [stat] is raised. *)
Definition stat_then (answer : tree → path → bool) (p : path)
    : py tree bool :=
  t ← Py.get;
  match refuses sys Stat t p with
  | Some e => Py.raise e
  | None => mret (answer t p)
  end.

Definition exists_ : path → py tree bool :=
  stat_then (λ t p, bool_decide (is_Some (resolve t p))).
Definition is_dir : path → py tree bool := stat_then is_dir_in.
Definition is_file : path → py tree bool := stat_then is_file_in.

(** The condition of the [if] in the file pass. *)
Definition executable_condition (rootfs_base_dir file_path : path)
    : py tree bool :=
  or_ (mret (bool_decide (name (parent file_path) ∈ ["bin"; "sbin"])))
 (or_ (mret (bool_decide (name (parent (parent file_path)) = "usr") &&
             bool_decide (name (parent file_path) ∈ ["bin"; "sbin"])))
 (or_ (and_ (mret (Str.endswith ".sh" (name file_path)))
      (and_ (is_file file_path)
            (content ← read_bytes file_path;
             mret (Str.contains "#!/bin/sh" content))))
 (or_ (mret (bool_decide (name file_path = "rcS") &&
             bool_decide (name (parent file_path) = "init.d")))
      (mret (bool_decide (name file_path = "init") &&
             bool_decide (parent file_path = rootfs_base_dir)))))).

(** The body of the first loop (lines 361-372): the default mode of a
    directory that the walk reports. *)
Definition set_directory_default (rootfs_base_dir dirpath : path)
    : py tree () :=
  let current_dir_path := dirpath in
  Py.try_except
    (if bool_decide (current_dir_path ∉
          [rootfs_base_dir ++ ["tmp"];
           rootfs_base_dir ++ ["var"; "tmp"];
           rootfs_base_dir ++ ["var"; "log"];
           rootfs_base_dir ++ ["var"; "run"];
           rootfs_base_dir ++ ["var"; "lock"];
           rootfs_base_dir ++ ["dev"]])
     then chmod current_dir_path Mode.o755
     else mret ())
    (Py.except_Exception (λ e,
       Py.print ("WARNUNG: Konnte Berechtigung für Ordner '" +:+
                 to_string current_dir_path +:+ "' nicht setzen: " +:+
                 describe e))).

(** The body of the inner loop of the file pass (lines 377-389). *)
Definition set_file_mode (rootfs_base_dir file_path : path) : py tree () :=
  Py.try_except
    (executable ← executable_condition rootfs_base_dir file_path;
     if (executable : bool)
     then chmod file_path Mode.o755
     else chmod file_path Mode.o644)
    (Py.except_Exception (λ e,
       Py.print ("WARNUNG: Konnte Berechtigung für Datei '" +:+
                 to_string file_path +:+ "' nicht setzen: " +:+
                 describe e))).

(** One of the overrides after the walks (lines 398-431): the check
    [p.exists() and p.is_dir()] stands outside the [try], the [chmod]
    inside it. *)
Definition set_special (p : path) (mode : Z) (set warning : string)
    : py tree () :=
  there ← and_ (exists_ p) (is_dir p);
  Py.when there
    (Py.try_except
       (chmod p mode ;; Py.print set)
       (Py.except_Exception (λ e, Py.print (warning +:+ describe e)))).

Definition set_rootfs_permissions (rootfs_base_dir : path) : py tree () :=
  Py.print (Str.nl +:+ "Setze grundlegende Berechtigungen für " +:+
            to_string rootfs_base_dir +:+ "...") ;;
  Py.print "Setze Standard-Ordnerberechtigungen (0o755)..." ;;
  os_walk rootfs_base_dir (λ dirpath dirnames filenames,
    set_directory_default rootfs_base_dir dirpath) ;;
  Py.print "Setze Standard-Dateiberechtigungen (0o644/0o755)..." ;;
  os_walk rootfs_base_dir (λ dirpath dirnames filenames,
    Py.for_each filenames (λ filename,
      let file_path := dirpath ++ [filename] in
      set_file_mode rootfs_base_dir file_path)) ;;
  Py.print "Setze spezielle Verzeichnisberechtigungen..." ;;
  Py.for_each [rootfs_base_dir ++ ["tmp"]; rootfs_base_dir ++ ["var"; "tmp"]]
    (λ s_dir,
       set_special s_dir Mode.o1777
         ("  - '" +:+ to_string s_dir +:+ "' auf 0o1777 (Sticky Bit) gesetzt.")
         ("WARNUNG: Konnte spezielle Berechtigung für '" +:+
          to_string s_dir +:+ "' nicht setzen: ")) ;;
  Py.for_each [rootfs_base_dir ++ ["var"; "log"];
               rootfs_base_dir ++ ["var"; "run"];
               rootfs_base_dir ++ ["var"; "lock"]]
    (λ rw_dir,
       set_special rw_dir Mode.o777
         ("  - '" +:+ to_string rw_dir +:+ "' auf 0o777 gesetzt.")
         ("WARNUNG: Konnte spezielle Berechtigung für '" +:+
          to_string rw_dir +:+ "' nicht setzen: ")) ;;
  (let dev_dir := rootfs_base_dir ++ ["dev"] in
   set_special dev_dir Mode.o755
     ("  - '" +:+ to_string dev_dir +:+ "' auf 0o755 gesetzt.")
     ("WARNUNG: Konnte spezielle Berechtigung für '" +:+
      to_string dev_dir +:+ "' nicht setzen: ")) ;;
  set_special rootfs_base_dir Mode.o755
    ("  - Rootfs-Basis '" +:+ to_string rootfs_base_dir +:+
     "' auf 0o755 gesetzt.")
    "WARNUNG: Konnte Berechtigung für Rootfs-Basis nicht setzen: " ;;
  Py.print "Berechtigungseinstellung abgeschlossen.".
End Calls.

(** *** Vocabulary of the file rule *)

(** The mode the file pass gives to the file at [file_path] holding
    [content]: 0755 for a file directly in a directory named [bin] or
    [sbin], for a file named [*.sh] whose bytes contain [#!/bin/sh], for
    [rcS] in a directory named [init.d], and for [init] directly under
    the root of the tree; 0644 for every other file. *)
Definition executable (rootfs_base_dir file_path : path) (content : string) : bool :=
  bool_decide (name (parent file_path) ∈ ["bin"; "sbin"])
  || Str.endswith ".sh" (name file_path) && Str.contains "#!/bin/sh" content
  || bool_decide (name file_path = "rcS") &&
     bool_decide (name (parent file_path) = "init.d")
  || bool_decide (name file_path = "init") &&
     bool_decide (parent file_path = rootfs_base_dir).

Definition file_mode (is_executable : bool) : Z :=
  if is_executable then Mode.o755 else Mode.o644.

(** A file starts with a shebang interpreter line. *)
Definition has_shebang (content : string) : bool := String.prefix "#!" content.

(** [os.walk(top)] gets from the directory [cur] down the directories
    [dirs]: each of them is a directory and not a symbolic link, and the
    host lets the walk list it and see that it is a directory, whatever
    the modes are at that time. *)
Fixpoint walks_to (sys : permos) (t : tree) (cur : path)
    (dirs : list string) : Prop :=
  is_dir_in t cur = true ∧ (∀ t', refuses sys Scandir t' cur = None) ∧
  match dirs with
  | [] => True
  | d :: dirs' =>
      is_link_in t (cur ++ [d]) = false ∧
      (∀ t', refuses sys EntryIsDir t' (cur ++ [d]) = None) ∧
      walks_to sys t (cur ++ [d]) dirs'
  end.

(** [os.walk(top)] reports the file [filename] in the directory
    [top/dirs]: the walk gets to the directory, and the name leads to the
    regular file numbered [i], which has [mode] and holds [content]. *)
Definition walked_file (sys : permos) (t : tree) (top : path)
    (dirs : list string) (filename : string)
    (i : nat) (mode : Z) (content : string) : Prop :=
  walks_to sys t top dirs ∧
  (∃ link, names t !! (top ++ dirs ++ [filename]) = Some (Resolves i link)) ∧
  nodes t !! i = Some (NFile mode content).

(** The object numbered [i] has no name but [p]: no other path leads to
    it, through a symbolic link or as a hard link. *)
Definition sole_name (t : tree) (p : path) (i : nat) : Prop :=
  ∀ q link, names t !! q = Some (Resolves i link) → q = p.

(** The host refuses none of the [calls] at [p], whatever the state. *)
Definition lets (sys : permos) (calls : list call) (p : path) : Prop :=
  ∀ c t', c ∈ calls → refuses sys c t' p = None.

(** The paths of the overrides, in the order of the program; their
    existence is checked outside any [try]. *)
Definition checked_paths (top : path) : list path :=
  [top ++ ["tmp"]; top ++ ["var"; "tmp"]; top ++ ["var"; "log"];
   top ++ ["var"; "run"]; top ++ ["var"; "lock"]; top ++ ["dev"]; top].

(** The mode that the function means a directory to have: 01777 for
    [tmp] and [var/tmp] under the root, 0777 for [var/log], [var/run] and
    [var/lock] under the root, 0755 for every other directory. *)
Definition directory_mode (top p : path) : Z :=
  if bool_decide (p ∈ [top ++ ["tmp"]; top ++ ["var"; "tmp"]])
  then Mode.o1777
  else if bool_decide (p ∈ [top ++ ["var"; "log"]; top ++ ["var"; "run"];
                            top ++ ["var"; "lock"]])
  then Mode.o777
  else Mode.o755.

(** A regular file below [top]. *)
Definition regular_file_under (t : tree) (top file_path : path)
    (mode : Z) (content : string) : Prop :=
  (∃ rest, rest ≠ [] ∧ file_path = top ++ rest) ∧
  ∃ i link, names t !! file_path = Some (Resolves i link) ∧
            nodes t !! i = Some (NFile mode content).

(** The invariant of the specification, as the claim states it, on a
    tree [t] after the classifier ran on the tree at [top]. *)
Definition spec_file_invariant (t : tree) (top : path) : Prop :=
  ∀ file_path mode content,
    regular_file_under t top file_path mode content →
    (name (parent file_path) ∈ ["bin"; "sbin"] → mode = Mode.o755) ∧
    (has_shebang content = true → mode = Mode.o755) ∧
    (name (parent file_path) ∉ ["bin"; "sbin"] →
     has_shebang content = false → mode = Mode.o644).

(** What no [chmod] changes: the names, and of each object what it is
    and, for a file, its bytes. *)
Definition same_shape (t t' : tree) : Prop :=
  names t' = names t ∧
  ∀ i, set_mode 0 <$> (nodes t' !! i) = set_mode 0 <$> (nodes t !! i).

(** The tree after the classifier ran on the tree [t] at [top]. *)
Definition classified (sys : permos) (top : path) (t : tree) : tree :=
  world (set_rootfs_permissions sys top (St t [])).2.

(** A host that refuses nothing. *)
Definition willing : permos := PermOS (λ _ _ _, None).

(** A tree without links: every path names an object of its own. *)
Definition plain (entries : list (path * node)) : tree :=
  Tree (list_to_map (imap (λ i e, (e.1, Resolves i false)) entries))
       (list_to_map (imap (λ i e, (i, e.2)) entries)).

(** A small assembled tree: BusyBox in [bin], a hello script with a
    shebang in [etc], and an empty [rcS] in [etc/init.d]. *)
Definition sample (top : path) : tree :=
  plain
    [(top, NDir Mode.o777);
     (top ++ ["bin"], NDir Mode.o777);
     (top ++ ["bin"; "busybox"], NFile Mode.o644 "ELF");
     (top ++ ["etc"], NDir Mode.o777);
     (top ++ ["etc"; "hello"], NFile Mode.o644 ("#!/bin/sh" +:+ Str.nl +:+ "echo hello"));
     (top ++ ["etc"; "hostname"], NFile Mode.o777 "raspberrypi");
     (top ++ ["etc"; "init.d"], NDir Mode.o777);
     (top ++ ["etc"; "init.d"; "rcS"], NFile Mode.o644 "");
     (top ++ ["tmp"], NDir Mode.o755)].

(** The same tree with the symbolic link [share/sh] to [bin/busybox],
    as a BusyBox installation with links outside [bin] has it. *)
Definition linked (top : path) : tree :=
  Tree (<[top ++ ["share"] := Resolves 9 false]>
          (<[top ++ ["share"; "sh"] := Resolves 2 true]> (names (sample top))))
       (<[9%nat := NDir Mode.o755]> (nodes (sample top))).

End Permissions.

(** ** The host: privileges, directories, the mount table, external tools *)

Module Host.

(** What the program can observe of the file system in the functions
    below: which paths exist as directories and which are mount points. *)
Record disk : Type := Disk { dirs : gset string; mounts : gset string }.

(** How a spawned process ends: with an exit status and its captured
    output, decoded as text; with an exit status and output that is not
    text in the locale's encoding; not at all because the executable was
    not found; or with another error of [subprocess.run]. *)
Inductive proc : Type :=
  | Exited (returncode : Z) (out err : string)
  | Garbled (returncode : Z)
  | NoSuchFile
  | SpawnError (e : exn).

(** The behaviour of the host, outside the program's control. *)
Record os : Type := OS {
  spawn : list string → disk → proc * disk;
  mkdtemp_ : string → disk → (exn + string) * disk;
  rmtree_ : string → disk → option exn * disk;
  write_text_ : string → string → disk → option exn * disk;
}.

(** What the program asked of the host, in order. *)
Inductive event : Type :=
  | Spawn (argv : list string)
  | Mkdtemp (path : string)
  | IsMount (path : string) (answer : bool)
  | Rmtree (path : string)
  | WriteText (path : string).

Record host : Type := Host {
  euid : Z;
  disk_of : disk;
  trace : list event;
}.

Definition record (e : event) (h : host) : host :=
  Host (euid h) (disk_of h) (trace h ++ [e]).

Definition set_disk (d : disk) (h : host) : host :=
  Host (euid h) d (trace h).

Section Calls.
Variable sys : os.

(** [os.geteuid()] *)
Definition geteuid : py host Z := h ← Py.get; mret (euid h).

(** [subprocess.run(argv, capture_output=True, text=True, check=True)]:
    the captured output of a process that exited with status 0;
    [CalledProcessError] for another status; [FileNotFoundError] for a
    missing executable.  The output is decoded before the status is
    looked at: when it is not text, [UnicodeDecodeError] (a [ValueError],
    outside the families named in [exn]) is raised whatever the
    status. *)
Definition subprocess_run (argv : list string) : py host (string * string) :=
  h ← Py.get;
  let '(p, d) := spawn sys argv (disk_of h) in
  Py.modify (λ h, record (Spawn argv) (set_disk d h)) ;;
  match p with
  | Exited 0 out err => mret (out, err)
  | Exited rc out err => Py.raise (CalledProcessError rc out err)
  | Garbled _ => Py.raise OtherException
  | NoSuchFile => Py.raise FileNotFoundError
  | SpawnError e => Py.raise e
  end.

(** [tempfile.mkdtemp(prefix=...)] *)
Definition mkdtemp (prefix : string) : py host string :=
  h ← Py.get;
  let '(r, d) := mkdtemp_ sys prefix (disk_of h) in
  match r with
  | inl e => Py.modify (set_disk d) ;; Py.raise e
  | inr path => Py.modify (λ h, record (Mkdtemp path) (set_disk d h)) ;;
                mret path
  end.

(** [shutil.rmtree(path)] *)
Definition rmtree (path : string) : py host () :=
  h ← Py.get;
  let '(r, d) := rmtree_ sys path (disk_of h) in
  Py.modify (λ h, record (Rmtree path) (set_disk d h)) ;;
  match r with
  | Some e => Py.raise e
  | None => mret ()
  end.

(** [path.write_text(content)] *)
Definition write_text (path content : string) : py host () :=
  h ← Py.get;
  let '(r, d) := write_text_ sys path content (disk_of h) in
  Py.modify (λ h, record (WriteText path) (set_disk d h)) ;;
  match r with
  | Some e => Py.raise e
  | None => mret ()
  end.

(** [path.is_mount()], [path.exists()], [path.is_dir()] *)
Definition is_mount (path : string) : py host bool :=
  h ← Py.get;
  let b := bool_decide (path ∈ mounts (disk_of h)) in
  Py.modify (record (IsMount path b)) ;;
  mret b.

Definition exists_ (path : string) : py host bool :=
  h ← Py.get; mret (bool_decide (path ∈ dirs (disk_of h))).

Definition is_dir (path : string) : py host bool := exists_ path.

(** *** [run_command] ([sub.py], lines 62-108)

    [cwd] and [env] are handed to the process and have no other use;
    what the process does with them is part of the host's answer
    [spawn].  [env] is left out. *)
Definition run_command (commands : list string) (cwd : option string)
    (desc : string) (check_root : bool) : py host () :=
  uid ← geteuid;
  (if check_root && negb (uid =? 0) then
     Py.print ("Fehler: Befehl '" +:+ String.concat " " commands +:+
               "' erfordert Root-Rechte. Bitte Skript als root ausführen (z.B. mit sudo).") ;;
     Py.sys_exit 1
   else mret ()) ;;
  Py.print (Str.nl +:+ "--- " +:+ desc +:+ " ---") ;;
  Py.try_except
    ('(out, err) ← subprocess_run commands;
     Py.when (negb (String.eqb out ""))
       (Py.print "Standardausgabe:" ;; Py.print (Str.strip out)) ;;
     Py.when (negb (String.eqb err ""))
       (Py.print "Standardfehlerausgabe:" ;;
        Py.print "Standardfehlerausgabe:" ;;
        Py.print (Str.strip err)) ;;
     Py.print ("Befehl '" +:+ String.concat " " commands +:+
               "' erfolgreich abgeschlossen."))
    (λ e, match e with
          | FileNotFoundError => Some (
              Py.print ("Fehler: Befehl '" +:+ hd "" commands +:+
                        "' nicht gefunden. Stellen Sie sicher, dass er im PATH liegt oder der Pfad korrekt ist.") ;;
              Py.sys_exit 1)
          | CalledProcessError rc out err => Some (
              Py.print ("Fehler bei Befehl '" +:+ String.concat " " commands +:+ "':") ;;
              Py.print ("Exit Code: " +:+ pretty rc) ;;
              Py.when (negb (String.eqb out ""))
                (Py.print "Standardausgabe:" ;; Py.print (Str.strip out)) ;;
              Py.when (negb (String.eqb err ""))
                (Py.print "Standardfehlerausgabe:" ;; Py.print (Str.strip err)) ;;
              Py.sys_exit 1)
          | _ => None
          end).
End Calls.

(** How [run_command] ends once the privilege check has passed, by the way
    the process ended. *)
Definition run_command_end (p : proc) : outcome () :=
  match p with
  | Exited 0 _ _ => Return ()
  | Exited _ _ _ | NoSuchFile => SystemExit 1
  | Garbled _ => Raise OtherException
  | SpawnError FileNotFoundError | SpawnError (CalledProcessError _ _ _) =>
      SystemExit 1
  | SpawnError e => Raise e
  end.

(** A command failed and [subprocess.run] reports the failure: its
    executable is missing, or it exited with a non-zero status and its
    output is text. *)
Definition command_failed (p : proc) : Prop :=
  match p with
  | Exited rc _ _ => rc ≠ 0
  | NoSuchFile => True
  | Garbled _ | SpawnError _ => False
  end.

(** The process ran and exited with a non-zero status, whatever it
    wrote. *)
Definition exit_status_nonzero (p : proc) : Prop :=
  match p with
  | Exited rc _ _ | Garbled rc => rc ≠ 0
  | NoSuchFile | SpawnError _ => False
  end.

(** The first line of the diagnostics [run_command] prints for it. *)
Definition diagnostic (commands : list string) (p : proc) : string :=
  match p with
  | NoSuchFile =>
      "Fehler: Befehl '" +:+ hd "" commands +:+
      "' nicht gefunden. Stellen Sie sicher, dass er im PATH liegt oder der Pfad korrekt ist."
  | _ => "Fehler bei Befehl '" +:+ String.concat " " commands +:+ "':"
  end.

(** A host on which every call succeeds and does what its manual says:
    [mount image dir] enters [dir] in the mount table, [umount dir] removes
    it, [mkdtemp] creates the directory [/tmp/<prefix>0], [rmtree] removes
    the directory, every other tool exits with status 0 and leaves
    directories and mounts alone.  [ends] overrides the end of chosen
    commands; such a command has no effect. *)
Definition linux (ends : list string → option proc) : os :=
  OS (λ argv d,
        match ends argv with
        | Some p => (p, d)
        | None =>
            match argv with
            | [tool; _; dir] =>
                if decide (tool = "mount")
                then (Exited 0 "" "", Disk (dirs d) ({[dir]} ∪ mounts d))
                else (Exited 0 "" "", d)
            | [tool; dir] =>
                if decide (tool = "umount")
                then (Exited 0 "" "", Disk (dirs d) (mounts d ∖ {[dir]}))
                else (Exited 0 "" "", d)
            | _ => (Exited 0 "" "", d)
            end
        end)
     (λ prefix d,
        let path := "/tmp/" +:+ prefix +:+ "0" in
        (inr path, Disk ({[path]} ∪ dirs d) (mounts d)))
     (λ path d, (None, Disk (dirs d ∖ {[path]}) (mounts d)))
     (λ _ _ d, (None, d)).

(** The build host before the image is made: the process runs as root and
    the listed directories exist; nothing is mounted. *)
Definition build_host (directories : list string) : host :=
  Host 0 (Disk (list_to_set directories) ∅) [].

(** The end of one tool is fixed, every other tool succeeds. *)
Definition only (tool : string) (p : proc) (argv : list string) : option proc :=
  match argv with
  | t :: _ => if decide (t = tool) then Some p else None
  | [] => None
  end.

End Host.

(** ** 4.3 Device Node Table

    [create_device_nodes] ([sub.py], lines 320-350) and the device step of
    [create_initramfs] ([sub.py], lines 875-889) inside its [try] block
    (lines 769-936). *)

Module DeviceNodes.

(** What exists at a path is known by its [st_mode]. *)
Record devhost : Type := DevHost {
  euid : Z;
  entries : gmap string Z;
  made : list (string * Z * Z);   (* successful [os.mknod] calls *)
}.

(** The host's answers: the error with which [os.mknod] is refused at a
    path, if it is; the directory [mkdtemp] creates, or its error; the
    error of [shutil.rmtree], if any; and the file mode creation mask the
    process runs with. *)
Record devos : Type := DevOS {
  mknod_error : string → option exn;
  mkdtemp_result : exn + string;
  rmtree_error : option exn;
  umask : Z;
}.

Definition joinpath (a b : string) : string := a +:+ "/" +:+ b.

(** [os.makedev(major, minor)], as glibc packs it. *)
Definition makedev (major minor : Z) : Z :=
  Z.lor (Z.lor (Z.shiftl (Z.land major 4095) 8)
               (Z.shiftl (Z.land major 4294963200) 32))
        (Z.lor (Z.land minor 255)
               (Z.shiftl (Z.land minor 4294967040) 12)).

(** A [DeviceNodeSpec]: name, major, minor, and ['c'] or ['b']. *)
Definition spec : Type := string * Z * Z * ascii.

(** [mode | (stat.S_IFCHR if type_char == 'c' else stat.S_IFBLK)] with
    [mode = 0o666 if type_char == 'c' else 0o660] *)
Definition node_mode (type_char : ascii) : Z :=
  let mode := if Ascii.eqb type_char "c" then Mode.o666 else Mode.o660 in
  Z.lor mode (if Ascii.eqb type_char "c" then Mode.S_IFCHR else Mode.S_IFBLK).

Definition describe (e : exn) : string :=
  match e with
  | FileNotFoundError => "[Errno 2] No such file or directory"
  | FileExistsError => "[Errno 17] File exists"
  | PermissionError => "[Errno 1] Operation not permitted"
  | OSError => "[Errno 5] Input/output error"
  | CalledProcessError rc _ _ =>
      "Command returned non-zero exit status " +:+ pretty rc +:+ "."
  | OtherException => "error"
  end.

Section Calls.
Variable sys : devos.

(** [path.exists()] *)
Definition exists_ (path : string) : py devhost bool :=
  h ← Py.get; mret (bool_decide (is_Some (entries h !! path))).

(** [os.mknod(path, mode, device)]: the node gets the requested mode
    less the bits of the umask. *)
Definition os_mknod (path : string) (mode device : Z) : py devhost () :=
  h ← Py.get;
  match mknod_error sys path with
  | Some e => Py.raise e
  | None =>
      if bool_decide (is_Some (entries h !! path))
      then Py.raise FileExistsError
      else Py.modify (λ h,
             DevHost (euid h)
                     (<[path := Mode.masked (umask sys) mode]> (entries h))
                     (made h ++ [(path, mode, device)]))
  end.

Definition device_nodes : list spec :=
  [("console", 5, 1, "c"%char);
   ("null", 1, 3, "c"%char);
   ("zero", 1, 5, "c"%char);
   ("random", 1, 8, "c"%char);
   ("urandom", 1, 9, "c"%char);
   ("tty", 5, 0, "c"%char);
   ("tty0", 4, 0, "c"%char);
   ("tty1", 4, 1, "c"%char)].

(** [create_device_nodes]; [rootfs_dir] is the global of that name. *)
Definition create_device_nodes (rootfs_dir : string) : py devhost () :=
  Py.print (Str.nl +:+ "Erstelle statische Geräteknoten in /dev...") ;;
  let dev_dir := joinpath rootfs_dir "dev" in
  Py.for_each device_nodes (λ '(name, major, minor, type_char),
    let dev_path := joinpath dev_dir name in
    Py.try_except
      (present ← exists_ dev_path;
       if negb present
       then os_mknod dev_path (node_mode type_char) (makedev major minor)
       else mret ())
      (Py.except_OSError_then
         (λ e,
            Py.print ("WARNUNG: Konnte Geräteknoten '" +:+ name +:+
                      "' nicht erstellen (Typ " +:+ String type_char "" +:+
                      ", " +:+ pretty major +:+ ":" +:+ pretty minor +:+
                      "): " +:+ describe e) ;;
            Py.print "         Dies ist normal, wenn 'mdev -s' (in init-Skript) diese dynamisch erstellt.")
         (Py.except_Exception
            (λ e, Py.print ("Unerwarteter Fehler bei '" +:+ name +:+ "': "
                            +:+ describe e))))) ;;
  Py.print "Statische Geräteknoten-Erstellung abgeschlossen (ggf. dynamisch durch mdev/udev ergänzt).".

(** *** [create_initramfs] *)

(** The host with the local variable [temp_initramfs_staging_dir]. *)
Record frame : Type := Frame {
  machine : devhost;
  temp_initramfs_staging_dir : option string;
}.

Definition lift {A} (m : py devhost A) : py frame A :=
  λ s, match m (St (machine (world s)) (stdout s)) with
       | (r, s') =>
           (r, St (Frame (world s') (temp_initramfs_staging_dir (world s)))
                  (stdout s'))
       end.

Definition assign (v : option string) : py frame () :=
  Py.modify (λ f, Frame (machine f) v).

Definition local : py frame (option string) :=
  f ← Py.get; mret (temp_initramfs_staging_dir f).

(** [tempfile.mkdtemp(prefix="initramfs_staging_")]: the directory is
    created with mode [0o700]. *)
Definition mkdtemp : py devhost string :=
  match mkdtemp_result sys with
  | inl e => Py.raise e
  | inr path =>
      Py.modify (λ h, DevHost (euid h) (<[path := Mode.o700]> (entries h))
                              (made h)) ;;
      mret path
  end.

(** [shutil.rmtree(path)] *)
Definition rmtree (path : string) : py devhost () :=
  match rmtree_error sys with
  | Some e => Py.raise e
  | None =>
      Py.modify (λ h,
        DevHost (euid h)
                (filter (λ kv, negb (String.prefix path kv.1)) (entries h))
                (made h))
  end.

Definition initramfs_device_nodes : list spec :=
  [("console", 5, 1, "c"%char);
   ("null", 1, 3, "c"%char);
   ("zero", 1, 5, "c"%char);
   ("tty", 5, 0, "c"%char)].

(** Steps 1 to 3 of the [try] block (BusyBox and its links, the
    libraries, the init script) and steps 5 and 6 (cpio and gzip) act on
    the staging directory; they are taken as given. *)
Variable populate : string → py frame ().
Variable archive : string → string → py frame ().

Definition create_initramfs (output_initramfs_path : string) : py frame () :=
  Py.print (Str.nl +:+ "--- Erstelle Initramfs '" +:+ output_initramfs_path +:+ "' ---") ;;
  uid ← lift (h ← Py.get; mret (euid h));
  (if negb (uid =? 0) then
     Py.print "Fehler: Diese Funktion erfordert Root-Rechte. Bitte Skript als root ausführen (z.B. mit sudo)." ;;
     Py.sys_exit 1
   else mret ()) ;;
  assign None ;;
  Py.try_finally
    (Py.try_except
       (tmp ← lift mkdtemp;
        assign (Some tmp) ;;
        Py.print ("Temporäres Initramfs-Staging-Verzeichnis erstellt: " +:+ tmp) ;;
        populate tmp ;;
        Py.print "Erstelle statische Gerätedateien für Initramfs /dev..." ;;
        let dev_dir := joinpath tmp "dev" in
        Py.for_each initramfs_device_nodes (λ '(name, major, minor, type_char),
          let dev_path := joinpath dev_dir name in
          present ← lift (exists_ dev_path);
          if negb present
          then lift (os_mknod dev_path (node_mode type_char)
                       (makedev major minor))
          else mret ()) ;;
        Py.print "Initramfs Gerätedateien erstellt." ;;
        archive tmp output_initramfs_path)
       (Py.except_Exception (λ e,
          Py.print ("Kritischer Fehler beim Erstellen des Initramfs: " +:+ describe e) ;;
          Py.sys_exit 1)))
    (v ← local;
     present ← match v with
               | None => mret false
               | Some path => lift (exists_ path)
               end;
     Py.when present
       (let path := default "" v in
        Py.print ("Entferne temporäres Initramfs-Staging-Verzeichnis: " +:+ path) ;;
        Py.try_except
          (lift (rmtree path) ;;
           Py.print "Temporäres Initramfs-Staging-Verzeichnis entfernt.")
          (Py.except_Exception (λ e,
             Py.print ("WARNUNG: Konnte temporäres Verzeichnis '" +:+ path +:+
                       "' nicht entfernen: " +:+ describe e) ;;
             Py.print "         Bitte manuell entfernen.")))) ;;
  Py.print ("--- Initramfs '" +:+ output_initramfs_path +:+ "' erfolgreich erstellt ---").
End Calls.

(** A host that refuses every [os.mknod] with [PermissionError], as an
    unprivileged container does; everything else succeeds.  The umask is
    [0o022]. *)
Definition unprivileged : devos :=
  DevOS (λ _, Some PermissionError) (inr "/tmp/initramfs_staging_0") None 18.

(** A host that refuses nothing, with umask [0o022]. *)
Definition privileged : devos :=
  DevOS (λ _, None) (inr "/tmp/initramfs_staging_0") None 18.

(** The other steps of [create_initramfs] succeeding: the directories of
    the staging tree are made, the archive is written. *)
Definition populate_ok (tmp : string) : py frame () :=
  Py.for_each ["bin"; "sbin"; "lib"; "lib64"; "dev"; "proc"; "sys"; "mnt"]
    (λ d, Py.modify (λ f,
       Frame (DevHost (euid (machine f))
                      (<[joinpath tmp d := Mode.o755]> (entries (machine f)))
                      (made (machine f)))
             (temp_initramfs_staging_dir f))).

Definition archive_ok (tmp output : string) : py frame () := mret ().

(** *** Vocabulary of the device table's properties *)

(** The call of [os.mknod] that a row of the table asks for under
    [dev_dir]: path, mode and device number. *)
Definition node_call (dev_dir : string) (row : spec) : string * Z * Z :=
  let '(name, major, minor, type_char) := row in
  (joinpath dev_dir name, node_mode type_char, makedev major minor).

(** What [os.mknod] does to the host when it is not refused, in a process
    with the umask [mask]. *)
Definition with_node (mask : Z) (h : devhost) (call : string * Z * Z)
    : devhost :=
  DevHost (euid h) (<[call.1.1 := Mode.masked mask call.1.2]> (entries h))
          (made h ++ [call]).

(** From the host [h0] to [h], what existed is as it was, and what is new
    is a node of the table under [rootfs_dir], with the mode of its row
    less the bits of the umask [mask]. *)
Definition grown (mask : Z) (rootfs_dir : string) (h0 h : devhost) : Prop :=
  euid h = euid h0 ∧
  (∀ p m, entries h0 !! p = Some m → entries h !! p = Some m) ∧
  (∀ p m, entries h !! p = Some m →
     entries h0 !! p = Some m ∨
     ∃ name major minor type_char,
       (name, major, minor, type_char) ∈ device_nodes ∧
       p = joinpath (joinpath rootfs_dir "dev") name ∧
       m = Mode.masked mask (node_mode type_char)).

End DeviceNodes.

(** ** 4.5 Dependency Resolver

    [find_dynamic_libraries] ([sub.py], lines 658-732). *)

Module Resolver.

(** A [pathlib.Path]: whether it is absolute, and its parts. *)
Definition ppath : Type := bool * list string.

(** [pathlib.Path(s)] *)
Definition of_string (s : string) : ppath :=
  (Str.startswith "/" s, Path.parts s).

(** [p / s]: an absolute [s] replaces [p]. *)
Definition div (p : ppath) (s : string) : ppath :=
  let q := of_string s in
  if q.1 then q else (p.1, p.2 ++ q.2).

(** [str(p)] *)
Definition to_string (p : ppath) : string :=
  if p.1 then "/" +:+ String.concat "/" p.2 else Path.to_string p.2.

(** What the host answers: how the readelf process ends, which paths
    exist and which are directories, what a recursive glob finds, and in
    which order a [set] is iterated. *)
Record rhost : Type := RHost {
  readelf : list string → Host.proc;
  exists_ : ppath → bool;
  is_dir : ppath → bool;
  glob : ppath → string → list ppath;
  iter_names : gset string → list string;
  iter_paths : gset ppath → list ppath;
}.

(** [re.search(r"Shared library: \[(.*?)]", line)] and [match.group(1)].
    The leftmost match starts at the first occurrence of the literal
    prefix, and the lazy group ends at the first closing bracket after
    it; when no bracket follows the first occurrence, none follows a
    later one. *)
Definition shared_library (line : string) : option string :=
  rest ← Str.after_first "Shared library: [" line;
  Str.before_first "]" rest.

(** The loop over [result.stdout.splitlines()]. *)
Definition needed_of (stdout : string) : gset string :=
  foldl (λ needed_libs line,
           if Str.contains "NEEDED" line then
             match shared_library line with
             | Some lib_name => needed_libs ∪ {[lib_name]}
             | None => needed_libs
             end
           else needed_libs)
        ∅ (Str.splitlines stdout).

Section Calls.
Variable sys : rhost.
(** The global [cross_prefix]. *)
Variable cross_prefix : string.

Definition search_paths (cross_compiler_root : string) : list ppath :=
  let root := of_string cross_compiler_root in
  let triple := Str.rstrip_char "-" cross_prefix in
  let fixed :=
    [div (div root triple) "libc";
     div (div root triple) "lib";
     div root "lib";
     div (div root "usr") "lib";
     div (div (div root "usr") triple) "lib";
     div (div (div root "usr") triple) "libc"] in
  let sysroot_path := div (div root "aarch64-linux-gnu") "libc" in
  if is_dir sys sysroot_path then
    fixed ++ [div sysroot_path "lib"; div (div sysroot_path "usr") "lib"]
  else
    fixed ++
    flat_map (λ p, if is_dir sys p && is_dir sys (div p "lib")
                   then [div p "lib"; div (div p "usr") "lib"]
                   else [])
             (glob sys root ("**/" +:+ triple +:+ "*")).

(** The inner loop: the first search path under which the library
    exists. *)
Fixpoint first_hit (lib_name : string) (paths : list ppath) : option ppath :=
  match paths with
  | [] => None
  | search_path :: rest =>
      let lib_path := div search_path lib_name in
      if exists_ sys lib_path then Some lib_path else first_hit lib_name rest
  end.

Definition warning_not_found (lib_name : string) : string :=
  "WARNUNG: Benötigte Bibliothek '" +:+ lib_name +:+
  "' nicht im Cross-Compiler-Root gefunden.".

(** The outer loop, [found_lib_paths] being threaded through. *)
Fixpoint resolve (names : list string) (paths : list ppath)
    (found_lib_paths : list ppath) : py () (list ppath) :=
  match names with
  | [] => mret found_lib_paths
  | lib_name :: rest =>
      match first_hit lib_name paths with
      | Some lib_path => resolve rest paths (found_lib_paths ++ [lib_path])
      | None =>
          Py.print (warning_not_found lib_name) ;;
          resolve rest paths found_lib_paths
      end
  end.

(** The [try] block around readelf: the needed names, or [None] when a
    handler has returned the empty list. *)
Definition read_needed (binary_path : string)
    : py () (option (gset string)) :=
  let readelf_cmd := cross_prefix +:+ "readelf" in
  Py.try_except
    (match readelf sys [readelf_cmd; "-d"; binary_path] with
     | Host.Exited 0 out _ => mret (Some (needed_of out))
     | Host.Exited rc out err => Py.raise (CalledProcessError rc out err)
     | Host.Garbled _ => Py.raise OtherException
     | Host.NoSuchFile => Py.raise FileNotFoundError
     | Host.SpawnError e => Py.raise e
     end)
    (λ e, match e with
          | FileNotFoundError => Some (
              Py.print ("WARNUNG: '" +:+ readelf_cmd +:+
                        "' nicht gefunden. Kann dynamische Bibliotheken nicht identifizieren.") ;;
              mret None)
          | CalledProcessError _ _ err => Some (
              Py.print ("WARNUNG: Fehler bei Ausführung von '" +:+ readelf_cmd
                        +:+ " -d " +:+ binary_path +:+ "': " +:+ err) ;;
              mret None)
          | _ => None
          end).

(** [cross_compiler_root] comes from the recipe: [None] when the key is
    absent.  [None] and the empty string are falsy. *)
Definition find_dynamic_libraries (binary_path : string)
    (cross_compiler_root : option string) : py () (list ppath) :=
  needed ← read_needed binary_path;
  match needed with
  | None => mret []
  | Some needed_libs =>
      match cross_compiler_root with
      | None | Some EmptyString =>
          Py.print "WARNUNG: 'cross_compiler_root' ist nicht in busybox.yaml definiert. Dynamische Bibliotheken können nicht gefunden werden." ;;
          Py.print "         Stellen Sie sicher, dass Ihre BusyBox statisch kompiliert ist oder fügen Sie 'cross_compiler_root' hinzu." ;;
          mret []
      | Some root =>
          let paths := search_paths root in
          Py.print ("Suche nach dynamischen Bibliotheken in: [" +:+
                    String.concat ", "
                      (map (λ p, "PosixPath('" +:+ to_string p +:+ "')") paths)
                    +:+ "]") ;;
          found_lib_paths ← resolve (iter_names sys needed_libs) paths [];
          mret (iter_paths sys (list_to_set found_lib_paths))
      end
  end.
End Calls.

(** *** Vocabulary of the resolver's properties *)

(** The iteration over a set visits each element once, in some order. *)
Definition iterates_each_once (sys : rhost) : Prop :=
  (∀ X, iter_names sys X ≡ₚ elements X) ∧
  (∀ X, iter_paths sys X ≡ₚ elements X).

(** The warnings among the printed lines. *)
Definition warnings (printed : list string) : list string :=
  filter (λ line, Str.startswith "WARNUNG" line = true) printed.

(** A sysroot [/usr/aarch64-linux-gnu] that holds [libc.so.6] in its [lib]
    directory and nothing else; readelf reports [libc.so.6] and
    [libm.so.6] as needed. *)
Definition readelf_output : string :=
  "Dynamic section at offset 0xf0d98 contains 26 entries:" +:+ Str.nl +:+
  "  Tag        Type                         Name/Value" +:+ Str.nl +:+
  " 0x0000000000000001 (NEEDED)             Shared library: [libm.so.6]" +:+ Str.nl +:+
  " 0x0000000000000001 (NEEDED)             Shared library: [libc.so.6]" +:+ Str.nl +:+
  " 0x000000000000000c (INIT)               0x3a40" +:+ Str.nl.

Definition sample_host : rhost :=
  RHost (λ _, Host.Exited 0 readelf_output "")
        (λ p, bool_decide
                (p = (true, ["usr"; "aarch64-linux-gnu"; "lib"; "libc.so.6"])))
        (λ p, bool_decide
                (p ∈ [(true, ["usr"; "aarch64-linux-gnu"]);
                      (true, ["usr"; "aarch64-linux-gnu"; "lib"])]))
        (λ _ _, [])
        elements elements.

End Resolver.

(** ** 4.7 Disk Image Packager

    [create_rootfs_ext4_image] ([sub.py], lines 436-516) and
    [create_bootfs_vfat_image] ([sub.py], lines 519-655).  Paths are the
    strings the program prints and passes to the tools. *)

Module ImagePackager.
Import Host.

(** [a / b] of [pathlib] for a relative, non-empty [b]. *)
Definition joinpath (a b : string) : string := a +:+ "/" +:+ b.

(** The text that [{e}] shows for an exception in a message. *)
Definition describe (e : exn) : string :=
  match e with
  | FileNotFoundError => "[Errno 2] No such file or directory"
  | FileExistsError => "[Errno 17] File exists"
  | PermissionError => "[Errno 1] Operation not permitted"
  | OSError => "[Errno 5] Input/output error"
  | CalledProcessError rc _ _ =>
      "Command returned non-zero exit status " +:+ pretty rc +:+ "."
  | OtherException => "error"
  end.

(** The host together with the local variable [temp_mount_point], which is
    assigned inside the [try] block and read in the [finally] block. *)
Record frame : Type := Frame {
  machine : host;
  temp_mount_point : option string;
}.

Definition lift {A} (m : py host A) : py frame A :=
  λ s, match m (St (machine (world s)) (stdout s)) with
       | (r, s') =>
           (r, St (Frame (world s') (temp_mount_point (world s))) (stdout s'))
       end.

Definition assign (v : option string) : py frame () :=
  Py.modify (λ f, Frame (machine f) v).

Definition local : py frame (option string) :=
  f ← Py.get; mret (temp_mount_point f).

(** [temp_mount_point and q(temp_mount_point)]: [None] is falsy and [q]
    is then not evaluated; a [Path] is always truthy. *)
Definition local_and (q : string → py host bool) : py frame bool :=
  v ← local;
  match v with
  | None => mret false
  | Some path => lift (q path)
  end.

Definition cmdline_content : string :=
  "console=ttyS0,115200 console=tty1 " +:+
  "root=/dev/mmcblk0p2 rootfstype=ext4 " +:+
  "rootwait init=/init " +:+
  "cma=128M " +:+
  "quiet rw " +:+
  "initrd=initramfs.gz".

(** [config_content.strip()] *)
Definition config_content_stripped : string :=
"# Raspberry Pi 5 specific configuration for minimal boot
arm_64bit=1
kernel=kernel8.img
initramfs initramfs.gz followkernel

# Enable UART for serial console
enable_uart=1
# Route Bluetooth to miniUART to free up ttyS0 for console (if applicable)
# For RPi5, this might be handled differently or not needed depending on firmware/kernel
# If you run into issues, try removing this line or researching RPi5 UART setup.
# dtoverlay=miniuart-bt

# Generic settings
dtparam=audio=on

# Disable any unnecessary boot messages or splash screens
disable_splash=1
disable_overscan=1
overscan_left=0
overscan_right=0
overscan_top=0
overscan_bottom=0

# Maximize compatibility
# force_turbo=1 # Consider this if you need maximum performance, but it voids warranty.".

Section Images.
Variable sys : os.

(** Step "Leere Image-Datei erstellen": [fallocate], with [dd] in the
    handler for [subprocess.CalledProcessError]. *)
Definition allocate (image_path : string) (image_size_mb : Z) : py frame () :=
  Py.print ("Erstelle leere Image-Datei '" +:+ image_path +:+ "' mit " +:+
            pretty image_size_mb +:+ " MB...") ;;
  Py.try_except
    (lift (run_command sys
             ["fallocate"; "-l"; pretty image_size_mb +:+ "M"; image_path]
             None "Image-Datei allokieren" true))
    (Py.except_CalledProcessError
       (Py.print "Fallocate nicht verfügbar oder fehlgeschlagen, verwende dd als Fallback..." ;;
        lift (run_command sys
                ["dd"; "if=/dev/zero"; "of=" +:+ image_path; "bs=1M";
                 "count=" +:+ pretty image_size_mb]
                None "Image-Datei allokieren (dd)" true))) ;;
  Py.print "Image-Datei erstellt.".

(** The [finally] block, the same in both functions: unmount if the
    mount point is mounted, then remove the mount point if it exists. *)
Definition cleanup : py frame () :=
  mounted ← local_and is_mount;
  Py.when mounted
    (tmp ← local;
     let temp_mount_point := default "" tmp in
     Py.print ("Hänge Image von '" +:+ temp_mount_point +:+ "' aus...") ;;
     Py.try_except
       (lift (run_command sys ["umount"; temp_mount_point] None
                "Image aushängen" true) ;;
        Py.print "Image erfolgreich ausgehängt.")
       (Py.except_Exception (λ e,
          Py.print ("WARNUNG: Konnte Image von '" +:+ temp_mount_point +:+
                    "' nicht aushängen: " +:+ describe e) ;;
          Py.print "         Bitte manuell überprüfen und ggf. 'sudo umount -l {temp_mount_point}' verwenden."))) ;;
  present ← local_and exists_;
  Py.when present
    (tmp ← local;
     let temp_mount_point := default "" tmp in
     Py.print ("Entferne temporäres Mount-Verzeichnis: " +:+ temp_mount_point) ;;
     Py.try_except
       (lift (rmtree sys temp_mount_point) ;;
        Py.print "Temporäres Mount-Verzeichnis entfernt.")
       (Py.except_Exception (λ e,
          Py.print ("WARNUNG: Konnte temporäres Verzeichnis '" +:+
                    temp_mount_point +:+ "' nicht entfernen: " +:+ describe e) ;;
          Py.print "         Bitte manuell entfernen."))).

Definition create_rootfs_ext4_image (rootfs_base_dir image_output_path : string)
    (image_size_mb : Z) : py frame () :=
  Py.print (Str.nl +:+ "--- Erstelle EXT4-Image '" +:+ image_output_path +:+ "' ---") ;;
  uid ← lift geteuid;
  (if negb (uid =? 0) then
     Py.print "Fehler: Diese Funktion erfordert Root-Rechte. Bitte Skript als root ausführen (z.B. mit sudo)." ;;
     Py.sys_exit 1
   else mret ()) ;;
  isd ← lift (is_dir rootfs_base_dir);
  (if negb isd then
     Py.print ("Fehler: Das Rootfs-Verzeichnis '" +:+ rootfs_base_dir +:+
               "' existiert nicht oder ist kein Verzeichnis.") ;;
     Py.sys_exit 1
   else mret ()) ;;
  assign None ;;
  Py.try_finally
    (Py.try_except
       (tmp ← lift (mkdtemp sys "rootfs_mount_");
        assign (Some tmp) ;;
        Py.print ("Temporäres Mount-Verzeichnis erstellt: " +:+ tmp) ;;
        allocate image_output_path image_size_mb ;;
        Py.print ("Formatiere '" +:+ image_output_path +:+ "' als ext4-Dateisystem...") ;;
        lift (run_command sys ["mkfs.ext4"; "-F"; image_output_path] None
                "ext4 formatieren" true) ;;
        Py.print "Image formatiert." ;;
        Py.print ("Hänge Image '" +:+ image_output_path +:+ "' an '" +:+ tmp +:+ "' ein...") ;;
        lift (run_command sys ["mount"; image_output_path; tmp] None
                "Image mounten" true) ;;
        Py.print "Image eingehängt." ;;
        Py.print ("Kopiere Inhalt von '" +:+ rootfs_base_dir +:+ "' nach '" +:+ tmp +:+ "'...") ;;
        lift (run_command sys
                ["rsync"; "-a"; "--info=progress2"; rootfs_base_dir +:+ "/"; tmp +:+ "/"]
                None "Rootfs in Image kopieren" true) ;;
        Py.print "Inhalt erfolgreich kopiert.")
       (Py.except_Exception (λ e,
          Py.print ("Kritischer Fehler beim Erstellen des EXT4-Images: " +:+ describe e) ;;
          Py.sys_exit 1)))
    cleanup ;;
  Py.print ("--- EXT4-Image '" +:+ image_output_path +:+ "' erfolgreich erstellt ---").

Definition firmware_repo_url : string := "https://github.com/raspberrypi/firmware.git".

Definition create_bootfs_vfat_image (output_image_path firmware_clone_dir : string)
    (image_size_mb : Z) : py frame () :=
  Py.print (Str.nl +:+ "--- Erstelle BOOTFS (FAT32) Image '" +:+ output_image_path +:+ "' ---") ;;
  uid ← lift geteuid;
  (if negb (uid =? 0) then
     Py.print "Fehler: Diese Funktion erfordert Root-Rechte. Bitte Skript als root ausführen (z.B. mit sudo)." ;;
     Py.sys_exit 1
   else mret ()) ;;
  assign None ;;
  Py.try_finally
    (Py.try_except
       (cloned ← lift (exists_ firmware_clone_dir);
        (if (cloned : bool) then
           Py.print ("Firmware-Verzeichnis '" +:+ firmware_clone_dir +:+
                     "' existiert bereits. Versuche zu aktualisieren...") ;;
           lift (run_command sys ["git"; "pull"] (Some firmware_clone_dir)
                   "Firmware aktualisieren" false)
         else
           Py.print ("Klone Raspberry Pi Firmware von '" +:+ firmware_repo_url +:+
                     "' nach '" +:+ firmware_clone_dir +:+ "'...") ;;
           lift (run_command sys ["git"; "clone"; firmware_repo_url; firmware_clone_dir]
                   None "Firmware klonen" false)) ;;
        let source_boot_dir := joinpath firmware_clone_dir "boot" in
        isd ← lift (is_dir source_boot_dir);
        (if negb isd then
           Py.print ("Fehler: Der 'boot'-Ordner wurde im geklonten Repository nicht gefunden: "
                     +:+ source_boot_dir) ;;
           Py.sys_exit 1
         else mret ()) ;;
        Py.print ("Quell-Boot-Verzeichnis: " +:+ source_boot_dir) ;;
        tmp ← lift (mkdtemp sys "bootfs_mount_");
        assign (Some tmp) ;;
        Py.print ("Temporäres Mount-Verzeichnis erstellt: " +:+ tmp) ;;
        allocate output_image_path image_size_mb ;;
        Py.print ("Formatiere '" +:+ output_image_path +:+ "' als FAT32-Dateisystem...") ;;
        lift (run_command sys ["mkfs.vfat"; "-F"; "32"; output_image_path] None
                "FAT32 formatieren" true) ;;
        Py.print "Image formatiert." ;;
        Py.print ("Hänge Image '" +:+ output_image_path +:+ "' an '" +:+ tmp +:+ "' ein...") ;;
        lift (run_command sys ["mount"; output_image_path; tmp] None
                "Image mounten" true) ;;
        Py.print "Image eingehängt." ;;
        Py.print ("Kopiere Inhalt von '" +:+ source_boot_dir +:+ "' nach '" +:+ tmp +:+ "'...") ;;
        lift (run_command sys
                ["rsync"; "-a"; "--info=progress2"; source_boot_dir +:+ "/"; tmp +:+ "/"]
                None "Boot-Dateien in Image kopieren" true) ;;
        Py.print "Inhalt erfolgreich kopiert." ;;
        Py.print "Erstelle cmdline.txt und config.txt..." ;;
        lift (write_text sys (joinpath tmp "cmdline.txt") (cmdline_content +:+ Str.nl)) ;;
        Py.print "cmdline.txt erstellt." ;;
        lift (write_text sys (joinpath tmp "config.txt")
                (config_content_stripped +:+ Str.nl)) ;;
        Py.print "config.txt erstellt.")
       (Py.except_Exception (λ e,
          Py.print ("Kritischer Fehler beim Erstellen des BOOTFS-Images: " +:+ describe e) ;;
          Py.sys_exit 1)))
    cleanup ;;
  Py.print ("--- BOOTFS (FAT32) Image '" +:+ output_image_path +:+ "' erfolgreich erstellt ---").
End Images.

(** *** Vocabulary of the cleanup property *)

(** Calling a function: its local variable is not bound yet. *)
Definition enter (h : host) : frame := Frame h None.

(** The unmount command succeeds: it exits with status 0 and the mount
    point is no longer in the mount table. *)
Definition unmount_succeeds (sys : os) : Prop :=
  ∀ dir d, ∃ out err d',
    spawn sys ["umount"; dir] d = (Exited 0 out err, d') ∧ dir ∉ mounts d'.

(** The removal succeeds: it raises nothing, the directory is gone, and
    no mount appears. *)
Definition removal_succeeds (sys : os) : Prop :=
  ∀ path d, ∃ d',
    rmtree_ sys path d = (None, d') ∧ (path ∉ dirs d') ∧ mounts d' ⊆ mounts d.

(** [mkdtemp] returns a directory that exists, and no tool and no write
    removes a directory. *)
Definition keeps_directories (sys : os) : Prop :=
  (∀ argv d, dirs d ⊆ dirs (spawn sys argv d).2) ∧
  (∀ path content d, dirs d ⊆ dirs (write_text_ sys path content d).2) ∧
  (∀ prefix d path d', mkdtemp_ sys prefix d = (inr path, d') → path ∈ dirs d').

(** The mount point [tmp] has been released on the host [h]: it is neither
    a directory nor a mount point any more, and the last things asked of
    the host were the mount check, the unmount if it was mounted, and
    then the removal. *)
Definition released (tmp : string) (h : host) : Prop :=
  (tmp ∉ dirs (disk_of h)) ∧ (tmp ∉ mounts (disk_of h)) ∧
  ∃ before (mounted : bool),
    trace h = before ++ IsMount tmp mounted ::
              (if mounted then [Spawn ["umount"; tmp]] else []) ++ [Rmtree tmp].

(** Since the host had been asked [t0], the function has only added to
    what was asked of it, and every mount point that [mkdtemp] created
    for it since then has been released (whether or not the local
    variable names it). *)
Definition mount_points_released (t0 : list event) (f : frame) : Prop :=
  ∃ added,
    trace (machine f) = t0 ++ added ∧
    ∀ tmp, Mkdtemp tmp ∈ added → released tmp (machine f).

(** [run] cleans up: called on any host, on whatever outcome it ends,
    every mount point created during the call has been released. *)
Definition cleans_up (run : py frame ()) : Prop :=
  ∀ h out,
    mount_points_released (trace h) (world (run (St (enter h) out)).2).

(** What holds between the privilege check and the end of a function that
    was called when the host had been asked [t0]: the process is root,
    the local variable holds [v], a mount point it names exists, and the
    only mount point created since the call is the one it names. *)
Definition Inv (t0 : list event) (v : option string) (f : frame) : Prop :=
  euid (machine f) = 0 ∧ temp_mount_point f = v ∧
  (∀ tmp, v = Some tmp → tmp ∈ dirs (disk_of (machine f))) ∧
  ∃ added,
    trace (machine f) = t0 ++ added ∧
    ∀ tmp, Mkdtemp tmp ∈ added → v = Some tmp.

(** *** Vocabulary of the pipeline's properties *)

(** The process is root, it has asked [t] of the host so far, and the
    local variable holds [v]. *)
Definition ran (t : list event) (v : option string) (f : frame) : Prop :=
  euid (machine f) = 0 ∧ trace (machine f) = t ∧ temp_mount_point f = v.

(** What the [finally] block asks of the host for the mount point [tmp]:
    the mount check, the unmount when it was mounted, the removal when it
    was still there. *)
Definition cleanup_events (tmp : string) (mounted present : bool) :
    list event :=
  IsMount tmp mounted ::
  (if mounted then [Spawn ["umount"; tmp]] else []) ++
  (if present then [Rmtree tmp] else []).

(** What a run that gets through the pipeline asks of the host up to the
    [finally] block, [tmp] being the mount point it created. *)
Definition rootfs_pipeline (rootfs_base_dir image_output_path : string)
    (image_size_mb : Z) (tmp : string) : list event :=
  [Mkdtemp tmp;
   Spawn ["fallocate"; "-l"; pretty image_size_mb +:+ "M"; image_output_path];
   Spawn ["mkfs.ext4"; "-F"; image_output_path];
   Spawn ["mount"; image_output_path; tmp];
   Spawn ["rsync"; "-a"; "--info=progress2"; rootfs_base_dir +:+ "/";
          tmp +:+ "/"]].

(** [git pull] in a clone that is there, [git clone] otherwise. *)
Definition firmware_command (firmware_clone_dir : string) (cloned : bool) :
    list string :=
  if cloned then ["git"; "pull"]
  else ["git"; "clone"; firmware_repo_url; firmware_clone_dir].

Definition bootfs_pipeline (output_image_path firmware_clone_dir : string)
    (image_size_mb : Z) (cloned : bool) (tmp : string) : list event :=
  [Spawn (firmware_command firmware_clone_dir cloned);
   Mkdtemp tmp;
   Spawn ["fallocate"; "-l"; pretty image_size_mb +:+ "M"; output_image_path];
   Spawn ["mkfs.vfat"; "-F"; "32"; output_image_path];
   Spawn ["mount"; output_image_path; tmp];
   Spawn ["rsync"; "-a"; "--info=progress2";
          joinpath firmware_clone_dir "boot" +:+ "/"; tmp +:+ "/"];
   WriteText (joinpath tmp "cmdline.txt");
   WriteText (joinpath tmp "config.txt")].

End ImagePackager.

(** ** The output directory of the initramfs

    [create_initramfs_output_dir] ([sub.py], lines 735-748), on the
    directories of the scaffold builder. *)

Module OutputDir.
Import Path Scaffold.
Definition create_initramfs_output_dir (output_dir : path) : py fs () :=
  Py.print (Str.nl +:+ "--- Erstelle Initramfs-Ausgabeverzeichnis: " +:+
            to_string output_dir +:+ " ---") ;;
  Py.try_except
    (mkdir output_dir true true ;;
     Py.print ("Verzeichnis '" +:+ to_string output_dir +:+
               "' erfolgreich erstellt oder existiert bereits."))
    (Py.except_Exception (λ e,
       Py.print ("Fehler: Konnte Initramfs-Ausgabeverzeichnis '" +:+
                 to_string output_dir +:+ "' nicht erstellen: " +:+
                 ImagePackager.describe e) ;;
       Py.sys_exit 1)).
End OutputDir.

(** ** BusyBox configuration and installation

    [configure_and_install_busybox] ([sub.py], lines 167-251).  Of the file
    system the function touches two files, [busybox.defconfig] in the
    current directory and [.config] in the BusyBox source directory; every
    other effect is that of the [make] processes. *)

Module BusyBox.
Import Host.

(** The host with the text of the two files, [None] for a file that does
    not exist. *)
Record bbhost : Type := BBHost {
  machine : host;
  defconfig : option string;
  config : option string;
}.

(** The host's answers: the tools; the errors of [shutil.copy2] and of
    opening [.config] for reading and for writing, if any; and what a
    process run with the given arguments leaves in [.config]. *)
Record bbos : Type := BBOS {
  tools : os;
  copy2_error : option exn;
  read_error : option exn;
  write_error : option exn;
  config_after : list string → option string → option string;
}.

Section Calls.
Variable sys : bbos.
(** [str.upper], and the globals [busybox_src_dir], [rootfs_dir] and
    [disabled_features]. *)
Variable upper : string → string.
Variable busybox_src_dir : string.
Variable rootfs_dir : string.
Variable disabled_features : list string.

(** [run_command(commands, cwd=busybox_src_dir, env=env_for_make,
    desc=desc)]: the process runs in the source directory and may
    rewrite [.config]. *)
Definition run_make (commands : list string) (desc : string)
    : py bbhost () :=
  λ s, match run_command (tools sys) commands (Some busybox_src_dir) desc
               false (St (machine (world s)) (stdout s)) with
       | (r, s') =>
           (r, St (BBHost (world s') (defconfig (world s))
                         (config_after sys commands (config (world s))))
                  (stdout s'))
       end.

(** [shutil.copy2(busybox_defconfig_source, busybox_src_dir / ".config")] *)
Definition copy2 : py bbhost () :=
  match copy2_error sys with
  | Some e => Py.raise e
  | None =>
      w ← Py.get;
      match defconfig w with
      | Some text => Py.modify (λ w, BBHost (machine w) (defconfig w) (Some text))
      | None => Py.raise FileNotFoundError
      end
  end.

(** [open(config_path, 'r')] with [f.readlines()], up to the split into
    lines, and [open(config_path, 'w')] with [f.writelines(...)]. *)
Definition read_config : py bbhost string :=
  match read_error sys with
  | Some e => Py.raise e
  | None =>
      w ← Py.get;
      match config w with
      | Some text => mret text
      | None => Py.raise FileNotFoundError
      end
  end.

Definition write_config (text : string) : py bbhost () :=
  match write_error sys with
  | Some e => Py.raise e
  | None => Py.modify (λ w, BBHost (machine w) (defconfig w) (Some text))
  end.

Definition configure_and_install_busybox : py bbhost () :=
  Py.print (Str.nl +:+ "--- Starte BusyBox Konfiguration und Installation ---") ;;
  w ← Py.get;
  (if negb (bool_decide (is_Some (defconfig w))) then
     Py.print "Fehler: Benutzerdefinierte Konfigurationsdatei 'busybox.defconfig' nicht gefunden." ;;
     Py.print "Bitte erstellen Sie diese Datei im selben Verzeichnis wie 'main.py'." ;;
     Py.print "Anleitung dazu finden Sie in den Kommentaren des Skripts." ;;
     Py.sys_exit 1
   else mret ()) ;;
  Py.print ("Kopiere 'busybox.defconfig' als '.config' nach '" +:+
            busybox_src_dir +:+ "'...") ;;
  Py.try_except
    (copy2 ;; Py.print "'.config' erfolgreich kopiert.")
    (Py.except_Exception (λ e,
       Py.print ("Fehler beim Kopieren der .config-Datei: " +:+
                 ImagePackager.describe e) ;;
       Py.sys_exit 1)) ;;
  Py.print "Führe 'make oldconfig' aus, um die Konfiguration zu finalisieren..." ;;
  run_make ["make"; "oldconfig"] "BusyBox make oldconfig" ;;
  (match disabled_features with
   | [] => mret ()
   | _ :: _ =>
       Py.print ("Modifiziere BusyBox .config zur Deaktivierung der Features: "
                 +:+ String.concat ", " disabled_features) ;;
       Py.try_except
         (text ← read_config;
          let '(new_text, printed) :=
            ConfigPatcher.patch_text upper disabled_features text in
          Py.for_each printed Py.print ;;
          write_config new_text ;;
          Py.print "BusyBox .config erfolgreich modifiziert.")
         (Py.except_Exception (λ e,
            Py.print ("Fehler beim Modifizieren der BusyBox .config: " +:+
                      ImagePackager.describe e) ;;
            Py.sys_exit 1))
   end) ;;
  Py.print "Kompiliere BusyBox..." ;;
  run_make ["make"] "BusyBox Kompilierung" ;;
  Py.print ("Installiere BusyBox in " +:+ rootfs_dir +:+ "...") ;;
  run_make ["make"; "INSTALL_DIR=" +:+ rootfs_dir; "install"]
    "BusyBox Installation" ;;
  Py.print (Str.nl +:+ "--- BusyBox Konfiguration und Installation abgeschlossen ---").

(** What the patching step leaves in [.config]. *)
Definition patched (c : option string) : option string :=
  match disabled_features with
  | [] => c
  | _ :: _ => ConfigPatcher.patch_file upper disabled_features <$> c
  end.
End Calls.

(** The three commands, in the order of a complete run. *)
Definition make_commands (rootfs_dir : string) : list (list string) :=
  [["make"; "oldconfig"]; ["make"];
   ["make"; "INSTALL_DIR=" +:+ rootfs_dir; "install"]].

(** A host on which every tool succeeds and leaves [.config] alone. *)
Definition willing : bbos :=
  BBOS (linux (λ _, None)) None None None (λ _ c, c).
End BusyBox.

(* ===================================================================== *)
(** * Part II: theorems                                                    *)
(* ===================================================================== *)

Section ConfigPatcherFacts.
Import Str ConfigPatcher.
Variable upper : string → string.

Example readlines_example :
  readlines ("CONFIG_A=y" +:+ String CR nl +:+ "# x" +:+ nl +:+ "CONFIG_B=m")
  = ["CONFIG_A=y" +:+ nl; "# x" +:+ nl; "CONFIG_B=m"].
Proof. reflexivity. Qed.

Example patch_example :
  patch_lines ascii_upper ["foo"; "bar"]
    ["CONFIG_FOO=y" +:+ nl; "CONFIG_BAR=n" +:+ nl; "CONFIG_BAZ=y" +:+ nl]
  = (["# CONFIG_FOO= is not set" +:+ nl; "CONFIG_BAR=n" +:+ nl;
      "CONFIG_BAZ=y" +:+ nl],
     ["  - Deaktiviert: foo"]).
Proof. reflexivity. Qed.

(** A line the loop writes starts with [#], a feature pattern with [C]. *)
Lemma not_set_not_pattern f g rest :
  startswith (feature_pattern upper g) (not_set upper f +:+ rest) = false.
Proof. reflexivity. Qed.

Lemma scan_Disabled line features new_line f :
  scan_features upper line features = Disabled new_line f →
  new_line = not_set upper f +:+ nl ∧ f ∈ features.
Proof.
  induction features as [|g gs IH]; simpl; [done|].
  destruct (startswith _ line).
  - destruct (ends_enabled line).
    + intros [= <- <-]. split; [done | left].
    + intros H. destruct (IH H). split; [done | by right].
  - destruct (String.eqb _ _); [done|].
    intros H. destruct (IH H). split; [done | by right].
Qed.

Lemma scan_NotModified line features f :
  scan_features upper line features = NotModified →
  f ∈ features →
  startswith (feature_pattern upper f) line = true →
  ends_enabled line = false.
Proof.
  induction features as [|g gs IH]; simpl; intros Hscan Hin Hpre.
  - by apply elem_of_nil in Hin.
  - apply elem_of_cons in Hin as [->|Hin].
    + rewrite Hpre in Hscan. by destruct (ends_enabled line).
    + destruct (startswith (feature_pattern upper g) line).
      * destruct (ends_enabled line); [done | reflexivity].
      * destruct (String.eqb _ _); [done | by apply IH].
Qed.

(** The part of the patcher's invariant that the loop does establish: no
    line the patcher leaves in the file is, for a requested feature, a
    line the loop would still rewrite (it starts with [CONFIG_<F>=] and,
    stripped, ends in [=y] or [=m]). *)
Lemma patch_lines_no_enabled features lines line f :
  f ∈ features →
  line ∈ (patch_lines upper features lines).1 →
  startswith (feature_pattern upper f) line = true →
  ends_enabled line = false.
Proof.
  intros Hf. induction lines as [|l ls IH]; simpl.
  - by intros ?%elem_of_nil.
  - destruct (patch_lines upper features ls) as [out printed]; simpl in *.
    destruct (scan_features upper l features) as [nw g|g|] eqn:Hscan; simpl.
    + intros [->|Hin]%elem_of_cons; [|by apply IH].
      apply scan_Disabled in Hscan as [-> _].
      by rewrite not_set_not_pattern.
    + apply IH.
    + intros [->|Hin]%elem_of_cons; [|by apply IH].
      intros Hpre. by eapply scan_NotModified.
Qed.

End ConfigPatcherFacts.

(** C1, evaluated on the code.  With the feature [foo] requested, the file
    holding the single line [CONFIG_FOO=y] is patched to the single line
    [# CONFIG_FOO= is not set]; patching that file again with the same
    feature set drops the line and leaves an empty file.  The second run
    does not reproduce the first: the branch that recognises a line as off
    already marks it as handled without appending it. *)
Theorem patch_twice_differs :
  let text := "CONFIG_FOO=y" +:+ Str.nl in
  let once := ConfigPatcher.patch_file Str.ascii_upper ["foo"] text in
  let twice := ConfigPatcher.patch_file Str.ascii_upper ["foo"] once in
  once = "# CONFIG_FOO= is not set" +:+ Str.nl ∧ twice = "" ∧ twice ≠ once.
Proof. split; [reflexivity | split; [reflexivity | discriminate]]. Qed.

(** C2, evaluated on the code.  With the feature [foo] requested, the line
    [CONFIG_FOO=y] is replaced by [# CONFIG_FOO= is not set], with the [=] of
    the key prefix left in: the file then holds no line in the disabled form
    [# CONFIG_FOO is not set] of the config format. *)
Theorem patch_writes_wrong_disabled_form :
  let out := (ConfigPatcher.patch_lines Str.ascii_upper ["foo"]
                ["CONFIG_FOO=y" +:+ Str.nl]).1 in
  out = ["# CONFIG_FOO= is not set" +:+ Str.nl] ∧
  ∀ line, line ∈ out →
    Str.strip line ≠ ConfigPatcher.spec_disabled_form (Str.ascii_upper "foo").
Proof.
  split; [reflexivity|].
  intros line Hin. simpl in Hin.
  apply list_elem_of_singleton in Hin as ->. discriminate.
Qed.

(** C10.  With no feature to disable the patching phase does nothing: the
    text of the config file is unchanged and nothing is printed. *)
Theorem patch_phase_empty_skipped :
  ∀ (upper : string → string) (s : state string),
    ConfigPatcher.patch_phase upper [] s = (Return (), s).
Proof. intros upper s. reflexivity. Qed.

(** The guard is what keeps the bytes: run on an empty feature list, the
    read-and-write-back itself would turn a CRLF line end into LF. *)
Remark patch_file_empty_list_not_identity :
  ConfigPatcher.patch_file Str.ascii_upper [] ("A=y" +:+ String Str.CR Str.nl)
  = "A=y" +:+ Str.nl.
Proof. reflexivity. Qed.

(** ** Control flow *)

Section PyFacts.
Context {W : Type}.
Implicit Types (P E I : W → Prop) (s : state W).

(** A handler that matches none of the exceptions the body can end in is
    never entered. *)
Lemma try_except_dead {A} (body : py W A) handler s :
  (∀ e s', body s = (Raise e, s') → handler e = None) →
  Py.try_except body handler s = body s.
Proof.
  intros H. unfold Py.try_except.
  destruct (body s) as [[a|e|c] s'] eqn:E; try done.
  by rewrite (H e s' eq_refl).
Qed.

Lemma triple_conseq {A} P P' (Q Q' : A → W → Prop) E E' (m : py W A) :
  Py.triple P m Q E →
  (∀ w, P' w → P w) → (∀ a w, Q a w → Q' a w) → (∀ w, E w → E' w) →
  Py.triple P' m Q' E'.
Proof.
  intros H HP HQ HE s Hs. specialize (H s (HP _ Hs)).
  destruct (m s) as [[a|e|c] s']; auto.
Qed.

Lemma triple_ret {A} (Q : A → W → Prop) E (a : A) :
  Py.triple (Q a) (mret a) Q E.
Proof. by intros s Hs. Qed.

Lemma triple_bind {A B} P (R : A → W → Prop) (Q : B → W → Prop) E
    (m : py W A) (k : A → py W B) :
  Py.triple P m R E → (∀ a, Py.triple (R a) (k a) Q E) →
  Py.triple P (m ≫= k) Q E.
Proof.
  intros Hm Hk s Hs. unfold mbind, py_bind, Py.bind.
  specialize (Hm s Hs). destruct (m s) as [[a|e|c] s']; try done.
  by apply Hk.
Qed.

Lemma triple_try_except {A} P (Q : A → W → Prop) E1 E
    (body : py W A) handler :
  Py.triple P body Q E1 →
  (∀ e h, handler e = Some h → Py.triple E1 h Q E) →
  (∀ w, E1 w → E w) →
  Py.triple P (Py.try_except body handler) Q E.
Proof.
  intros Hb Hh HE s Hs. unfold Py.try_except.
  specialize (Hb s Hs). destruct (body s) as [[a|e|c] s']; auto.
  destruct (handler e) as [h|] eqn:Eh; auto.
  by apply (Hh e h Eh).
Qed.

Lemma triple_try_finally {A} P (Qb Q : A → W → Prop) Eb E
    (body : py W A) cleanup :
  Py.triple P body Qb Eb →
  (∀ a, Py.triple (Qb a) cleanup (λ _, Q a) E) →
  Py.triple Eb cleanup (λ _, E) E →
  Py.triple P (Py.try_finally body cleanup) Q E.
Proof.
  intros Hb Hc He s Hs. unfold Py.try_finally.
  specialize (Hb s Hs). destruct (body s) as [[a|e|c] s1].
  - specialize (Hc a s1 Hb). by destruct (cleanup s1) as [[| |] ?].
  - specialize (He s1 Hb). by destruct (cleanup s1) as [[| |] ?].
  - specialize (He s1 Hb). by destruct (cleanup s1) as [[| |] ?].
Qed.

(** Sequencing after a step that keeps an invariant. *)
Lemma triple_bind_inv {A B} I (Q : B → W → Prop) E
    (m : py W A) (k : A → py W B) :
  Py.inv I m → (∀ w, I w → E w) → (∀ a, Py.triple I (k a) Q E) →
  Py.triple I (m ≫= k) Q E.
Proof.
  intros Hm HE Hk. eapply triple_bind; [|exact Hk].
  eapply triple_conseq; [exact Hm|auto..].
Qed.

Lemma triple_print P E msg : Py.triple P (Py.print msg) (λ _, P) E.
Proof. by intros s Hs. Qed.

Lemma inv_ret {A} I (a : A) : Py.inv I (mret a : py W A).
Proof. by intros s Hs. Qed.

Lemma inv_print I msg : Py.inv I (Py.print (W:=W) msg).
Proof. by intros s Hs. Qed.

Lemma inv_sys_exit {A} I c : Py.inv I (Py.sys_exit c : py W A).
Proof. by intros s Hs. Qed.

Lemma inv_raise {A} I e : Py.inv I (Py.raise e : py W A).
Proof. by intros s Hs. Qed.

Lemma inv_get I : Py.inv I (Py.get (W:=W)).
Proof. by intros s Hs. Qed.

Lemma inv_bind {A B} I (m : py W A) (k : A → py W B) :
  Py.inv I m → (∀ a, Py.inv I (k a)) → Py.inv I (m ≫= k).
Proof. intros Hm Hk. by eapply triple_bind. Qed.

Lemma inv_try_except {A} I (body : py W A) handler :
  Py.inv I body → (∀ e h, handler e = Some h → Py.inv I h) →
  Py.inv I (Py.try_except body handler).
Proof. intros Hb Hh. by eapply triple_try_except. Qed.

Lemma inv_if {A} I (b : bool) (m1 m2 : py W A) :
  Py.inv I m1 → Py.inv I m2 → Py.inv I (if b then m1 else m2).
Proof. by destruct b. Qed.

Lemma inv_when I (b : bool) (m : py W ()) :
  Py.inv I m → Py.inv I (Py.when b m).
Proof. intros. destruct b; [done | apply inv_ret]. Qed.

Lemma inv_except_Exception {A} I (f : exn → py W A) e h :
  (∀ e, Py.inv I (f e)) → Py.except_Exception f e = Some h → Py.inv I h.
Proof. intros Hf [= <-]. apply Hf. Qed.

Lemma inv_except_CalledProcessError {A} I (m : py W A) e h :
  Py.inv I m → Py.except_CalledProcessError m e = Some h → Py.inv I h.
Proof. intros Hm. by destruct e; intros [= <-]. Qed.

Lemma triple_for_each {X} P E (xs : list X) (body : X → py W ()) :
  (∀ x, Py.triple P (body x) (λ _, P) E) →
  Py.triple P (Py.for_each xs body) (λ _, P) E.
Proof.
  intros Hb. induction xs as [|x xs IH]; simpl.
  - apply (triple_ret (λ _, P) E ()).
  - eapply triple_bind; [apply Hb | intros ?; apply IH].
Qed.

(** A loop of steps that all return establishes what the step at one of
    its elements establishes and the other steps keep. *)
Lemma triple_for_each_establish {X} P0 P1 (xs : list X) (body : X → py W ())
    (x0 : X) :
  x0 ∈ xs →
  (∀ x, Py.triple P0 (body x) (λ _, P0) (λ _, False)) →
  (∀ x, Py.triple P1 (body x) (λ _, P1) (λ _, False)) →
  Py.triple P0 (body x0) (λ _, P1) (λ _, False) →
  Py.triple P0 (Py.for_each xs body) (λ _, P1) (λ _, False).
Proof.
  intros Hin H0 H1 Hx0. induction xs as [|x xs IH]; simpl.
  - by apply elem_of_nil in Hin.
  - apply elem_of_cons in Hin as [<-|Hin].
    + eapply triple_bind; [apply Hx0 | intros ?].
      apply triple_for_each. intros y. apply H1.
    + eapply triple_bind; [apply H0 | intros ?]. by apply IH.
Qed.

(** A loop whose steps keep [P] for the elements of the list. *)
Lemma triple_for_each_in {X} (P E : W → Prop) (xs : list X)
    (body : X → py W ()) :
  (∀ x, x ∈ xs → Py.triple P (body x) (λ _, P) E) →
  Py.triple P (Py.for_each xs body) (λ _, P) E.
Proof.
  induction xs as [|x xs IH]; intros Hb; simpl.
  - apply (triple_ret (λ _, P) E ()).
  - eapply triple_bind; [apply Hb; left | intros ?].
    apply IH. intros y Hy. apply Hb. by right.
Qed.

(** The same when the steps may raise, for the elements of the list. *)
Lemma triple_for_each_establish_in {X} (P0 P1 E : W → Prop) (xs : list X)
    (body : X → py W ()) (x0 : X) :
  x0 ∈ xs →
  (∀ x, x ∈ xs → Py.triple P0 (body x) (λ _, P0) E) →
  (∀ x, x ∈ xs → Py.triple P1 (body x) (λ _, P1) E) →
  Py.triple P0 (body x0) (λ _, P1) E →
  Py.triple P0 (Py.for_each xs body) (λ _, P1) E.
Proof.
  intros Hin H0 H1 Hx0. induction xs as [|x xs IH]; simpl.
  - by apply elem_of_nil in Hin.
  - apply elem_of_cons in Hin as [<-|Hin].
    + eapply triple_bind; [apply Hx0 | intros ?].
      apply triple_for_each_in. intros y Hy. apply H1. by right.
    + eapply triple_bind; [apply H0; left | intros ?].
      apply IH; [done| |]; intros y Hy; [apply H0 | apply H1]; by right.
Qed.

(** Reading the world. *)
Lemma triple_get_bind {B} P (k : W → py W B) (Q : B → W → Prop) E :
  (∀ v, P v → Py.triple (λ w, w = v) (k v) Q E) →
  Py.triple P (Py.get ≫= k) Q E.
Proof.
  intros Hk s Hs. unfold mbind, py_bind, Py.bind, Py.get.
  by apply (Hk (world s) Hs s).
Qed.

Lemma triple_pre {A} P P' (m : py W A) Q E :
  (∀ w, P' w → P w) → Py.triple P m Q E → Py.triple P' m Q E.
Proof. intros HP H. eapply triple_conseq; eauto. Qed.

Lemma inv_for_each {X} I (xs : list X) (body : X → py W ()) :
  (∀ x, Py.inv I (body x)) → Py.inv I (Py.for_each xs body).
Proof. apply triple_for_each. Qed.
End PyFacts.

(** ** [run_command] *)

Section RunCommandFacts.
Import Host.
Variable sys : os.

Lemma run_command_cases commands cwd desc check_root (s : state host) :
  ∃ printed,
    run_command sys commands cwd desc check_root s =
      if check_root && negb (euid (world s) =? 0)
      then (SystemExit 1, St (world s) (stdout s ++ printed))
      else
        let '(p, d) := spawn sys commands (disk_of (world s)) in
        (run_command_end p,
         St (record (Spawn commands) (set_disk d (world s)))
            (stdout s ++ printed)).
Proof.
  destruct s as [h out].
  unfold run_command, geteuid, subprocess_run.
  unfold mbind, mret, py_bind, py_ret, Py.bind, Py.get, Py.ret,
    Py.try_except, Py.print, Py.sys_exit, Py.modify, Py.when, Py.raise.
  simpl.
  destruct (check_root && negb (euid h =? 0)); simpl.
  - eexists [_]. reflexivity.
  - destruct (spawn sys commands (disk_of h)) as [p d]; simpl.
    destruct p as [rc o e|rc| |e]; simpl.
    + destruct rc; simpl;
        destruct (String.eqb o ""), (String.eqb e ""); simpl;
        rewrite <- ?(assoc_L (++)); simpl; eexists; reflexivity.
    + rewrite <- ?(assoc_L (++)); simpl; eexists; reflexivity.
    + rewrite <- ?(assoc_L (++)); simpl; eexists; reflexivity.
    + destruct e as [| | | |rc o e|]; simpl;
        try (destruct (String.eqb o ""), (String.eqb e ""); simpl);
        rewrite <- ?(assoc_L (++)); simpl; eexists; reflexivity.
Qed.

(** [run_command] does not end in [CalledProcessError]. *)
Lemma run_command_not_CalledProcessError commands cwd desc check_root
    (s s' : state host) rc o e :
  run_command sys commands cwd desc check_root s
  ≠ (Raise (CalledProcessError rc o e), s').
Proof.
  destruct (run_command_cases commands cwd desc check_root s) as [pr ->].
  destruct (check_root && negb (euid (world s) =? 0)); [done|].
  destruct (spawn sys commands (disk_of (world s))) as [p d].
  by destruct p as [[| |] ? ?|?| |[]].
Qed.
End RunCommandFacts.

(** ** Disk Image Packager *)

Section ImagePackagerFacts.
Import Host ImagePackager.
Variable sys : os.

Lemma inv_try_except_Exception {W A} (I : W → Prop) (body : py W A) f :
  Py.inv I body → (∀ e, Py.inv I (f e)) →
  Py.inv I (Py.try_except body (Py.except_Exception f)).
Proof.
  intros Hb Hf. apply inv_try_except; [done|].
  intros e h. by apply inv_except_Exception.
Qed.

Lemma inv_try_except_CalledProcessError {W A} (I : W → Prop)
    (body h : py W A) :
  Py.inv I body → Py.inv I h →
  Py.inv I (Py.try_except body (Py.except_CalledProcessError h)).
Proof.
  intros Hb Hh. apply inv_try_except; [done|].
  intros e h'. by apply inv_except_CalledProcessError.
Qed.

Section Kept.
Hypothesis Hkeep : keeps_directories sys.
(** What had been asked of the host when the function was called. *)
Variable t0 : list event.

(** An event other than the creation of a mount point keeps the last
    part of the invariant. *)
Lemma added_snoc (v : option string) (t : list event) (e : event) :
  (∃ added, t = t0 ++ added ∧ ∀ tmp, Mkdtemp tmp ∈ added → v = Some tmp) →
  (∀ tmp, e ≠ Mkdtemp tmp) →
  ∃ added, t ++ [e] = t0 ++ added ∧
           ∀ tmp, Mkdtemp tmp ∈ added → v = Some tmp.
Proof.
  intros (added & -> & Hadd) He. exists (added ++ [e]).
  split; [by rewrite (assoc_L (++))|].
  intros tmp [Hin|Hin]%elem_of_app; [by apply Hadd|].
  apply list_elem_of_singleton in Hin. by destruct (He tmp).
Qed.

Lemma inv_lift_run_command v commands cwd desc check_root :
  Py.inv (Inv t0 v) (lift (run_command sys commands cwd desc check_root)).
Proof.
  intros [[h l] out] (Hu & Hl & Hd & Ht). simpl in *. unfold lift; simpl.
  destruct (run_command_cases sys commands cwd desc check_root (St h out))
    as [pr ->]; simpl.
  destruct (check_root && negb (euid h =? 0)); [done|].
  destruct Hkeep as (Hsp & _ & _). specialize (Hsp commands (disk_of h)).
  destruct (spawn sys commands (disk_of h)) as [p d]; simpl in *.
  assert (Inv t0 v (Frame (record (Spawn commands) (set_disk d h)) l)).
  { split; [done|]. split; [done|]. split.
    - intros tmp ->. set_solver.
    - simpl. by apply added_snoc. }
  by destruct (run_command_end p).
Qed.

Lemma inv_lift_write_text v path content :
  Py.inv (Inv t0 v) (lift (write_text sys path content)).
Proof.
  intros [[h l] out] (Hu & Hl & Hd & Ht). simpl in *.
  unfold lift, write_text; simpl.
  unfold mbind, mret, py_bind, py_ret, Py.bind, Py.get, Py.ret,
    Py.modify, Py.raise; simpl.
  destruct Hkeep as (_ & Hwr & _). specialize (Hwr path content (disk_of h)).
  destruct (write_text_ sys path content (disk_of h)) as [r d]; simpl in *.
  assert (Inv t0 v (Frame (record (WriteText path) (set_disk d h)) l)).
  { split; [done|]. split; [done|]. split.
    - intros tmp ->. set_solver.
    - simpl. by apply added_snoc. }
  by destruct r.
Qed.

Lemma inv_lift_exists v path : Py.inv (Inv t0 v) (lift (exists_ path)).
Proof. by intros [[h l] out] H. Qed.

Lemma inv_lift_geteuid v : Py.inv (Inv t0 v) (lift geteuid).
Proof. by intros [[h l] out] H. Qed.

Lemma inv_lift_is_dir v path : Py.inv (Inv t0 v) (lift (is_dir path)).
Proof. by intros [[h l] out] H. Qed.

Ltac inv_step :=
  first
    [ apply inv_print | apply inv_sys_exit | apply inv_ret
    | apply inv_lift_run_command | apply inv_lift_write_text
    | apply inv_lift_exists | apply inv_lift_is_dir | apply inv_lift_geteuid
    | apply inv_if | apply inv_when
    | apply inv_try_except_CalledProcessError
    | apply inv_try_except_Exception; [|intros ?]
    | apply inv_bind; [|intros ?]
    | progress cbv zeta ].

Lemma inv_allocate v image_path image_size_mb :
  Py.inv (Inv t0 v) (allocate sys image_path image_size_mb).
Proof. unfold allocate. repeat inv_step. Qed.

Ltac inv_auto := repeat first [ apply inv_allocate | inv_step ].

(** Creating the mount point and binding the local variable to it: no
    mount point had been created before, and the one created now is
    the one the variable names. *)
Lemma triple_mkdtemp_assign {A} prefix (k : string → py frame A) :
  (∀ tmp, Py.inv (Inv t0 (Some tmp)) (k tmp)) →
  Py.triple (Inv t0 None)
    (tmp ← lift (mkdtemp sys prefix); assign (Some tmp) ;; k tmp)
    (λ _ f, ∃ v, Inv t0 v f) (λ f, ∃ v, Inv t0 v f).
Proof.
  intros Hk [[h l] out] (Hu & Hl & _ & (added & Ht & Hnone)).
  simpl in *. subst l.
  unfold mbind, py_bind, Py.bind, lift, mkdtemp, assign; simpl.
  unfold mbind, mret, py_bind, py_ret, Py.bind, Py.get, Py.ret,
    Py.modify, Py.raise; simpl.
  destruct Hkeep as (_ & _ & Hmk). specialize (Hmk prefix (disk_of h)).
  destruct (mkdtemp_ sys prefix (disk_of h)) as [[e|tmp] d]; simpl.
  - exists None. split; [done|]. split; [done|]. split; [done|].
    by exists added.
  - specialize (Hk tmp
      (St (Frame (record (Mkdtemp tmp) (set_disk d h)) (Some tmp)) out)).
    simpl in Hk.
    assert (Inv t0 (Some tmp)
              (Frame (record (Mkdtemp tmp) (set_disk d h)) (Some tmp)))
      as HI.
    { split; [done|]. split; [done|]. split.
      - intros ? [= <-]. by eapply Hmk.
      - simpl. exists (added ++ [Mkdtemp tmp]).
        split; [by rewrite Ht, (assoc_L (++))|].
        intros tmp' [Hin|Hin]%elem_of_app.
        + by specialize (Hnone _ Hin).
        + apply list_elem_of_singleton in Hin. by injection Hin as ->. }
    specialize (Hk HI).
    destruct (k tmp _) as [[a|e|c] s']; by exists (Some tmp).
Qed.

Hypothesis Hum : unmount_succeeds sys.
Hypothesis Hrm : removal_succeeds sys.

Ltac run_command_step :=
  match goal with
  | |- context [run_command sys ?c ?cwd ?d ?cr ?s] =>
      let pr := fresh "pr" in
      destruct (run_command_cases sys c cwd d cr s) as [pr ->]
  end.

Ltac rmtree_step tmp :=
  unfold rmtree;
  unfold mbind, mret, py_bind, py_ret, Py.bind, Py.get, Py.ret,
    Py.modify, Py.raise; simpl;
  match goal with
  | |- context [rmtree_ sys tmp ?d] =>
      let d' := fresh "d" in
      let E := fresh "E" in
      let Hgone := fresh "Hgone" in
      let Hsub := fresh "Hsub" in
      destruct (Hrm tmp d) as (d' & E & Hgone & Hsub); rewrite E; simpl
  end.

(** No mount point was created: nothing is left to release. *)
Lemma Inv_None_released f : Inv t0 None f → mount_points_released t0 f.
Proof.
  intros (_ & _ & _ & (added & Ht & Hnone)). exists added.
  split; [done|]. intros tmp Hin. by specialize (Hnone _ Hin).
Qed.

Lemma triple_cleanup :
  Py.triple (λ f, ∃ v, Inv t0 v f) (cleanup sys)
    (λ _, mount_points_released t0) (mount_points_released t0).
Proof.
  intros [[h l] out] [v HI].
  destruct v as [tmp|].
  2:{ pose proof (Inv_None_released _ HI) as HR.
      destruct HI as (_ & Hl & _). simpl in Hl. subst l. by cbv. }
  destruct HI as (Hu & Hl & Hd & (added & Ht & Hadd)).
  simpl in *. subst l. specialize (Hd tmp eq_refl).
  assert (∀ rest : list event,
            (∀ x, Mkdtemp x ∉ rest) →
            ∀ x, Mkdtemp x ∈ added ++ rest → x = tmp) as Hone.
  { intros rest Hrest x [Hin|Hin]%elem_of_app.
    - specialize (Hadd _ Hin). by injection Hadd.
    - by destruct (Hrest x). }
  unfold cleanup, local_and, local, is_mount, exists_.
  unfold mbind, mret, py_bind, py_ret, Py.bind, Py.get, Py.ret,
    Py.modify, Py.raise, lift, Py.when, Py.try_except, Py.print. simpl.
  destruct (bool_decide (tmp ∈ mounts (disk_of h))) eqn:Hm; simpl.
  - run_command_step. simpl. rewrite Hu. simpl.
    destruct (Hum tmp (disk_of h)) as (o & e & d' & Hsp & Hnot).
    destruct Hkeep as (Hk & _ & _). specialize (Hk ["umount"; tmp] (disk_of h)).
    rewrite Hsp in *. simpl in *.
    rewrite bool_decide_eq_true_2 by set_solver.
    rmtree_step tmp.
    exists (added ++ [IsMount tmp true; Spawn ["umount"; tmp]; Rmtree tmp]).
    simpl. split; [by rewrite Ht, <- !(assoc_L (++))|].
    intros x Hx. apply Hone in Hx as ->.
    + repeat split; simpl; [done | set_solver |].
      exists (trace h), true. by rewrite <- !(assoc_L (++)).
    + intros y. rewrite !elem_of_cons, elem_of_nil.
      by intros [?|[?|[?|?]]].
  - apply bool_decide_eq_false_1 in Hm.
    rewrite bool_decide_eq_true_2 by done.
    rmtree_step tmp.
    exists (added ++ [IsMount tmp false; Rmtree tmp]).
    simpl. split; [by rewrite Ht, <- !(assoc_L (++))|].
    intros x Hx. apply Hone in Hx as ->.
    + repeat split; simpl; [done | set_solver |].
      exists (trace h), false. by rewrite <- !(assoc_L (++)).
    + intros y. rewrite !elem_of_cons, elem_of_nil.
      by intros [?|[?|?]].
Qed.

Lemma inv_assign v : Py.inv (Inv t0 v) (assign v).
Proof. by intros [[h l] out] (Hu & Hl & Hd). Qed.

(** The privilege check at the head of both functions. *)
Lemma triple_root_check {A} msg (k : py frame A) Q E :
  Py.triple (Inv t0 None) k Q E →
  (∀ f, temp_mount_point f = None ∧ trace (machine f) = t0 → E f) →
  Py.triple (λ f, temp_mount_point f = None ∧ trace (machine f) = t0)
    (uid ← lift geteuid;
     (if negb (uid =? 0) then Py.print msg ;; Py.sys_exit 1 else mret ()) ;;
     k) Q E.
Proof.
  intros Hk HE [[h l] out] [Hl Ht]. simpl in Hl, Ht. subst l.
  unfold mbind, py_bind, Py.bind, lift, geteuid; simpl.
  unfold mbind, mret, py_bind, py_ret, Py.bind, Py.get, Py.ret; simpl.
  destruct (euid h =? 0) eqn:Hu; simpl.
  - apply Z.eqb_eq in Hu. apply (Hk (St (Frame h None) out)).
    split; [done|]. split; [done|]. split; [done|].
    exists []. simpl. split; [by rewrite (right_id_L [] (++))|].
    intros tmp Hin. by apply elem_of_nil in Hin.
  - by apply HE.
Qed.

Lemma Inv_released v f : Inv t0 v f → (∃ v, Inv t0 v f).
Proof. eauto. Qed.

(** Before the privilege check nothing has been asked of the host. *)
Lemma untouched_released f :
  temp_mount_point f = None ∧ trace (machine f) = t0 →
  mount_points_released t0 f.
Proof.
  intros [_ Ht]. exists []. split; [by rewrite (right_id_L [] (++))|].
  intros tmp Hin. by apply elem_of_nil in Hin.
Qed.

Lemma rootfs_released rootfs_base_dir image_output_path image_size_mb :
  Py.triple (λ f, temp_mount_point f = None ∧ trace (machine f) = t0)
    (create_rootfs_ext4_image sys rootfs_base_dir image_output_path
       image_size_mb)
    (λ _, mount_points_released t0) (mount_points_released t0).
Proof.
  unfold create_rootfs_ext4_image.
  eapply triple_bind; [apply triple_print|].
  intros ?. apply triple_root_check; [|apply untouched_released].
  do 2 (apply triple_bind_inv;
         [solve [inv_auto] | apply Inv_None_released | intros ?]).
  apply triple_bind_inv;
    [apply inv_assign | apply Inv_None_released | intros ?].
  eapply triple_bind;
    [|intros ?; apply (inv_print (mount_points_released t0))].
  eapply triple_try_finally with
    (Qb := λ _ f, ∃ v, Inv t0 v f) (Eb := λ f, ∃ v, Inv t0 v f);
    [|intros ?; apply triple_cleanup | apply triple_cleanup].
  eapply triple_try_except with (E1 := λ f, ∃ v, Inv t0 v f); [| |done].
  - apply triple_mkdtemp_assign. intros tmp. inv_auto.
  - intros e h. apply inv_except_Exception. intros e'. inv_auto.
Qed.

Lemma bootfs_released output_image_path firmware_clone_dir image_size_mb :
  Py.triple (λ f, temp_mount_point f = None ∧ trace (machine f) = t0)
    (create_bootfs_vfat_image sys output_image_path firmware_clone_dir
       image_size_mb)
    (λ _, mount_points_released t0) (mount_points_released t0).
Proof.
  unfold create_bootfs_vfat_image.
  eapply triple_bind; [apply triple_print|].
  intros ?. apply triple_root_check; [|apply untouched_released].
  apply triple_bind_inv;
    [apply inv_assign | apply Inv_None_released | intros ?].
  eapply triple_bind;
    [|intros ?; apply (inv_print (mount_points_released t0))].
  eapply triple_try_finally with
    (Qb := λ _ f, ∃ v, Inv t0 v f) (Eb := λ f, ∃ v, Inv t0 v f);
    [|intros ?; apply triple_cleanup | apply triple_cleanup].
  eapply triple_try_except with (E1 := λ f, ∃ v, Inv t0 v f); [| |done].
  - repeat (cbv zeta;
            apply triple_bind_inv;
              [solve [inv_auto] | apply Inv_released | intros ?]).
    apply triple_mkdtemp_assign. intros tmp. inv_auto.
  - intros e h. apply inv_except_Exception. intros e'. inv_auto.
Qed.
End Kept.

Lemma rootfs_cleans_up rootfs_base_dir image_output_path image_size_mb :
  keeps_directories sys → unmount_succeeds sys → removal_succeeds sys →
  cleans_up
    (create_rootfs_ext4_image sys rootfs_base_dir image_output_path image_size_mb).
Proof.
  intros Hkeep Hum Hrm h out.
  pose proof (rootfs_released Hkeep (trace h) Hum Hrm rootfs_base_dir
                image_output_path image_size_mb (St (enter h) out)
                (conj eq_refl eq_refl)) as H.
  by destruct (create_rootfs_ext4_image _ _ _ _ _) as [[| |] ?].
Qed.

Lemma bootfs_cleans_up output_image_path firmware_clone_dir image_size_mb :
  keeps_directories sys → unmount_succeeds sys → removal_succeeds sys →
  cleans_up
    (create_bootfs_vfat_image sys output_image_path firmware_clone_dir
       image_size_mb).
Proof.
  intros Hkeep Hum Hrm h out.
  pose proof (bootfs_released Hkeep (trace h) Hum Hrm output_image_path
                firmware_clone_dir image_size_mb (St (enter h) out)
                (conj eq_refl eq_refl)) as H.
  by destruct (create_bootfs_vfat_image _ _ _ _ _) as [[| |] ?].
Qed.
End ImagePackagerFacts.

(** The reference host meets the three assumptions on hosts. *)
Lemma linux_unmount_succeeds ends :
  (∀ dir, ends ["umount"; dir] = None) →
  ImagePackager.unmount_succeeds (Host.linux ends).
Proof.
  intros Hends dir d. simpl. rewrite Hends. simpl.
  eexists _, _, _. split; [reflexivity|]. simpl. set_solver.
Qed.

Lemma linux_removal_succeeds ends :
  ImagePackager.removal_succeeds (Host.linux ends).
Proof.
  intros path d. eexists. split; [reflexivity|]. simpl. set_solver.
Qed.

Lemma linux_keeps_directories ends :
  ImagePackager.keeps_directories (Host.linux ends).
Proof.
  split; [|split].
  - intros argv d. simpl. destruct (ends argv); [done|].
    destruct argv as [|? [|? [|? [|? ?]]]]; simpl; try done;
      by case_decide.
  - done.
  - intros prefix d path d' [= <- <-]. simpl. set_solver.
Qed.

(** The dd fallback of the allocation step is never entered: on every host
    the step is the fallocate call alone. *)
Lemma allocate_handler_dead sys image_path image_size_mb
    (s : state ImagePackager.frame) :
  ImagePackager.allocate sys image_path image_size_mb s
  = (Py.print ("Erstelle leere Image-Datei '" +:+ image_path +:+ "' mit " +:+
               pretty image_size_mb +:+ " MB...") ;;
     ImagePackager.lift
       (Host.run_command sys
          ["fallocate"; "-l"; pretty image_size_mb +:+ "M"; image_path]
          None "Image-Datei allokieren" true) ;;
     Py.print "Image-Datei erstellt.") s.
Proof.
  unfold ImagePackager.allocate, mbind, py_bind, Py.bind.
  destruct (Py.print _ s) as [[[]|e|c] s1]; [|done..].
  rewrite try_except_dead; [done|].
  intros e s' He. unfold ImagePackager.lift in He.
  destruct (Host.run_command _ _ _ _ _ _) as [r s2] eqn:Hrun.
  injection He as -> _.
  destruct e; try done.
  by apply run_command_not_CalledProcessError in Hrun.
Qed.

(** C3.  On a host where the unmount and the removal succeed (and where no
    tool removes a directory), both image functions clean up on every path:
    however the function ends and whatever the pipeline steps did, every
    mount point that [mkdtemp] created during the call is neither a
    directory nor a mount point afterwards, and the last things asked of the
    host were the mount check, the unmount if the mount point was mounted,
    and then the removal. *)
Theorem image_packager_cleans_up :
  ∀ sys : Host.os,
    ImagePackager.unmount_succeeds sys →
    ImagePackager.removal_succeeds sys →
    ImagePackager.keeps_directories sys →
    (∀ rootfs_base_dir image_output_path image_size_mb,
       ImagePackager.cleans_up
         (ImagePackager.create_rootfs_ext4_image sys rootfs_base_dir
            image_output_path image_size_mb)) ∧
    (∀ output_image_path firmware_clone_dir image_size_mb,
       ImagePackager.cleans_up
         (ImagePackager.create_bootfs_vfat_image sys output_image_path
            firmware_clone_dir image_size_mb)).
Proof.
  intros sys Hum Hrm Hkeep. split; intros.
  - by apply rootfs_cleans_up.
  - by apply bootfs_cleans_up.
Qed.

(** A build whose copy step fails after the image was mounted: the mount
    point that was created is unmounted and removed all the same. *)
Lemma image_packager_cleans_up_witness :
  let sys := Host.linux (Host.only "rsync" (Host.Exited 23 "" "rsync error")) in
  let run :=
    ImagePackager.create_rootfs_ext4_image sys "build/rootfs"
      "build/rootfs.ext4" 512
      (St (ImagePackager.enter (Host.build_host ["build/rootfs"])) []) in
  (ImagePackager.unmount_succeeds sys ∧ ImagePackager.removal_succeeds sys ∧
   ImagePackager.keeps_directories sys) ∧
  run.1 = SystemExit 1 ∧
  Host.Mkdtemp "/tmp/rootfs_mount_0"
    ∈ Host.trace (ImagePackager.machine (world run.2)) ∧
  ImagePackager.released "/tmp/rootfs_mount_0"
    (ImagePackager.machine (world run.2)).
Proof.
  intros sys run.
  assert (Hum : ImagePackager.unmount_succeeds sys)
    by (by apply linux_unmount_succeeds).
  pose proof (linux_removal_succeeds
                (Host.only "rsync" (Host.Exited 23 "" "rsync error"))) as Hrm.
  pose proof (linux_keeps_directories
                (Host.only "rsync" (Host.Exited 23 "" "rsync error"))) as Hkeep.
  split; [done|]. split; [by vm_compute|].
  assert (Host.Mkdtemp "/tmp/rootfs_mount_0"
            ∈ Host.trace (ImagePackager.machine (world run.2))) as Hmk
    by (vm_compute; constructor).
  split; [done|].
  destruct (proj1 (image_packager_cleans_up sys Hum Hrm Hkeep)
              "build/rootfs" "build/rootfs.ext4" 512
              (Host.build_host ["build/rootfs"]) []) as (added & Ht & Hrel).
  apply Hrel.
  change (Host.trace (Host.build_host ["build/rootfs"]) ++ added)
    with added in Ht.
  by rewrite <- Ht.
Defined.

(** The local variable plays no part in the property: a function that
    creates and mounts a mount point without binding it, so that its
    [finally] block would skip it, does not clean up. *)
Remark unbound_mount_point_is_not_cleaned_up :
  let sys := Host.linux (λ _, None) in
  ¬ ImagePackager.cleans_up
      (Py.try_finally
         (tmp ← ImagePackager.lift (Host.mkdtemp sys "rootfs_mount_");
          ImagePackager.lift
            (Host.run_command sys ["mount"; "rootfs.ext4"; tmp] None
               "Image mounten" true))
         (ImagePackager.cleanup sys)).
Proof.
  intros sys H.
  destruct (H (Host.build_host []) []) as (added & Ht & Hrel).
  change (Host.trace (Host.build_host []) ++ added) with added in Ht.
  subst added.
  destruct (Hrel "/tmp/rootfs_mount_0") as (Hgone & _).
  - vm_compute. constructor.
  - apply Hgone. apply (bool_decide_unpack _). vm_compute. reflexivity.
Qed.

(** C4, evaluated on the code.  On a host where fallocate exits with a
    non-zero status, and on one where it is not installed, the image
    function ends in [SystemExit] with status 1 right after the fallocate
    call: dd is never started and no later step runs; only the cleanup
    follows. *)
Theorem fallocate_failure_aborts :
  ∀ p, p = Host.Exited 1 "" "fallocate failed: Operation not supported"
       ∨ p = Host.NoSuchFile →
  let sys := Host.linux (Host.only "fallocate" p) in
  let run :=
    ImagePackager.create_rootfs_ext4_image sys "build/rootfs"
      "build/rootfs.ext4" 512
      (St (ImagePackager.enter (Host.build_host ["build/rootfs"])) []) in
  run.1 = SystemExit 1 ∧
  Host.trace (ImagePackager.machine (world run.2)) =
    [Host.Mkdtemp "/tmp/rootfs_mount_0";
     Host.Spawn ["fallocate"; "-l"; "512M"; "build/rootfs.ext4"];
     Host.IsMount "/tmp/rootfs_mount_0" false;
     Host.Rmtree "/tmp/rootfs_mount_0"].
Proof. intros p [-> | ->]; by vm_compute. Qed.

Lemma fallocate_failure_aborts_witness :
  let sys := Host.linux (Host.only "fallocate" Host.NoSuchFile) in
  let run :=
    ImagePackager.create_rootfs_ext4_image sys "build/rootfs"
      "build/rootfs.ext4" 512
      (St (ImagePackager.enter (Host.build_host ["build/rootfs"])) []) in
  run.1 = SystemExit 1 ∧
  Host.trace (ImagePackager.machine (world run.2)) =
    [Host.Mkdtemp "/tmp/rootfs_mount_0";
     Host.Spawn ["fallocate"; "-l"; "512M"; "build/rootfs.ext4"];
     Host.IsMount "/tmp/rootfs_mount_0" false;
     Host.Rmtree "/tmp/rootfs_mount_0"].
Proof. apply (fallocate_failure_aborts Host.NoSuchFile). by right. Defined.

(** ** Device Node Table *)

Lemma string_length_app (s1 s2 : string) :
  String.length (s1 +:+ s2) = (String.length s1 + String.length s2)%nat.
Proof. induction s1 as [|c s1 IH]; simpl; [done | by rewrite IH]. Qed.

Lemma joinpath_longer (a b : string) :
  (String.length a < String.length (DeviceNodes.joinpath a b))%nat.
Proof.
  unfold DeviceNodes.joinpath. rewrite !string_length_app. simpl. lia.
Qed.

Section DeviceNodesFacts.
Import DeviceNodes.
Variable sys : devos.

(** The device table of the root file system is best-effort: whatever the
    host answers, [create_device_nodes] returns normally. *)
Lemma create_device_nodes_never_aborts rootfs_dir :
  Py.triple (λ _, True) (create_device_nodes sys rootfs_dir)
    (λ _ _, True) (λ _, False).
Proof.
  unfold create_device_nodes.
  eapply triple_bind; [apply triple_print|]. intros ?. cbv zeta.
  eapply triple_bind; [|intros ?; apply triple_print].
  apply triple_for_each. intros [[[name major] minor] type_char] s _.
  unfold Py.try_except, exists_, os_mknod.
  unfold mbind, mret, py_bind, py_ret, Py.bind, Py.get, Py.ret, Py.modify,
    Py.raise, Py.print; simpl.
  destruct (bool_decide _); simpl; [done|].
  destruct (mknod_error sys _) as [e|]; [by destruct e|].
  by destruct (bool_decide _).
Qed.

End DeviceNodesFacts.

(** The stand-in for the other steps returns and leaves the path of the
    console node alone. *)
Lemma populate_ok_keeps tmp (s : state DeviceNodes.frame) :
  ∃ s', DeviceNodes.populate_ok tmp s = (Return (), s') ∧
    (DeviceNodes.entries (DeviceNodes.machine (world s))
       !! DeviceNodes.joinpath (DeviceNodes.joinpath tmp "dev") "console" = None →
     DeviceNodes.entries (DeviceNodes.machine (world s'))
       !! DeviceNodes.joinpath (DeviceNodes.joinpath tmp "dev") "console" = None).
Proof.
  destruct s as [[h l] out].
  eexists. split; [reflexivity|].
  cbn [DeviceNodes.populate_ok Py.for_each Py.bind Py.modify Py.ret world
       DeviceNodes.machine DeviceNodes.entries fst snd].
  intros Hfree.
  assert (∀ d, (String.length d < 8)%nat →
            DeviceNodes.joinpath tmp d
            ≠ DeviceNodes.joinpath (DeviceNodes.joinpath tmp "dev") "console")
    as Hne.
  { intros d Hd Heq. apply (f_equal String.length) in Heq.
    unfold DeviceNodes.joinpath in Heq. rewrite !string_length_app in Heq.
    simpl in Heq. lia. }
  rewrite !lookup_insert_ne; [done|apply Hne; simpl; lia..].
Qed.

(** C8, on the code.  In [create_initramfs] the device nodes are made
    without a handler of their own: when the host refuses [os.mknod] for the
    first node, the exception reaches the handler of the whole [try] block,
    which prints "Kritischer Fehler" and ends the build with [SystemExit]
    status 1, whatever the other steps of the function do. *)
Theorem initramfs_device_failure_aborts :
  ∀ (sys : DeviceNodes.devos) populate archive output h out tmp e,
    DeviceNodes.euid h = 0 →
    DeviceNodes.mkdtemp_result sys = inr tmp →
    DeviceNodes.mknod_error sys
      (DeviceNodes.joinpath (DeviceNodes.joinpath tmp "dev") "console")
    = Some e →
    DeviceNodes.entries h
      !! DeviceNodes.joinpath (DeviceNodes.joinpath tmp "dev") "console"
    = None →
    (∀ s, ∃ s', populate tmp s = (Return (), s') ∧
        (DeviceNodes.entries (DeviceNodes.machine (world s))
           !! DeviceNodes.joinpath (DeviceNodes.joinpath tmp "dev") "console"
         = None →
         DeviceNodes.entries (DeviceNodes.machine (world s'))
           !! DeviceNodes.joinpath (DeviceNodes.joinpath tmp "dev") "console"
         = None)) →
    ∃ s', DeviceNodes.create_initramfs sys populate archive output
            (St (DeviceNodes.Frame h None) out)
          = (SystemExit 1, s') ∧
          ("Kritischer Fehler beim Erstellen des Initramfs: "
           +:+ DeviceNodes.describe e) ∈ stdout s'.
Proof.
  intros sys populate archive output h out tmp e Hu Hmk Hno Hfree Hpop.
  pose proof (joinpath_longer (DeviceNodes.joinpath tmp "dev") "console") as Hne1.
  pose proof (joinpath_longer tmp "dev") as Hne2.
  assert (tmp ≠ DeviceNodes.joinpath (DeviceNodes.joinpath tmp "dev") "console")
    as Hne by (intros Heq; apply (f_equal String.length) in Heq; lia).
  clear Hne1 Hne2.
  unfold DeviceNodes.create_initramfs, DeviceNodes.lift, DeviceNodes.assign,
    DeviceNodes.local, DeviceNodes.mkdtemp, DeviceNodes.joinpath.
  unfold mbind, mret, py_bind, py_ret, Py.bind, Py.get, Py.ret, Py.modify,
    Py.raise, Py.print, Py.try_finally, Py.try_except. simpl.
  rewrite Hu, Hmk. simpl.
  edestruct Hpop as (s1 & -> & Hs1).
  simpl in Hs1. rewrite lookup_insert_ne in Hs1 by done.
  specialize (Hs1 Hfree).
  unfold DeviceNodes.exists_, DeviceNodes.os_mknod.
  unfold mbind, mret, py_bind, py_ret, Py.bind, Py.get, Py.ret, Py.modify,
    Py.raise, Py.print, Py.try_finally, Py.try_except. simpl.
  unfold DeviceNodes.joinpath in *. rewrite Hs1, Hno. simpl.
  destruct (DeviceNodes.temp_initramfs_staging_dir (world s1)) as [path|]; simpl.
  - destruct (bool_decide _); simpl.
    + unfold DeviceNodes.rmtree, Py.raise, Py.modify.
      destruct (DeviceNodes.rmtree_error sys); simpl;
        (eexists; split; [reflexivity|]; simpl; set_solver).
    + eexists; split; [reflexivity|]; simpl; set_solver.
  - eexists; split; [reflexivity|]; simpl; set_solver.
Qed.

Lemma initramfs_device_failure_aborts_witness :
  ∃ s', DeviceNodes.create_initramfs DeviceNodes.unprivileged
          DeviceNodes.populate_ok DeviceNodes.archive_ok "build/initramfs.gz"
          (St (DeviceNodes.Frame
                 (DeviceNodes.DevHost 0 {[ "build/rootfs/dev" := Mode.o755 ]} [])
                 None) [])
        = (SystemExit 1, s') ∧
        ("Kritischer Fehler beim Erstellen des Initramfs: "
         +:+ DeviceNodes.describe PermissionError) ∈ stdout s'.
Proof.
  apply (initramfs_device_failure_aborts DeviceNodes.unprivileged
           DeviceNodes.populate_ok DeviceNodes.archive_ok "build/initramfs.gz"
           (DeviceNodes.DevHost 0 {[ "build/rootfs/dev" := Mode.o755 ]} []) []
           "/tmp/initramfs_staging_0" PermissionError).
  - reflexivity.
  - reflexivity.
  - reflexivity.
  - vm_compute. reflexivity.
  - apply populate_ok_keeps.
Defined.

(** The same refusals leave [create_device_nodes] unharmed: it prints one
    warning for each node and returns. *)
Example create_device_nodes_unprivileged :
  let run :=
    DeviceNodes.create_device_nodes DeviceNodes.unprivileged "build/rootfs"
      (St (DeviceNodes.DevHost 0 {[ "build/rootfs/dev" := Mode.o755 ]} []) []) in
  run.1 = Return () ∧ length (stdout run.2) = 18%nat ∧
  DeviceNodes.made (world run.2) = [].
Proof. by vm_compute. Qed.

(** ** Directory Scaffold Builder *)

(** C5, evaluated on the code.  On a fresh output root [create_dirs] of
    [sub.py] creates the root and every directory of its list and then
    fails: the first override is applied to [tmp], which is not in the list
    and was never created, so [os.chmod] raises [FileNotFoundError]; none of
    the four overrides is applied. *)

Theorem create_dirs_fails_on_fresh_root :
  let run := Scaffold.create_dirs (St Scaffold.fresh []) in
  let tree := Scaffold.dirs (world run.2) in
  run.1 = Raise FileNotFoundError ∧
  tree !! Path.join Scaffold.rootfs_dir "tmp" = None ∧
  Forall (λ d, is_Some (tree !! Path.join Scaffold.rootfs_dir d))
    Scaffold.rootfs_dirs ∧
  tree !! Path.join Scaffold.rootfs_dir "var/log" = Some Mode.o755 ∧
  tree !! Path.join Scaffold.rootfs_dir "var/tmp" = Some Mode.o755.
Proof.
  split; [by vm_compute|]. split; [by vm_compute|].
  split; [|split; by vm_compute].
  apply Forall_forall. intros d Hd.
  apply (bool_decide_unpack _).
  revert d Hd. apply Forall_forall.
  apply (bool_decide_unpack _). by vm_compute.
Qed.

(** The first definition in [test.py] (which nothing runs: further down,
    that file defines the function again with the text of the one in
    [sub.py]), whose list has [tmp] and whose [mkdir] creates parents, does
    what the contract says: it succeeds on a fresh root with the four
    overrides applied, and a second run succeeds and changes nothing. *)
Lemma test_py_create_dirs_succeeds :
  let run := Scaffold.TestPy.create_dirs (St Scaffold.fresh []) in
  let again := Scaffold.TestPy.create_dirs run.2 in
  let tree := Scaffold.dirs (world run.2) in
  run.1 = Return () ∧
  tree !! Path.join Scaffold.rootfs_dir "tmp" = Some Mode.o1777 ∧
  tree !! Path.join Scaffold.rootfs_dir "var/tmp" = Some Mode.o1777 ∧
  tree !! Path.join Scaffold.rootfs_dir "var/log" = Some Mode.o777 ∧
  tree !! Path.join Scaffold.rootfs_dir "var/run" = Some Mode.o777 ∧
  again.1 = Return () ∧
  Scaffold.dirs (world again.2) = Scaffold.dirs (world run.2).
Proof.
  intros run again tree.
  do 6 (split; [vm_compute; reflexivity|]).
  apply (bool_decide_unpack _). vm_compute. reflexivity.
Qed.

(** ** Permission Classifier *)

Section PermissionsFacts.
Import Path Permissions.
Variable sys : permos.

(** *** What no [chmod] changes *)

Lemma same_shape_refl (t : tree) : same_shape t t.
Proof. by split. Qed.

Lemma same_shape_nodes (t t' : tree) (i : nat) (n : node) :
  same_shape t t' → nodes t !! i = Some n →
  ∃ n', nodes t' !! i = Some n' ∧ set_mode 0 n' = set_mode 0 n.
Proof.
  intros [_ H] Hn. specialize (H i). rewrite Hn in H.
  destruct (nodes t' !! i) as [n'|]; [|done].
  injection H as H. by exists n'.
Qed.

Lemma same_shape_resolve (t t' : tree) (p : path) :
  same_shape t t' →
  match resolve t' p, resolve t p with
  | Some (j', n'), Some (j, n) => j' = j ∧ set_mode 0 n' = set_mode 0 n
  | None, None => True
  | _, _ => False
  end.
Proof.
  intros [Hn Hs]. unfold resolve. rewrite Hn.
  destruct (names t !! p) as [[i l|]|]; [|done..].
  specialize (Hs i).
  destruct (nodes t' !! i), (nodes t !! i); simpl in Hs; try done.
  injection Hs as Hs. by split.
Qed.

Lemma is_dir_in_shape (t t' : tree) (p : path) :
  same_shape t t' → is_dir_in t' p = is_dir_in t p.
Proof.
  intros H. pose proof (same_shape_resolve t t' p H) as Hr.
  unfold is_dir_in.
  destruct (resolve t' p) as [[? []]|], (resolve t p) as [[? []]|];
    try done; by destruct Hr.
Qed.

Lemma is_file_in_shape (t t' : tree) (p : path) :
  same_shape t t' → is_file_in t' p = is_file_in t p.
Proof.
  intros H. pose proof (same_shape_resolve t t' p H) as Hr.
  unfold is_file_in.
  destruct (resolve t' p) as [[? []]|], (resolve t p) as [[? []]|];
    try done; by destruct Hr.
Qed.

Lemma is_link_in_shape (t t' : tree) (p : path) :
  same_shape t t' → is_link_in t' p = is_link_in t p.
Proof. intros [Hn _]. unfold is_link_in. by rewrite Hn. Qed.

Lemma names_in_shape (t t' : tree) (dir : path) :
  same_shape t t' → names_in t' dir = names_in t dir.
Proof. intros [Hn _]. unfold names_in. by rewrite Hn. Qed.

Lemma depth_shape (t t' : tree) : same_shape t t' → depth t' = depth t.
Proof. intros [Hn _]. unfold depth. by rewrite Hn. Qed.

Lemma same_shape_chmod (t t' : tree) (j : nat) (n : node) (m : Z) :
  same_shape t t' → nodes t' !! j = Some n →
  same_shape t (Tree (names t') (<[j := set_mode m n]> (nodes t'))).
Proof.
  intros [Hn Hs] Hj. split; [done|]. simpl. intros i.
  destruct (decide (j = i)) as [<-|Hne].
  - rewrite lookup_insert_eq, <- Hs, Hj. simpl. by destruct n.
  - by rewrite lookup_insert_ne.
Qed.

Lemma resolve_node (t : tree) (p : path) (j : nat) (n : node) :
  resolve t p = Some (j, n) →
  (∃ link, names t !! p = Some (Resolves j link)) ∧ nodes t !! j = Some n.
Proof.
  unfold resolve. destruct (names t !! p) as [[i l|]|]; [|done..].
  destruct (nodes t !! i) as [n'|] eqn:Hi; [|done].
  intros [= <- <-]. split; [by exists l | done].
Qed.

Lemma resolve_named (t : tree) (p : path) (j : nat) (link : bool)
    (n : node) :
  names t !! p = Some (Resolves j link) → nodes t !! j = Some n →
  resolve t p = Some (j, n).
Proof. unfold resolve. by intros -> ->. Qed.

(** *** The names of a directory and the depth of the tree *)

Lemma names_in_elem (t : tree) (dir : path) (n : string) :
  n ∈ names_in t dir ↔ is_Some (names t !! (dir ++ [n])).
Proof.
  unfold names_in. rewrite list_elem_of_omap. split.
  - intros ([p e] & Hin & Hsome). apply elem_of_map_to_list in Hin.
    destruct (last p) as [n'|]; [|done].
    case_bool_decide as Hp; [|done]. injection Hsome as ->.
    subst p. by exists e.
  - intros [e He]. exists (dir ++ [n], e). split.
    + by apply elem_of_map_to_list.
    + rewrite last_snoc. by rewrite bool_decide_eq_true_2.
Qed.

Lemma depth_le (t : tree) (p : path) :
  is_Some (names t !! p) → (length p ≤ depth t)%nat.
Proof.
  intros [e He]. unfold depth. apply max_list_elem_of_le.
  apply list_elem_of_fmap. exists p. split; [done|].
  apply list_elem_of_fmap. exists (p, e). split; [done|].
  by apply elem_of_map_to_list.
Qed.

Lemma is_dir_in_named (t : tree) (p : path) :
  is_dir_in t p = true → is_Some (names t !! p).
Proof.
  unfold is_dir_in, resolve. by destruct (names t !! p).
Qed.

Lemma scandir_Some (t : tree) (dir : path) (dn fn : list string) :
  scandir sys t dir = Some (dn, fn) →
  (∀ n, n ∈ dn ↔ is_Some (names t !! (dir ++ [n])) ∧
                 entry_is_dir sys t (dir ++ [n]) = true) ∧
  (∀ n, n ∈ fn ↔ is_Some (names t !! (dir ++ [n])) ∧
                 entry_is_dir sys t (dir ++ [n]) = false).
Proof.
  unfold scandir. destruct (refuses sys Scandir t dir); [done|].
  destruct (is_dir_in t dir); [|done]. intros [= <- <-].
  split; intros n; rewrite list_elem_of_In, filter_In, <- list_elem_of_In,
    names_in_elem; [done|].
  by rewrite negb_true_iff.
Qed.

Lemma scandir_listed (t : tree) (dir : path) :
  is_dir_in t dir = true → refuses sys Scandir t dir = None →
  ∃ dn fn, scandir sys t dir = Some (dn, fn).
Proof.
  intros Hd Hr. unfold scandir. rewrite Hr, Hd. by eexists _, _.
Qed.

(** *** The walk *)

Lemma triple_skip (P E : tree → Prop) :
  Py.triple P (mret () : py tree ()) (λ _, P) E.
Proof. by intros s Hs. Qed.

Section Walk.
Variable t0 : tree.
Variable body : path → list string → list string → py tree ().

(** A walk whose body keeps [P] on what it is given keeps [P]; it does
    not run out of fuel. *)
Lemma triple_walk (P E : tree → Prop) :
  (∀ t', P t' → same_shape t0 t') →
  (∀ t' dirpath dn fn, P t' → scandir sys t' dirpath = Some (dn, fn) →
     Py.triple P (body dirpath dn fn) (λ _, P) E) →
  ∀ (n : nat) (cur : path),
    (0 < n)%nat → (depth t0 < n + length cur)%nat →
    Py.triple P (walk sys n cur body) (λ _, P) E.
Proof.
  intros Hshape Hbody. induction n as [|n IH]; intros cur Hn Hfuel; [lia|].
  cbn [walk]. apply triple_get_bind. intros t' Ht'.
  destruct (scandir sys t' cur) as [[dn fn]|] eqn:Hscan.
  2:{ eapply triple_pre; [by intros ? ->|]. apply triple_skip. }
  eapply triple_pre; [by intros ? ->|].
  eapply triple_bind; [by eapply Hbody | intros ?].
  apply triple_for_each_in. intros d Hd.
  apply triple_get_bind. intros t'' Ht''.
  eapply triple_pre; [by intros ? ->|].
  destruct (islink sys t'' (cur ++ [d])); [apply triple_skip|].
  apply (proj1 (scandir_Some _ _ _ _ Hscan)) in Hd as [Hnamed _].
  apply depth_le in Hnamed.
  rewrite (depth_shape t0 t' (Hshape _ Ht')), length_app in Hnamed.
  simpl in Hnamed.
  apply IH; [lia|]. rewrite length_app. simpl. lia.
Qed.

(** A walk that gets to a directory establishes what its body
    establishes there, when the body keeps it everywhere else. *)
Lemma walk_establish (P0 P1 E : tree → Prop) :
  (∀ t', P0 t' → same_shape t0 t') →
  (∀ t', P1 t' → same_shape t0 t') →
  (∀ t' dirpath dn fn, P0 t' → scandir sys t' dirpath = Some (dn, fn) →
     Py.triple P0 (body dirpath dn fn) (λ _, P0) E) →
  (∀ t' dirpath dn fn, P1 t' → scandir sys t' dirpath = Some (dn, fn) →
     Py.triple P1 (body dirpath dn fn) (λ _, P1) E) →
  ∀ (dirs : list string) (cur : path) (n : nat),
    walks_to sys t0 cur dirs →
    (0 < n)%nat → (depth t0 < n + length cur)%nat →
    (∀ t' dn fn, P0 t' → scandir sys t' (cur ++ dirs) = Some (dn, fn) →
       Py.triple P0 (body (cur ++ dirs) dn fn) (λ _, P1) E) →
    Py.triple P0 (walk sys n cur body) (λ _, P1) E.
Proof.
  intros Hshape0 Hshape1 Hbody0 Hbody1.
  assert (∀ (P : tree → Prop), (∀ t', P t' → same_shape t0 t') →
            (∀ t' dirpath dn fn, P t' →
               scandir sys t' dirpath = Some (dn, fn) →
               Py.triple P (body dirpath dn fn) (λ _, P) E) →
            ∀ t' cur n dn fn d,
              P t' → scandir sys t' cur = Some (dn, fn) → d ∈ dn →
              (depth t0 < S n + length cur)%nat →
              Py.triple P
                (t'' ← Py.get;
                 if islink sys t'' (cur ++ [d]) then mret ()
                 else walk sys n (cur ++ [d]) body)
                (λ _, P) E) as Hsub.
  { intros P HshapeP HbodyP t' cur n dn fn d Ht' Hscan Hd Hfuel.
    apply triple_get_bind. intros t'' Ht''.
    eapply triple_pre; [by intros ? ->|].
    destruct (islink sys t'' (cur ++ [d])); [apply triple_skip|].
    apply (proj1 (scandir_Some _ _ _ _ Hscan)) in Hd as [Hnamed _].
    apply depth_le in Hnamed.
    rewrite (depth_shape t0 t' (HshapeP _ Ht')), length_app in Hnamed.
    simpl in Hnamed.
    apply triple_walk; [done | done | lia |].
    rewrite length_app. simpl. lia. }
  induction dirs as [|d dirs IH]; intros cur n (Hd & Hlist & Hrest) Hn
    Hfuel Hest.
  - rewrite app_nil_r in Hest. destruct n as [|n]; [lia|].
    cbn [walk]. apply triple_get_bind. intros t' Ht'.
    eapply triple_pre; [by intros ? ->|].
    destruct (scandir_listed t' cur) as (dn & fn & Hscan);
      [by rewrite (is_dir_in_shape t0 t') by auto | done |].
    rewrite Hscan.
    eapply triple_bind; [by eapply Hest | intros ?].
    apply triple_for_each_in. intros d Hdn.
    (* the state in which the directory was listed satisfied [P0]; the
       subdirectories are walked from states satisfying [P1] *)
    apply triple_get_bind. intros t'' Ht''.
    eapply triple_pre; [by intros ? ->|].
    destruct (islink sys t'' (cur ++ [d])); [apply triple_skip|].
    apply (proj1 (scandir_Some _ _ _ _ Hscan)) in Hdn as [Hnamed _].
    apply depth_le in Hnamed.
    rewrite (depth_shape t0 t' (Hshape0 _ Ht')), length_app in Hnamed.
    simpl in Hnamed.
    apply triple_walk; [done | done | lia |].
    rewrite length_app. simpl. lia.
  - destruct Hrest as (Hnolink & Hentry & Hrest).
    destruct n as [|n]; [lia|].
    cbn [walk]. apply triple_get_bind. intros t' Ht'.
    eapply triple_pre; [by intros ? ->|].
    destruct (scandir_listed t' cur) as (dn & fn & Hscan);
      [by rewrite (is_dir_in_shape t0 t') by auto | done |].
    rewrite Hscan.
    eapply triple_bind; [by eapply Hbody0 | intros ?].
    assert (is_dir_in t0 (cur ++ [d]) = true) as Hdd
      by (by destruct dirs; destruct Hrest).
    assert (d ∈ dn) as Hdn.
    { apply (proj1 (scandir_Some _ _ _ _ Hscan)). split.
      - destruct (Hshape0 _ Ht') as [-> _]. by apply is_dir_in_named.
      - unfold entry_is_dir. rewrite Hentry.
        by rewrite (is_dir_in_shape t0 t') by auto. }
    pose proof (proj1 (proj1 (scandir_Some _ _ _ _ Hscan) d) Hdn)
      as [Hnamed _].
    apply depth_le in Hnamed.
    rewrite (depth_shape t0 t' (Hshape0 _ Ht')), length_app in Hnamed.
    simpl in Hnamed.
    eapply (triple_for_each_establish_in P0 P1 E dn _ d Hdn).
    + intros x Hx. by eapply (Hsub P0).
    + intros x Hx.
      (* the listing was made in a state satisfying [P0] *)
      apply triple_get_bind. intros t'' Ht''.
      eapply triple_pre; [by intros ? ->|].
      destruct (islink sys t'' (cur ++ [x])); [apply triple_skip|].
      apply (proj1 (scandir_Some _ _ _ _ Hscan)) in Hx as [Hxn _].
      apply depth_le in Hxn.
      rewrite (depth_shape t0 t' (Hshape0 _ Ht')), length_app in Hxn.
      simpl in Hxn.
      apply triple_walk; [done | done | lia |].
      rewrite length_app. simpl. lia.
    + apply triple_get_bind. intros t'' Ht''.
      eapply triple_pre; [by intros ? ->|].
      unfold islink.
      rewrite (is_link_in_shape t0 t'') by auto. rewrite Hnolink.
      replace (match refuses sys Lstat t'' (cur ++ [d]) with
               | Some _ => false | None => false end) with false
        by (by destruct (refuses sys Lstat t'' (cur ++ [d]))).
      apply IH; [done | lia | rewrite length_app; simpl; lia |].
      intros t3 dn3 fn3. rewrite <- (assoc_L (++)). apply Hest.
Qed.
End Walk.

(** *** The calls *)

Lemma chmod_outcome (q : path) (m : Z) (t' : tree) (out : list string) :
  (∃ e, chmod sys q m (St t' out) = (Raise e, St t' out)) ∨
  (∃ j n, resolve t' q = Some (j, n) ∧ refuses sys Chmod t' q = None ∧
     chmod sys q m (St t' out)
     = (Return (),
        St (Tree (names t') (<[j := set_mode m n]> (nodes t'))) out)).
Proof.
  unfold chmod, mbind, py_bind, Py.bind, Py.get, Py.raise, Py.modify. simpl.
  destruct (refuses sys Chmod t' q) as [e|]; [left; by exists e|].
  destruct (resolve t' q) as [[j n]|]; [|left; by eexists].
  right. by exists j, n.
Qed.

Lemma stat_then_outcome (answer : tree → path → bool) (q : path)
    (t' : tree) (out : list string) :
  stat_then sys answer q (St t' out)
  = match refuses sys Stat t' q with
    | Some e => (Raise e, St t' out)
    | None => (Return (answer t' q), St t' out)
    end.
Proof.
  unfold stat_then, mbind, py_bind, Py.bind, Py.get, Py.raise. simpl.
  by destruct (refuses sys Stat t' q).
Qed.

Lemma read_bytes_outcome (q : path) (t' : tree) (out : list string) :
  (∃ e, read_bytes sys q (St t' out) = (Raise e, St t' out)) ∨
  (∃ c, read_bytes sys q (St t' out) = (Return c, St t' out)).
Proof.
  unfold read_bytes, mbind, py_bind, Py.bind, Py.get, Py.raise. simpl.
  destruct (refuses sys Read t' q) as [e|]; [left; by exists e|].
  destruct (resolve t' q) as [[j [| |]]|];
    (left; by eexists) || (right; by eexists).
Qed.

(** A computation that only reads the tree: it leaves the state as it
    is and does not exit. *)
Let reads {A} (m : py tree A) : Prop :=
  ∀ s, (∃ a, m s = (Return a, s)) ∨ (∃ e, m s = (Raise e, s)).

Lemma reads_ret {A} (a : A) : reads (mret a).
Proof. intros s. left. by exists a. Qed.

Lemma reads_bind {A B} (m : py tree A) (k : A → py tree B) :
  reads m → (∀ a, reads (k a)) → reads (m ≫= k).
Proof.
  intros Hm Hk s. unfold mbind, py_bind, Py.bind.
  destruct (Hm s) as [[a ->]|[e ->]]; [apply Hk | right; by exists e].
Qed.

Lemma reads_or (a b : py tree bool) : reads a → reads b → reads (or_ a b).
Proof.
  intros Ha Hb. apply reads_bind; [done|]. intros [|]; [apply reads_ret|done].
Qed.

Lemma reads_and (a b : py tree bool) : reads a → reads b → reads (and_ a b).
Proof.
  intros Ha Hb. apply reads_bind; [done|]. intros [|]; [done|apply reads_ret].
Qed.

Lemma reads_stat_then (answer : tree → path → bool) (q : path) :
  reads (stat_then sys answer q).
Proof.
  intros [t' out]. rewrite stat_then_outcome.
  destruct (refuses sys Stat t' q); [right | left]; by eexists.
Qed.

Lemma reads_read_bytes (q : path) : reads (read_bytes sys q).
Proof.
  intros [t' out].
  destruct (read_bytes_outcome q t' out) as [[e ->]|[c ->]];
    [right | left]; by eexists.
Qed.

(** The condition of the file pass only reads the tree. *)
Lemma executable_condition_pure (top q : path) (t' : tree)
    (out : list string) :
  (∃ b, executable_condition sys top q (St t' out) = (Return b, St t' out)) ∨
  (∃ e, executable_condition sys top q (St t' out) = (Raise e, St t' out)).
Proof.
  revert t' out.
  assert (reads (executable_condition sys top q)) as H.
  { unfold executable_condition, is_file.
    repeat first
      [ apply reads_or | apply reads_and | apply reads_ret
      | apply reads_stat_then
      | apply reads_bind; [apply reads_read_bytes | intros ?] ]. }
  intros t' out. apply H.
Qed.

(** On a regular file that the host lets the process look at and read,
    the condition computes the rule. *)
Lemma executable_condition_rule (top q : path) (t' : tree)
    (out : list string) (j : nat) (m : Z) (c : string) :
  resolve t' q = Some (j, NFile m c) →
  refuses sys Stat t' q = None → refuses sys Read t' q = None →
  executable_condition sys top q (St t' out)
  = (Return (executable top q c), St t' out).
Proof.
  intros Hq Hs Hr.
  unfold executable_condition, executable, or_, and_, is_file, stat_then,
    is_file_in, read_bytes.
  unfold mbind, mret, py_bind, py_ret, Py.bind, Py.get, Py.ret, Py.raise.
  simpl.
  repeat first
    [ progress simpl
    | rewrite Hq | rewrite Hs | rewrite Hr
    | match goal with
      | |- context [if ?b then _ else _] => destruct b eqn:?
      end ];
    try done; rewrite ?andb_false_r in *; done.
Qed.

(** *** The steps of the three parts of the function *)

(** [P] survives the [chmod] of [q] to the mode [m]. *)
Let survives (P : tree → Prop) (q : path) (m : Z) : Prop :=
  ∀ t' j n, P t' → resolve t' q = Some (j, n) →
    P (Tree (names t') (<[j := set_mode m n]> (nodes t'))).

Lemma same_shape_survives (t0 : tree) (q : path) (m : Z) :
  survives (same_shape t0) q m.
Proof.
  intros t' j n Ht' [_ Hn]%resolve_node. by apply same_shape_chmod.
Qed.

(** A step of the directory pass. *)
Lemma step_directory (P : tree → Prop) (top dirpath : path) :
  survives P dirpath Mode.o755 →
  Py.triple P (set_directory_default sys top dirpath) (λ _, P) (λ _, False).
Proof.
  intros Hs [t' out] HP. simpl in HP.
  unfold set_directory_default, Py.try_except. cbv zeta.
  destruct (bool_decide _); [|done].
  destruct (chmod_outcome dirpath Mode.o755 t' out)
    as [[e ->]|(j & n & Hr & _ & ->)]; simpl; [done|]. by apply Hs.
Qed.

(** A step of the file pass. *)
Lemma step_file (P : tree → Prop) (top q : path) :
  survives P q Mode.o755 → survives P q Mode.o644 →
  Py.triple P (set_file_mode sys top q) (λ _, P) (λ _, False).
Proof.
  intros H755 H644 [t' out] HP. simpl in HP.
  unfold set_file_mode, Py.try_except, mbind, py_bind, Py.bind.
  destruct (executable_condition_pure top q t' out) as [[b ->]|[e ->]];
    simpl; [|done].
  destruct b.
  - destruct (chmod_outcome q Mode.o755 t' out)
      as [[e ->]|(j & n & Hr & _ & ->)]; simpl; [done|]. by apply H755.
  - destruct (chmod_outcome q Mode.o644 t' out)
      as [[e ->]|(j & n & Hr & _ & ->)]; simpl; [done|]. by apply H644.
Qed.

(** One of the overrides after the walks.  When its existence check
    raises, the function ends there: [R] records that a check was
    refused.  [Q] has to follow from [P] where the override changes
    nothing (the path is no directory, or its [chmod] is refused). *)
Lemma step_override (P Q : tree → Prop) (R : Prop) (p : path) (m : Z)
    (set warning : string) :
  (∀ t' e, refuses sys Stat t' p = Some e → R) →
  (∀ t', P t' →
     (is_dir_in t' p = true → refuses sys Chmod t' p ≠ None) → Q t') →
  (∀ t' j n, P t' → is_dir_in t' p = true → resolve t' p = Some (j, n) →
     Q (Tree (names t') (<[j := set_mode m n]> (nodes t')))) →
  Py.triple P (set_special sys p m set warning)
    (λ _, Q) (λ t', P t' ∧ R).
Proof.
  intros HR Hskip Hs [t' out] HP. simpl in HP.
  unfold set_special, and_, exists_, is_dir, Py.when, Py.try_except.
  unfold mbind, py_bind, Py.bind. rewrite stat_then_outcome.
  destruct (refuses sys Stat t' p) as [e|] eqn:Hstat;
    [simpl; split; [done | by eapply HR]|].
  destruct (bool_decide (is_Some (resolve t' p))) eqn:Hex.
  2:{ simpl. apply Hskip; [done|]. intros Hd.
      apply bool_decide_eq_false_1 in Hex. destruct Hex.
      unfold is_dir_in in Hd. by destruct (resolve t' p). }
  rewrite stat_then_outcome, Hstat.
  destruct (is_dir_in t' p) eqn:Hd; simpl;
    [|apply Hskip; [done | by rewrite Hd]].
  unfold chmod, mbind, py_bind, Py.bind, Py.get, Py.raise, Py.modify. simpl.
  destruct (refuses sys Chmod t' p) as [e|] eqn:Hc; simpl.
  { apply Hskip; [done|]. by rewrite Hc. }
  destruct (resolve t' p) as [[j n]|] eqn:Hr; simpl.
  - by eapply Hs.
  - unfold is_dir_in in Hd. by rewrite Hr in Hd.
Qed.

(** The modes of the overrides. *)
Lemma directory_mode_checked (top : path) :
  directory_mode top (top ++ ["tmp"]) = Mode.o1777 ∧
  directory_mode top (top ++ ["var"; "tmp"]) = Mode.o1777 ∧
  directory_mode top (top ++ ["var"; "log"]) = Mode.o777 ∧
  directory_mode top (top ++ ["var"; "run"]) = Mode.o777 ∧
  directory_mode top (top ++ ["var"; "lock"]) = Mode.o777 ∧
  directory_mode top (top ++ ["dev"]) = Mode.o755 ∧
  directory_mode top top = Mode.o755.
Proof.
  assert (∀ a b : list string, a ≠ b → top ++ a ≠ top ++ b) as Hne
    by (intros a b Hab Heq; by apply app_inv_head in Heq).
  assert (∀ a : list string, a ≠ [] → top ≠ top ++ a) as Hne'.
  { intros a Ha Heq. apply Ha. apply (app_inv_head top).
    by rewrite app_nil_r. }
  unfold directory_mode.
  split; [by rewrite bool_decide_eq_true_2 by (left)|].
  split; [by rewrite bool_decide_eq_true_2 by (right; left)|].
  split.
  { rewrite bool_decide_eq_false_2.
    - by rewrite bool_decide_eq_true_2 by (left).
    - rewrite !elem_of_cons, elem_of_nil. intros [H|[H|[]]];
        by apply Hne in H. }
  split.
  { rewrite bool_decide_eq_false_2.
    - by rewrite bool_decide_eq_true_2 by (right; left).
    - rewrite !elem_of_cons, elem_of_nil. intros [H|[H|[]]];
        by apply Hne in H. }
  split.
  { rewrite bool_decide_eq_false_2.
    - by rewrite bool_decide_eq_true_2 by (right; right; left).
    - rewrite !elem_of_cons, elem_of_nil. intros [H|[H|[]]];
        by apply Hne in H. }
  split.
  { rewrite bool_decide_eq_false_2.
    - rewrite bool_decide_eq_false_2; [done|].
      rewrite !elem_of_cons, elem_of_nil. intros [H|[H|[H|[]]]];
        by apply Hne in H.
    - rewrite !elem_of_cons, elem_of_nil. intros [H|[H|[]]];
        by apply Hne in H. }
  rewrite bool_decide_eq_false_2.
  - rewrite bool_decide_eq_false_2; [done|].
    rewrite !elem_of_cons, elem_of_nil. intros [H|[H|[H|[]]]];
      by apply Hne' in H.
  - rewrite !elem_of_cons, elem_of_nil. intros [H|[H|[]]];
      by apply Hne' in H.
Qed.

(** The function, from its three parts: what the directory pass
    establishes, what the file pass makes of it, and what the overrides
    make of that, one after the other. *)
Lemma classifier_triple (top : path) (Pa Pb : tree → Prop)
    (G : nat → tree → Prop) (E : tree → Prop) :
  Py.triple Pa
    (os_walk sys top (λ dirpath _ _, set_directory_default sys top dirpath))
    (λ _, Pb) (λ _, False) →
  Py.triple Pb
    (os_walk sys top (λ dirpath _ filenames,
       Py.for_each filenames (λ filename,
         set_file_mode sys top (dirpath ++ [filename]))))
    (λ _, G 0%nat) (λ _, False) →
  (∀ (k : nat) (p : path) (set warning : string),
     checked_paths top !! k = Some p →
     Py.triple (G k) (set_special sys p (directory_mode top p) set warning)
       (λ _, G (S k)) E) →
  Py.triple Pa (set_rootfs_permissions sys top) (λ _, G 7%nat) E.
Proof.
  intros Hdirs Hfiles Hover.
  destruct (directory_mode_checked top)
    as (M0 & M1 & M2 & M3 & M4 & M5 & M6).
  unfold set_rootfs_permissions.
  do 2 (eapply triple_bind; [apply triple_print | intros ?]).
  eapply triple_bind.
  { eapply triple_conseq; [exact Hdirs | done | done | done]. }
  intros ?. cbv beta.
  eapply triple_bind; [apply triple_print | intros ?].
  eapply triple_bind.
  { eapply triple_conseq; [exact Hfiles | done | done | done]. }
  intros ?. cbv beta.
  eapply triple_bind; [apply triple_print | intros ?].
  eapply triple_bind.
  { cbn [Py.for_each].
    eapply triple_bind; [rewrite <- M0; by apply (Hover 0%nat) | intros ?].
    eapply triple_bind; [rewrite <- M1; by apply (Hover 1%nat) | intros ?].
    apply (triple_ret (λ _, G 2%nat) E ()). }
  intros ?. cbv beta.
  eapply triple_bind.
  { cbn [Py.for_each].
    eapply triple_bind; [rewrite <- M2; by apply (Hover 2%nat) | intros ?].
    eapply triple_bind; [rewrite <- M3; by apply (Hover 3%nat) | intros ?].
    eapply triple_bind; [rewrite <- M4; by apply (Hover 4%nat) | intros ?].
    apply (triple_ret (λ _, G 5%nat) E ()). }
  intros ?. cbv beta zeta.
  eapply triple_bind; [rewrite <- M5; by apply (Hover 5%nat) | intros ?].
  eapply triple_bind; [rewrite <- M6; by apply (Hover 6%nat) | intros ?].
  apply triple_print.
Qed.

(** *** The two walks *)

Section Passes.
Variable top : path.
Variable t0 : tree.
Variable body : path → list string → list string → py tree ().

Lemma os_walk_keeps (P : tree → Prop) :
  (∀ t', P t' → same_shape t0 t') →
  (∀ t' dirpath dn fn, P t' → scandir sys t' dirpath = Some (dn, fn) →
     Py.triple P (body dirpath dn fn) (λ _, P) (λ _, False)) →
  Py.triple P (os_walk sys top body) (λ _, P) (λ _, False).
Proof.
  intros Hshape Hbody. unfold os_walk.
  apply triple_get_bind. intros t' Ht'.
  eapply triple_pre; [by intros ? ->|].
  apply (triple_walk t0 body P); [done | done | lia |].
  rewrite (depth_shape t0 t') by auto. lia.
Qed.

Lemma os_walk_establishes (P0 P1 : tree → Prop) (dirs : list string) :
  (∀ t', P0 t' → same_shape t0 t') →
  (∀ t', P1 t' → same_shape t0 t') →
  (∀ t' dirpath dn fn, P0 t' → scandir sys t' dirpath = Some (dn, fn) →
     Py.triple P0 (body dirpath dn fn) (λ _, P0) (λ _, False)) →
  (∀ t' dirpath dn fn, P1 t' → scandir sys t' dirpath = Some (dn, fn) →
     Py.triple P1 (body dirpath dn fn) (λ _, P1) (λ _, False)) →
  walks_to sys t0 top dirs →
  (∀ t' dn fn, P0 t' → scandir sys t' (top ++ dirs) = Some (dn, fn) →
     Py.triple P0 (body (top ++ dirs) dn fn) (λ _, P1) (λ _, False)) →
  Py.triple P0 (os_walk sys top body) (λ _, P1) (λ _, False).
Proof.
  intros Hshape0 Hshape1 Hbody0 Hbody1 Hwalk Hest. unfold os_walk.
  apply triple_get_bind. intros t' Ht'.
  eapply triple_pre; [by intros ? ->|].
  apply (walk_establish t0 body P0 P1 (λ _, False) Hshape0 Hshape1
           Hbody0 Hbody1 dirs top); [done | lia | | done].
  rewrite (depth_shape t0 t') by auto. lia.
Qed.
End Passes.

(** The directory pass keeps what survives a [chmod] to 0755. *)
Lemma directory_pass_keeps (top : path) (t0 : tree) (P : tree → Prop) :
  (∀ t', P t' → same_shape t0 t') →
  (∀ q, survives P q Mode.o755) →
  Py.triple P
    (os_walk sys top (λ dirpath _ _, set_directory_default sys top dirpath))
    (λ _, P) (λ _, False).
Proof.
  intros Hshape Hs. apply (os_walk_keeps top t0); [done|].
  intros t' d dn fn _ _. by apply step_directory.
Qed.

(** The file pass keeps what survives the [chmod] of the names that the
    walk reports as files. *)
Lemma file_pass_keeps (top : path) (t0 : tree) (P : tree → Prop) :
  (∀ t', P t' → same_shape t0 t') →
  (∀ t' dirpath dn fn x, P t' → scandir sys t' dirpath = Some (dn, fn) →
     x ∈ fn →
     Py.triple P (set_file_mode sys top (dirpath ++ [x]))
       (λ _, P) (λ _, False)) →
  Py.triple P
    (os_walk sys top (λ dirpath _ filenames,
       Py.for_each filenames (λ filename,
         set_file_mode sys top (dirpath ++ [filename]))))
    (λ _, P) (λ _, False).
Proof.
  intros Hshape Hs. apply (os_walk_keeps top t0); [done|].
  intros t' d dn fn Ht' Hscan. apply triple_for_each_in.
  intros x Hx. by eapply Hs.
Qed.

(** *** One file *)

(** The file of the theorem is fixed in this section: [t0] is the tree
    before the classifier runs, and the walk reports in it the regular
    file [f], which has no other name and which the host lets the
    process look at, read and chmod. *)
Section OneFile.
Variable top : path.
Variable dirs : list string.
Variable filename : string.
Variable t0 : tree.
Variable i : nat.
Variable mode : Z.
Variable content : string.
Let f : path := top ++ dirs ++ [filename].
Hypothesis Hwalked : walked_file sys t0 top dirs filename i mode content.
Hypothesis Hsole : sole_name t0 f i.
Hypothesis Hlets : lets sys [Chmod; Read; Stat] f.

Let rule_mode : Z := file_mode (executable top f content).
Let P0 : tree → Prop := same_shape t0.
Let P1 (t' : tree) : Prop :=
  same_shape t0 t' ∧ nodes t' !! i = Some (NFile rule_mode content).
Let R : Prop :=
  ∃ t' p e, p ∈ checked_paths top ∧ refuses sys Stat t' p = Some e.

Lemma f_resolves (t' : tree) :
  P0 t' → ∃ m', resolve t' f = Some (i, NFile m' content).
Proof.
  intros Ht'. destruct Hwalked as (_ & [link Hname] & Hnode).
  destruct (same_shape_nodes t0 t' i _ Ht' Hnode) as (n' & Hn' & Hsame).
  destruct n' as [|m' c'|]; simpl in Hsame; try done.
  injection Hsame as ->. exists m'.
  apply (resolve_named t' f i link); [|done].
  destruct Ht' as [Hn _]. etrans; [|exact Hname]. by rewrite Hn.
Qed.

Lemma other_name (t' : tree) (q : path) (j : nat) (n : node) :
  same_shape t0 t' → q ≠ f → resolve t' q = Some (j, n) → j ≠ i.
Proof.
  intros [Hn _] Hq [[link Hname] _]%resolve_node ->.
  rewrite Hn in Hname. by apply Hsole in Hname.
Qed.

Lemma P1_survives_other (q : path) (m : Z) : q ≠ f → survives P1 q m.
Proof.
  intros Hq t' j n [Hshape Hi] Hr. split.
  - by apply (same_shape_survives t0 q m t' j n).
  - simpl. rewrite lookup_insert_ne; [done|]. by eapply other_name.
Qed.

Lemma step_file_establishes :
  Py.triple P0 (set_file_mode sys top f) (λ _, P1) (λ _, False).
Proof.
  intros [t' out] Ht'. simpl in Ht'.
  destruct (f_resolves t' Ht') as [m' Hr].
  unfold set_file_mode, Py.try_except, mbind, py_bind, Py.bind.
  rewrite (executable_condition_rule top f t' out i m' content Hr)
    by (apply Hlets; rewrite !elem_of_cons; tauto).
  assert (∀ b : bool,
            (if b then chmod sys f Mode.o755 else chmod sys f Mode.o644)
            = chmod sys f (file_mode b)) as Hmode by (by intros []).
  rewrite Hmode.
  unfold chmod, mbind, py_bind, Py.bind, Py.get, Py.raise, Py.modify.
  simpl. rewrite (Hlets Chmod t') by (by left). rewrite Hr. simpl.
  split.
  - exact (same_shape_chmod t0 t' i (NFile m' content) rule_mode Ht'
             (proj2 (resolve_node _ _ _ _ Hr))).
  - cbn [nodes]. apply lookup_insert_eq.
Qed.

Lemma step_file_P1 (q : path) :
  Py.triple P1 (set_file_mode sys top q) (λ _, P1) (λ _, False).
Proof.
  destruct (decide (q = f)) as [->|Hq].
  - eapply triple_pre; [|apply step_file_establishes]. by intros t' [? _].
  - apply step_file; by apply P1_survives_other.
Qed.

Lemma filename_reported (t' : tree) (dn fn : list string) :
  P0 t' → scandir sys t' (top ++ dirs) = Some (dn, fn) → filename ∈ fn.
Proof.
  intros Ht' Hscan. apply (proj2 (scandir_Some _ _ _ _ Hscan)).
  rewrite <- (assoc_L (++)). fold f.
  destruct (f_resolves t' Ht') as [m' Hr]. split.
  - apply resolve_node in Hr as [[link Hname] _]. by eexists.
  - unfold entry_is_dir, is_dir_in. rewrite Hr.
    by destruct (refuses sys EntryIsDir t' f).
Qed.

Lemma set_rootfs_permissions_one_file :
  Py.triple P0 (set_rootfs_permissions sys top)
    (λ _, P1) (λ t', P1 t' ∧ R).
Proof.
  apply (classifier_triple top P0 P0 (λ _, P1)).
  - apply (directory_pass_keeps top t0); [done|].
    intros q. apply same_shape_survives.
  - apply (os_walk_establishes top t0 _ P0 P1 dirs);
      [done | by intros t' [? _] | | | by destruct Hwalked |].
    + intros t' d dn fn _ _. apply triple_for_each. intros x.
      apply step_file; apply same_shape_survives.
    + intros t' d dn fn _ _. apply triple_for_each. intros x.
      apply step_file_P1.
    + intros t' dn fn Ht' Hscan.
      apply (triple_for_each_establish_in P0 P1 (λ _, False) fn _ filename).
      * by eapply filename_reported.
      * intros x _. apply step_file; apply same_shape_survives.
      * intros x _. apply step_file_P1.
      * cbv beta. rewrite <- (assoc_L (++)). apply step_file_establishes.
  - intros k p set warning Hk. apply step_override.
    + intros t' e He. exists t', p, e. split; [|done].
      by eapply list_elem_of_lookup_2.
    + done.
    + intros t' j n [Hshape Hi] Hd Hr. split.
      * by apply (same_shape_survives t0 p (directory_mode top p) t' j n).
      * simpl. rewrite lookup_insert_ne; [done|]. intros Hji.
        unfold is_dir_in in Hd. rewrite Hr in Hd.
        apply resolve_node in Hr as [_ Hn]. rewrite Hji, Hi in Hn.
        injection Hn as <-. done.
Qed.

Lemma classifier_one_file (out : list string) :
  let run := set_rootfs_permissions sys top (St t0 out) in
  nodes (world run.2) !! i = Some (NFile rule_mode content) ∧
  same_shape t0 (world run.2) ∧
  ((∀ p, p ∈ checked_paths top → lets sys [Stat] p) → run.1 = Return ()).
Proof.
  intros run. subst run.
  pose proof (set_rootfs_permissions_one_file (St t0 out)
                (same_shape_refl t0)) as H.
  destruct (set_rootfs_permissions sys top (St t0 out))
    as [[[]|e|c] s']; simpl in *.
  - destruct H as [? ?]. split; [done|]. split; [done|]. by intros _.
  - destruct H as [[? ?] (t' & p & e' & Hp & He)].
    split; [done|]. split; [done|]. intros Hstat.
    rewrite (Hstat p Hp Stat t') in He by (by left). done.
  - destruct H as [[? ?] (t' & p & e' & Hp & He)].
    split; [done|]. split; [done|]. intros Hstat.
    rewrite (Hstat p Hp Stat t') in He by (by left). done.
Qed.
End OneFile.
End PermissionsFacts.



(** The part of the claim that holds as stated: a file directly in a
    directory named [bin] or [sbin] gets 0755. *)
Lemma executable_in_bin (top file_path : Path.path) (content : string) :
  Path.name (Path.parent file_path) ∈ ["bin"; "sbin"] →
  Permissions.file_mode (Permissions.executable top file_path content)
  = Mode.o755.
Proof.
  intros H. unfold Permissions.executable.
  by rewrite (bool_decide_eq_true_2 _ H).
Qed.


(** Why the file must have no other name: in the sample tree with the
    symbolic link [share/sh] to [bin/busybox], the walk reports the link
    as a file of [share], the [chmod] to 0644 follows it, and BusyBox in
    [bin] ends with 0644. *)
Example classifier_follows_symlinks :
  let top := ["build"; "rootfs"] in
  let after := Permissions.classified Permissions.willing top
                 (Permissions.linked top) in
  Permissions.regular_file_under after top (top ++ ["bin"; "busybox"])
    Mode.o644 "ELF".
Proof.
  intros top after. split; [by exists ["bin"; "busybox"]|].
  exists 2%nat, false. split; by vm_compute.
Qed.

Section ResolverFacts.
Import Resolver.
Variable sys : rhost.
Variable cross_prefix : string.

Lemma first_hit_Some lib_name (paths : list ppath) :
  (∃ search_path, search_path ∈ paths ∧
                  exists_ sys (div search_path lib_name) = true) →
  ∃ search_path, search_path ∈ paths ∧
    first_hit sys lib_name paths = Some (div search_path lib_name).
Proof.
  induction paths as [|p paths IH]; intros (sp & Hin & Hex).
  - by apply elem_of_nil in Hin.
  - simpl. destruct (exists_ sys (div p lib_name)) eqn:Hp.
    + exists p. split; [left | done].
    + apply elem_of_cons in Hin as [->|Hin]; [congruence|].
      destruct IH as (sp' & Hin' & ->); [by exists sp|].
      exists sp'. split; [by right | done].
Qed.

Lemma first_hit_None lib_name (paths : list ppath) :
  (∀ search_path, search_path ∈ paths →
                  exists_ sys (div search_path lib_name) = false) →
  first_hit sys lib_name paths = None.
Proof.
  induction paths as [|p paths IH]; intros H; simpl; [done|].
  rewrite (H p) by left. apply IH. intros sp Hsp. apply H. by right.
Qed.

(** The outer loop collects the first hit of every name, in order, and
    prints one warning for every name without a hit. *)
Lemma resolve_spec names (paths found : list ppath) (s : state ()) :
  resolve sys names paths found s =
    (Return (found ++ omap (λ n, first_hit sys n paths) names),
     St (world s)
        (stdout s ++
         map warning_not_found
           (filter (λ n, first_hit sys n paths = None) names))).
Proof.
  revert found s. induction names as [|n names IH]; intros found s; simpl.
  - rewrite !app_nil_r. by destruct s.
  - destruct (first_hit sys n paths) as [p|] eqn:Hn.
    + rewrite IH. rewrite <- (assoc_L (++)). simpl.
      rewrite filter_cons_False by (rewrite Hn; done). done.
    + unfold mbind, py_bind, Py.bind, Py.print. simpl. rewrite IH. simpl.
      rewrite filter_cons_True by done. simpl.
      by rewrite <- (assoc_L (++)).
Qed.

Hypothesis Hiter : iterates_each_once sys.

Lemma find_dynamic_libraries_NoDup binary_path cross_compiler_root
    (s s' : state ()) (paths : list ppath) :
  find_dynamic_libraries sys cross_prefix binary_path cross_compiler_root s
  = (Return paths, s') →
  NoDup paths.
Proof.
  unfold find_dynamic_libraries, mbind, py_bind, Py.bind.
  destruct (read_needed sys cross_prefix binary_path s) as [[[needed|]|e|c] s1];
    try done.
  2:{ intros [= <- _]. constructor. }
  assert (∀ root, 
    (let paths0 := search_paths sys cross_prefix root in
     Py.bind (Py.print ("Suche nach dynamischen Bibliotheken in: [" +:+
                      String.concat ", "
                        (map (λ p, "PosixPath('" +:+ to_string p +:+ "')") paths0)
                      +:+ "]"))
       (λ _, Py.bind (resolve sys (iter_names sys needed) paths0 [])
          (λ found_lib_paths, mret (iter_paths sys (list_to_set found_lib_paths))))) s1
    = (Return paths, s') → NoDup paths) as Hmain.
  { intros root. cbv zeta. unfold Py.bind at 1. unfold Py.print at 1.
    unfold Py.bind. rewrite resolve_spec. simpl.
    intros [= <- _]. destruct Hiter as [_ Hp]. rewrite Hp.
    apply NoDup_elements. }
  destruct cross_compiler_root as [[|a root]|].
  - intros [= <- _]. constructor.
  - apply (Hmain (String a root)).
  - intros [= <- _]. constructor.
Qed.

Lemma warnings_app (l1 l2 : list string) :
  warnings (l1 ++ l2) = warnings l1 ++ warnings l2.
Proof. apply filter_app. Qed.

Lemma warnings_search_line (x : string) :
  warnings ["Suche nach dynamischen Bibliotheken in: [" +:+ x] = [].
Proof. reflexivity. Qed.

Lemma find_dynamic_libraries_libc_only binary_path root out err (s : state ()) :
  root ≠ "" →
  readelf sys [cross_prefix +:+ "readelf"; "-d"; binary_path]
  = Host.Exited 0 out err →
  needed_of out = {["libc.so.6"; "libm.so.6"]} →
  (∃ search_path, search_path ∈ search_paths sys cross_prefix root ∧
                  exists_ sys (div search_path "libc.so.6") = true) →
  (∀ search_path, search_path ∈ search_paths sys cross_prefix root →
                  exists_ sys (div search_path "libm.so.6") = false) →
  ∃ search_path s',
    find_dynamic_libraries sys cross_prefix binary_path (Some root) s
    = (Return [div search_path "libc.so.6"], s') ∧
    search_path ∈ search_paths sys cross_prefix root ∧
    warnings (stdout s') = warnings (stdout s) ++ [warning_not_found "libm.so.6"].
Proof.
  intros Hroot Hrun Hneeded Hc Hm.
  apply first_hit_Some in Hc as (sp & Hsp & Hc).
  apply first_hit_None in Hm.
  exists sp.
  unfold find_dynamic_libraries, read_needed, mbind, py_bind, Py.bind,
    Py.try_except.
  rewrite Hrun. unfold mret, py_ret, Py.ret. rewrite Hneeded.
  destruct root as [|a root]; [done|].
  cbv zeta. unfold Py.print at 1. rewrite resolve_spec. simpl.
  destruct Hiter as [Hn Hp].
  assert (iter_names sys {["libc.so.6"; "libm.so.6"]}
            = ["libc.so.6"; "libm.so.6"] ∨
          iter_names sys {["libc.so.6"; "libm.so.6"]}
            = ["libm.so.6"; "libc.so.6"]) as Horder.
  { specialize (Hn {["libc.so.6"; "libm.so.6"]}).
    rewrite elements_union_singleton, elements_singleton in Hn
      by (rewrite elem_of_singleton; discriminate).
    symmetry in Hn. by apply Permutation_length_2_inv in Hn. }
  assert (iter_paths sys
            (list_to_set
               (omap (λ n, first_hit sys n
                             (search_paths sys cross_prefix (String a root)))
                  (iter_names sys {["libc.so.6"; "libm.so.6"]})))
          = [div sp "libc.so.6"]) as ->.
  { apply Permutation_singleton_r. rewrite Hp.
    destruct Horder as [-> | ->]; simpl; rewrite Hc, Hm; simpl;
      by rewrite (right_id_L ∅ (∪)), elements_singleton. }
  eexists. split; [reflexivity|]. split; [done|].
  simpl. rewrite !warnings_app.
  destruct Horder as [-> | ->]; simpl.
  - rewrite filter_cons_False by (rewrite Hc; by intros ?).
    rewrite filter_cons_True by done.
    rewrite warnings_search_line, app_nil_r. by f_equal.
  - rewrite filter_cons_True by done.
    rewrite filter_cons_False by (rewrite Hc; by intros ?).
    rewrite warnings_search_line, app_nil_r. by f_equal.
Qed.
End ResolverFacts.

(** C6.  Whatever the order in which the host iterates over a set:
    when readelf reports [libc.so.6] and [libm.so.6] as needed and, of the
    two, only [libc.so.6] exists under a candidate directory of the
    sysroot, the resolver returns exactly one path, [libc.so.6] under a
    candidate directory, and prints exactly one more warning, the one for
    [libm.so.6]; and for every input, a list the resolver returns has no
    duplicates. *)
Theorem resolver_libc_only_and_no_duplicates :
  ∀ (sys : Resolver.rhost) (cross_prefix binary_path : string),
    Resolver.iterates_each_once sys →
    (∀ root out err (s : state ()),
       root ≠ "" →
       Resolver.readelf sys [cross_prefix +:+ "readelf"; "-d"; binary_path]
       = Host.Exited 0 out err →
       Resolver.needed_of out = {["libc.so.6"; "libm.so.6"]} →
       (∃ search_path,
          search_path ∈ Resolver.search_paths sys cross_prefix root ∧
          Resolver.exists_ sys (Resolver.div search_path "libc.so.6") = true) →
       (∀ search_path,
          search_path ∈ Resolver.search_paths sys cross_prefix root →
          Resolver.exists_ sys (Resolver.div search_path "libm.so.6") = false) →
       ∃ search_path s',
         Resolver.find_dynamic_libraries sys cross_prefix binary_path
           (Some root) s
         = (Return [Resolver.div search_path "libc.so.6"], s') ∧
         search_path ∈ Resolver.search_paths sys cross_prefix root ∧
         Resolver.warnings (stdout s')
         = Resolver.warnings (stdout s)
           ++ [Resolver.warning_not_found "libm.so.6"]) ∧
    (∀ cross_compiler_root (s s' : state ()) (paths : list Resolver.ppath),
       Resolver.find_dynamic_libraries sys cross_prefix binary_path
         cross_compiler_root s = (Return paths, s') →
       NoDup paths).
Proof.
  intros sys cross_prefix binary_path Hiter. split.
  - intros root out err s. by apply find_dynamic_libraries_libc_only.
  - intros root s s' paths. by apply find_dynamic_libraries_NoDup.
Qed.

Lemma resolver_libc_only_and_no_duplicates_witness :
  ∃ search_path s',
    Resolver.find_dynamic_libraries Resolver.sample_host "aarch64-linux-gnu-"
      "build/rootfs/bin/busybox" (Some "/usr/aarch64-linux-gnu") (St () [])
    = (Return [Resolver.div search_path "libc.so.6"], s') ∧
    search_path ∈ Resolver.search_paths Resolver.sample_host
                    "aarch64-linux-gnu-" "/usr/aarch64-linux-gnu" ∧
    Resolver.warnings (stdout s')
    = Resolver.warnings [] ++ [Resolver.warning_not_found "libm.so.6"].
Proof.
  assert (Resolver.iterates_each_once Resolver.sample_host) as Hiter
    by (split; intros X; reflexivity).
  apply (proj1 (resolver_libc_only_and_no_duplicates Resolver.sample_host
                  "aarch64-linux-gnu-" "build/rootfs/bin/busybox" Hiter)
           "/usr/aarch64-linux-gnu" Resolver.readelf_output "" (St () [])).
  - discriminate.
  - reflexivity.
  - apply (bool_decide_unpack _). vm_compute. reflexivity.
  - exists (true, ["usr"; "aarch64-linux-gnu"; "lib"]). split.
    + apply (bool_decide_unpack _). vm_compute. reflexivity.
    + vm_compute. reflexivity.
  - apply Forall_forall. apply (bool_decide_unpack _). vm_compute. reflexivity.
Defined.

(** C9.  When the command that [run_command] invokes fails and
    [subprocess.run] reports the failure, by a missing executable or by a
    non-zero exit status of a process whose captured output decodes as text,
    [run_command] prints its diagnostics and ends in [SystemExit] with
    status 1: it neither returns nor raises, and a handler for
    [subprocess.CalledProcessError] around the call is not entered, whatever
    the call site, the command and the host. *)

Theorem run_command_failure_exits :
  ∀ (sys : Host.os) commands cwd desc check_root (s : state Host.host) p d,
    Host.spawn sys commands (Host.disk_of (world s)) = (p, d) →
    Host.command_failed p →
    (∃ s', Host.run_command sys commands cwd desc check_root s
             = (SystemExit 1, s') ∧
           (check_root && negb (Host.euid (world s) =? 0) = false →
            Host.diagnostic commands p ∈ stdout s')) ∧
    ∀ handler : py Host.host (),
      Py.try_except (Host.run_command sys commands cwd desc check_root)
        (Py.except_CalledProcessError handler) s
      = Host.run_command sys commands cwd desc check_root s.
Proof.
  intros sys commands cwd desc check_root [h out] p d Hspawn Hfail.
  simpl in Hspawn.
  unfold Host.run_command, Host.geteuid, Host.subprocess_run.
  unfold mbind, mret, py_bind, py_ret, Py.bind, Py.get, Py.ret,
    Py.try_except, Py.print, Py.sys_exit, Py.modify, Py.when, Py.raise.
  simpl.
  destruct (check_root && negb (Host.euid h =? 0)); simpl.
  { split; [eexists; split; [reflexivity | done] | done]. }
  rewrite Hspawn. simpl.
  destruct p as [rc o e|rc| |e]; simpl in Hfail; [|done|clear Hfail|done].
  - destruct rc as [|rc|rc]; [done| |]; simpl;
      destruct (String.eqb o ""), (String.eqb e ""); simpl;
      (split; [eexists; split; [reflexivity|]; intros _; simpl;
               rewrite !elem_of_app, !list_elem_of_singleton; tauto
              | done]).
  - split; [eexists; split; [reflexivity|]; intros _; simpl;
            rewrite !elem_of_app, !list_elem_of_singleton; tauto
           | done].
Qed.

Lemma run_command_failure_exits_witness :
  let sys := Host.linux (λ _, Some (Host.Exited 1 "" "denied")) in
  let s := St (Host.Host 0 (Host.Disk ∅ ∅) []) [] in
  (∃ s', Host.run_command sys ["fallocate"; "-l"; "512M"; "rootfs.ext4"] None
           "Image-Datei allokieren" true s = (SystemExit 1, s') ∧
         (true && negb (Host.euid (world s) =? 0) = false →
          Host.diagnostic ["fallocate"; "-l"; "512M"; "rootfs.ext4"]
            (Host.Exited 1 "" "denied") ∈ stdout s')) ∧
  ∀ handler : py Host.host (),
    Py.try_except
      (Host.run_command sys ["fallocate"; "-l"; "512M"; "rootfs.ext4"] None
         "Image-Datei allokieren" true)
      (Py.except_CalledProcessError handler) s
    = Host.run_command sys ["fallocate"; "-l"; "512M"; "rootfs.ext4"] None
        "Image-Datei allokieren" true s.
Proof.
  intros sys s.
  apply (run_command_failure_exits sys _ None _ true s
           (Host.Exited 1 "" "denied") (Host.Disk ∅ ∅)).
  - reflexivity.
  - simpl. lia.
Defined.

(** A command that exits with a non-zero status after writing bytes that
    do not decode: [subprocess.run] is called with [text=True] (sub.py line
    79) and raises [UnicodeDecodeError] while it reads the output, before it
    looks at the status.  [run_command] has no handler for it (lines 93-108),
    so the exception reaches the caller, where an [except Exception] catches
    it. *)
Lemma run_command_undecodable_output_raises :
  let sys := Host.linux (λ _, Some (Host.Garbled 3)) in
  let s := St (Host.Host 0 (Host.Disk ∅ ∅) []) [] in
  let call := Host.run_command sys ["fallocate"; "-l"; "512M"; "rootfs.ext4"]
                None "Image-Datei allokieren" true in
  Host.exit_status_nonzero (Host.Garbled 3) ∧
  (call s).1 = Raise OtherException ∧
  (Py.try_except call (Py.except_Exception (λ _, Py.print "caught")) s).1
  = Return ().
Proof.
  intros sys s call. split; [simpl; lia|]. split; reflexivity.
Qed.

(** ** Further properties of the config patcher *)

Section StrFacts.
Import Str.

Lemma app_cons (c : ascii) (a b : string) :
  String c a +:+ b = String c (a +:+ b).
Proof. reflexivity. Qed.

Lemma app_empty (b : string) : "" +:+ b = b.
Proof. reflexivity. Qed.

Lemma prefix_app (p s x : string) :
  String.prefix p s = true → String.prefix p (s +:+ x) = true.
Proof.
  revert s. induction p as [|a p IH]; intros [|b s]; simpl; try done.
  - by destruct x.
  - rewrite ?app_cons; simpl. destruct (ascii_dec a b); [apply IH | done].
Qed.

Lemma prefix_self_app (p x : string) : String.prefix p (p +:+ x) = true.
Proof.
  induction p as [|a p IH]; [by destruct x|].
  rewrite ?app_cons; simpl. by destruct (ascii_dec a a).
Qed.

Lemma contains_prefix (p s : string) :
  String.prefix p s = true → contains p s = true.
Proof. intros H. destruct s; simpl in *; by rewrite H. Qed.

Lemma contains_app_l (p a b : string) :
  contains p a = true → contains p (a +:+ b) = true.
Proof.
  induction a as [|c a IH].
  - simpl. rewrite orb_false_r. intros H.
    apply contains_prefix. by apply (prefix_app p "" b).
  - rewrite ?app_cons; simpl.
    intros [H|H]%orb_true_iff; apply orb_true_iff.
    + left. by apply (prefix_app p (String c a) b).
    + right. by apply IH.
Qed.

Lemma contains_app_r (p a b : string) :
  contains p b = true → contains p (a +:+ b) = true.
Proof.
  intros H. induction a as [|c a IH]; [done|].
  rewrite ?app_cons; simpl. apply orb_true_iff. by right.
Qed.

Lemma lstrip_suffix (s : string) : ∃ w, s = w +:+ lstrip s.
Proof.
  induction s as [|c s [w IH]]; simpl; [by exists ""|].
  destruct (isspace c).
  - exists (String c w). rewrite app_cons. by f_equal.
  - by exists "".
Qed.

Lemma rstrip_prefix (s : string) : ∃ w, s = rstrip s +:+ w.
Proof.
  induction s as [|c s [w IH]]; simpl; [by exists ""|].
  destruct (rstrip s) as [|d r] eqn:Hr.
  - destruct (isspace c).
    + by exists (String c s).
    + exists w. rewrite app_cons. by f_equal.
  - exists w. rewrite app_cons. by f_equal.
Qed.

Lemma contains_strip (p s : string) :
  contains p (strip s) = true → contains p s = true.
Proof.
  unfold strip. intros H.
  destruct (rstrip_prefix (lstrip s)) as [w Hw].
  destruct (lstrip_suffix s) as [v Hv].
  rewrite Hv. apply contains_app_r. rewrite Hw. by apply contains_app_l.
Qed.

(** Stripping a text on the right only looks at its end. *)
Lemma rstrip_app (a b : string) :
  rstrip b ≠ "" → rstrip (a +:+ b) = a +:+ rstrip b.
Proof.
  intros Hb. induction a as [|c a IH]; [done|].
  rewrite ?app_cons; simpl. rewrite IH.
  destruct (a +:+ rstrip b) eqn:E; [|done].
  destruct a; [by rewrite app_empty in E | by rewrite app_cons in E].
Qed.

Lemma concat_keepends (s : string) : writelines (keepends s) = s.
Proof.
  unfold writelines. induction s as [|c s IH]; simpl; [done|].
  destruct (Ascii.eqb c LF) eqn:Hc.
  - apply Ascii.eqb_eq in Hc as ->.
    destruct (keepends s) as [|l ls] eqn:Hk; simpl in *.
    + by rewrite <- IH.
    + unfold nl. rewrite app_cons, app_empty. by f_equal.
  - destruct (keepends s) as [|l ls] eqn:Hk; simpl in *.
    + by rewrite <- IH.
    + destruct ls; simpl in *; [by f_equal|].
      rewrite app_cons. by f_equal.
Qed.
End StrFacts.

Section PatcherFacts.
Import Str ConfigPatcher.
Variable upper : string → string.

Lemma app_assoc' (a b c : string) : (a +:+ b) +:+ c = a +:+ (b +:+ c).
Proof. induction a as [|x a IH]; [done|]. rewrite !app_cons. by f_equal. Qed.

Lemma strip_not_set (f : string) :
  strip (not_set upper f +:+ nl) = not_set upper f.
Proof.
  unfold strip, not_set, feature_pattern. rewrite !app_assoc'.
  assert (Hl : ∀ x, lstrip ("# " +:+ x) = "# " +:+ x) by done.
  rewrite Hl.
  replace ("# " +:+ "CONFIG_" +:+ upper f +:+ "=" +:+ " is not set" +:+ nl)
    with (("# " +:+ "CONFIG_" +:+ upper f +:+ "=") +:+ (" is not set" +:+ nl))
    by (by rewrite !app_assoc').
  rewrite rstrip_app by (vm_compute; discriminate).
  change (rstrip (" is not set" +:+ nl)) with " is not set".
  by rewrite !app_assoc'.
Qed.

Lemma scan_features_cons (line g : string) (gs : list string) :
  scan_features upper line (g :: gs) =
  if startswith (feature_pattern upper g) line then
    if ends_enabled line then Disabled (not_set upper g +:+ nl) g
    else scan_features upper line gs
  else if String.eqb (strip line) (not_set upper g) then AlreadyDisabled g
  else scan_features upper line gs.
Proof. reflexivity. Qed.

Lemma scan_not_set (f : string) (features : list string) :
  f ∈ features →
  ∃ g, scan_features upper (not_set upper f +:+ nl) features
       = AlreadyDisabled g.
Proof.
  induction features as [|g gs IH]; [by intros ?%elem_of_nil|].
  intros Hin.
  rewrite scan_features_cons, not_set_not_pattern, strip_not_set.
  destruct (String.eqb _ _) eqn:E; [by exists g|].
  apply elem_of_cons in Hin as [->|Hin]; [|by apply IH].
  by rewrite String.eqb_refl in E.
Qed.

Lemma patch_lines_cons (features : list string) (l : string)
    (ls : list string) :
  (patch_lines upper features (l :: ls)).1 =
  match scan_features upper l features with
  | Disabled new_line _ => new_line :: (patch_lines upper features ls).1
  | AlreadyDisabled _ => (patch_lines upper features ls).1
  | NotModified => l :: (patch_lines upper features ls).1
  end.
Proof.
  simpl. destruct (patch_lines upper features ls).
  by destruct (scan_features upper l features).
Qed.

Lemma patch_lines_twice (features lines : list string) :
  (patch_lines upper features (patch_lines upper features lines).1).1
  = List.filter (kept upper features) lines.
Proof.
  induction lines as [|l ls IH]; [done|].
  rewrite patch_lines_cons.
  change (List.filter (kept upper features) (l :: ls))
    with (if kept upper features l
          then l :: List.filter (kept upper features) ls
          else List.filter (kept upper features) ls).
  unfold kept at 1.
  destruct (scan_features upper l features) as [nw g|g|] eqn:Hscan.
  - apply scan_Disabled in Hscan as [-> Hg].
    rewrite patch_lines_cons.
    by destruct (scan_not_set g features Hg) as [g' ->].
  - done.
  - rewrite patch_lines_cons, Hscan. by f_equal.
Qed.

Lemma patch_lines_kept (features lines : list string) :
  (patch_lines upper features (List.filter (kept upper features) lines)).1
  = List.filter (kept upper features) lines.
Proof.
  induction lines as [|l ls IH]; [done|]. simpl.
  destruct (kept upper features l) eqn:Hk; [|done].
  rewrite patch_lines_cons. unfold kept in Hk.
  destruct (scan_features upper l features); try done. by f_equal.
Qed.

Lemma scan_no_mention (features : list string) (line : string) :
  (∀ f, f ∈ features → contains (feature_pattern upper f) line = false) →
  scan_features upper line features = NotModified.
Proof.
  induction features as [|g gs IH]; [done|]. intros H. simpl.
  assert (Hg : contains (feature_pattern upper g) line = false)
    by (apply H; left).
  destruct (startswith _ line) eqn:Hpre.
  { apply contains_prefix in Hpre. congruence. }
  destruct (String.eqb _ _) eqn:Heq.
  { apply String.eqb_eq in Heq.
    assert (contains (feature_pattern upper g) line = true); [|congruence].
    apply contains_strip. rewrite Heq. unfold not_set.
    apply contains_app_r, contains_prefix, prefix_self_app. }
  apply IH. intros f Hf. apply H. by right.
Qed.

Lemma patch_lines_no_mention (features lines : list string) :
  (∀ line f, line ∈ lines → f ∈ features →
     contains (feature_pattern upper f) line = false) →
  patch_lines upper features lines = (lines, []).
Proof.
  induction lines as [|l ls IH]; [done|]. intros H. simpl.
  rewrite IH by (intros line f Hl Hf; apply H; [by right | done]).
  rewrite scan_no_mention; [done|].
  intros f Hf. apply H; [left | done].
Qed.

Lemma scan_same_upper (fs1 fs2 : list string) (line : string) :
  upper <$> fs1 = upper <$> fs2 →
  match scan_features upper line fs1, scan_features upper line fs2 with
  | Disabled n1 _, Disabled n2 _ => n1 = n2
  | AlreadyDisabled _, AlreadyDisabled _ => True
  | NotModified, NotModified => True
  | _, _ => False
  end.
Proof.
  revert fs2. induction fs1 as [|f fs1 IH]; intros [|g fs2]; try done.
  intros [= Hu Hrest]. simpl.
  unfold not_set, feature_pattern. rewrite Hu.
  destruct (startswith _ line).
  - destruct (ends_enabled line); [done | by apply IH].
  - destruct (String.eqb _ _); [done | by apply IH].
Qed.
End PatcherFacts.

(** X1.  Whatever the file and the feature list, no line the patching loop
    leaves in the file is, for a requested feature, a line the loop would
    still rewrite: a line of the output that starts with [CONFIG_<F>=] for a
    requested feature [F] does not, stripped, end in [=y] or [=m]. *)
Theorem patcher_leaves_no_enabled_line :
  ∀ (upper : string → string) (features lines : list string)
    (line f : string),
    f ∈ features →
    line ∈ (ConfigPatcher.patch_lines upper features lines).1 →
    Str.startswith (ConfigPatcher.feature_pattern upper f) line = true →
    ConfigPatcher.ends_enabled line = false.
Proof. intros upper features lines line f. apply patch_lines_no_enabled. Qed.

Lemma patcher_leaves_no_enabled_line_witness :
  ConfigPatcher.ends_enabled ("CONFIG_FOO=n" +:+ Str.nl) = false.
Proof.
  apply (patcher_leaves_no_enabled_line Str.ascii_upper ["foo"; "bar"]
           ["CONFIG_BAR=y" +:+ Str.nl; "CONFIG_FOO=n" +:+ Str.nl]
           ("CONFIG_FOO=n" +:+ Str.nl) "foo").
  - left.
  - right. left.
  - reflexivity.
Defined.

(** X2.  A config file none of whose lines contains [CONFIG_<F>=] for a
    requested feature [F] is written back with all its lines, in order, and
    nothing is logged; the text differs from the one read only in that the
    line ends CR LF and CR have become LF, as text-mode reading does. *)
Theorem patcher_untouched_without_mention :
  ∀ (upper : string → string) (features : list string) (text : string),
    (∀ line f, line ∈ Str.readlines text → f ∈ features →
       Str.contains (ConfigPatcher.feature_pattern upper f) line = false) →
    ConfigPatcher.patch_text upper features text
    = (Str.universal_newlines text, []).
Proof.
  intros upper features text H. unfold ConfigPatcher.patch_text.
  rewrite patch_lines_no_mention by done.
  unfold Str.readlines. by rewrite concat_keepends.
Qed.

Lemma patcher_untouched_without_mention_witness :
  ConfigPatcher.patch_text Str.ascii_upper ["foo"]
    ("CONFIG_BAR=y" +:+ String Str.CR Str.nl +:+ "# CONFIG_BAZ is not set")
  = ("CONFIG_BAR=y" +:+ Str.nl +:+ "# CONFIG_BAZ is not set", []).
Proof.
  apply (patcher_untouched_without_mention Str.ascii_upper ["foo"]).
  intros line f Hl ->%list_elem_of_singleton.
  vm_compute in Hl.
  apply elem_of_cons in Hl as [->|Hl]; [reflexivity|].
  apply list_elem_of_singleton in Hl as ->. reflexivity.
Defined.

(** X3.  For every file and feature list, running the patching loop twice
    leaves exactly the lines that the loop copies unchanged (those no
    requested feature matches), in order: the lines the first run rewrote
    are dropped by the second.  A third run changes nothing more. *)
Theorem patcher_stable_after_two_runs :
  ∀ (upper : string → string) (features lines : list string),
    let run := λ ls, (ConfigPatcher.patch_lines upper features ls).1 in
    run (run lines) = List.filter (ConfigPatcher.kept upper features) lines ∧
    run (run (run lines)) = run (run lines).
Proof.
  intros upper features lines run. unfold run.
  rewrite patch_lines_twice. split; [done | apply patch_lines_kept].
Qed.

(** X4.  Feature names are matched through [upper()] only: two feature lists
    that agree after [upper()], element by element, patch every file to the
    same lines. *)
Theorem patcher_ignores_case :
  ∀ (upper : string → string) (fs1 fs2 lines : list string),
    upper <$> fs1 = upper <$> fs2 →
    (ConfigPatcher.patch_lines upper fs1 lines).1
    = (ConfigPatcher.patch_lines upper fs2 lines).1.
Proof.
  intros upper fs1 fs2 lines H.
  induction lines as [|l ls IH]; [done|].
  rewrite !patch_lines_cons.
  pose proof (scan_same_upper upper fs1 fs2 l H) as Hs.
  destruct (ConfigPatcher.scan_features upper l fs1),
           (ConfigPatcher.scan_features upper l fs2); try done;
    by f_equal.
Qed.

Lemma patcher_ignores_case_witness :
  (ConfigPatcher.patch_lines Str.ascii_upper ["foo"; "Bar"]
     ["CONFIG_FOO=y" +:+ Str.nl; "CONFIG_BAR=m" +:+ Str.nl]).1
  = (ConfigPatcher.patch_lines Str.ascii_upper ["FOO"; "bar"]
     ["CONFIG_FOO=y" +:+ Str.nl; "CONFIG_BAR=m" +:+ Str.nl]).1.
Proof.
  apply (patcher_ignores_case Str.ascii_upper ["foo"; "Bar"] ["FOO"; "bar"]).
  reflexivity.
Defined.

(** ** Further properties of [run_command] and of the image packager *)

(** X5.  [run_command] with [check_root=True] in a process that is not root
    prints the error and ends in [SystemExit] with status 1 without starting
    the command: the host is as it was. *)
Theorem run_command_requires_root :
  ∀ (sys : Host.os) (commands : list string) (cwd : option string)
    (desc : string) (s : state Host.host),
    Host.euid (world s) ≠ 0 →
    ∃ out', Host.run_command sys commands cwd desc true s
            = (SystemExit 1, St (world s) out').
Proof.
  intros sys commands cwd desc s Huid.
  destruct (run_command_cases sys commands cwd desc true s) as [pr ->].
  apply Z.eqb_neq in Huid. rewrite Huid. simpl. by eexists.
Qed.

Lemma run_command_requires_root_witness :
  ∃ out', Host.run_command (Host.linux (λ _, None)) ["mount"; "a.img"; "/mnt"]
            None "Image mounten" true
            (St (Host.Host 1000 (Host.Disk ∅ ∅) []) [])
          = (SystemExit 1, St (Host.Host 1000 (Host.Disk ∅ ∅) []) out').
Proof.
  apply (run_command_requires_root (Host.linux (λ _, None))
           ["mount"; "a.img"; "/mnt"] None "Image mounten"
           (St (Host.Host 1000 (Host.Disk ∅ ∅) []) [])).
  simpl. lia.
Defined.

(** X6.  [run_command] returns normally exactly when the privilege check
    passes (no check was asked for, or the process is root) and the process
    exits with status 0 and its captured output is text that decodes: a
    process that exits with status 0 and writes bytes that do not decode
    makes [run_command] raise. *)
Theorem run_command_returns_iff :
  ∀ (sys : Host.os) (commands : list string) (cwd : option string)
    (desc : string) (check_root : bool) (s : state Host.host),
    (∃ s', Host.run_command sys commands cwd desc check_root s
           = (Return (), s')) ↔
    (check_root && negb (Host.euid (world s) =? 0) = false ∧
     ∃ out err,
       (Host.spawn sys commands (Host.disk_of (world s))).1
       = Host.Exited 0 out err).
Proof.
  intros sys commands cwd desc check_root s.
  destruct (run_command_cases sys commands cwd desc check_root s) as [pr ->].
  destruct (check_root && negb (Host.euid (world s) =? 0)).
  { split; [by intros [s' ?] | by intros [? _]]. }
  destruct (Host.spawn sys commands (Host.disk_of (world s))) as [p d].
  simpl. split.
  - intros [s' H]. split; [done|].
    destruct p as [[| |] o e|?| |[]]; try done. by exists o, e.
  - intros [_ (o & e & ->)]. by eexists.
Qed.

(** X8.  Called in a process that is not root, both image functions print
    the error and end in [SystemExit] with status 1 before asking anything
    of the host: no directory is created, no tool is run, and the local
    variable is unbound. *)
Theorem image_functions_require_root :
  ∀ (sys : Host.os) (dir image : string) (size : Z) (h : Host.host)
    (out : list string),
    Host.euid h ≠ 0 →
    (∃ out', ImagePackager.create_rootfs_ext4_image sys dir image size
               (St (ImagePackager.enter h) out)
             = (SystemExit 1, St (ImagePackager.enter h) out')) ∧
    (∃ out', ImagePackager.create_bootfs_vfat_image sys image dir size
               (St (ImagePackager.enter h) out)
             = (SystemExit 1, St (ImagePackager.enter h) out')).
Proof.
  intros sys dir image size h out Huid. apply Z.eqb_neq in Huid.
  unfold ImagePackager.create_rootfs_ext4_image,
    ImagePackager.create_bootfs_vfat_image, ImagePackager.lift, Host.geteuid.
  unfold mbind, mret, py_bind, py_ret, Py.bind, Py.get, Py.ret, Py.print,
    Py.sys_exit.
  simpl. rewrite Huid. simpl. split; by eexists.
Qed.

Lemma image_functions_require_root_witness :
  let h := Host.Host 1000 (Host.Disk {["build/rootfs"]} ∅) [] in
  (∃ out', ImagePackager.create_rootfs_ext4_image (Host.linux (λ _, None))
             "build/rootfs" "rootfs.ext4" 512 (St (ImagePackager.enter h) [])
           = (SystemExit 1, St (ImagePackager.enter h) out')) ∧
  (∃ out', ImagePackager.create_bootfs_vfat_image (Host.linux (λ _, None))
             "rootfs.ext4" "build/rootfs" 512 (St (ImagePackager.enter h) [])
           = (SystemExit 1, St (ImagePackager.enter h) out')).
Proof.
  intros h.
  apply (image_functions_require_root (Host.linux (λ _, None))
           "build/rootfs" "rootfs.ext4" 512 h []).
  simpl. lia.
Defined.

(** X10.  In the [finally] block of the image functions, when the process is
    root, the mount point is mounted and the [umount] command fails
    (missing executable, or non-zero status with captured output that
    decodes as text), [run_command] exits: the block
    ends in [SystemExit] with status 1 right after the unmount attempt, the
    handler that would print the warning is not entered, and the removal of
    the mount point is not attempted. *)
Theorem cleanup_unmount_failure_skips_removal :
  ∀ (sys : Host.os) (tmp : string) (h : Host.host) (out : list string)
    (p : Host.proc) (d : Host.disk),
    Host.euid h = 0 →
    tmp ∈ Host.mounts (Host.disk_of h) →
    Host.spawn sys ["umount"; tmp] (Host.disk_of h) = (p, d) →
    Host.command_failed p →
    ∃ out',
      ImagePackager.cleanup sys (St (ImagePackager.Frame h (Some tmp)) out)
      = (SystemExit 1,
         St (ImagePackager.Frame
               (Host.Host 0 d
                  (Host.trace h ++ [Host.IsMount tmp true;
                                    Host.Spawn ["umount"; tmp]]))
               (Some tmp)) out').
Proof.
  intros sys tmp [uid disk tr] out p d Huid Hm Hspawn Hfail.
  simpl in *. subst uid.
  unfold ImagePackager.cleanup, ImagePackager.local_and, ImagePackager.local,
    ImagePackager.lift, Host.is_mount, Host.run_command, Host.geteuid,
    Host.subprocess_run.
  unfold mbind, mret, py_bind, py_ret, Py.bind, Py.get, Py.ret,
    Py.try_except, Py.print, Py.sys_exit, Py.modify, Py.when, Py.raise.
  simpl. rewrite bool_decide_eq_true_2 by done. simpl.
  rewrite Hspawn. simpl. unfold Host.record, Host.set_disk. simpl.
  rewrite <- !(assoc_L (++)). simpl.
  destruct p as [rc o e|rc| |e]; simpl in Hfail; [|done| |done].
  - destruct rc as [|rc|rc]; [done| |]; simpl;
      destruct (String.eqb o ""), (String.eqb e ""); simpl; by eexists.
  - by eexists.
Qed.

Lemma cleanup_unmount_failure_skips_removal_witness :
  let sys := Host.linux (Host.only "umount" (Host.Exited 32 "" "target is busy")) in
  let tmp := "/tmp/rootfs_mount_0" in
  let h := Host.Host 0 (Host.Disk {[tmp]} {[tmp]}) [] in
  ∃ out',
    ImagePackager.cleanup sys (St (ImagePackager.Frame h (Some tmp)) [])
    = (SystemExit 1,
       St (ImagePackager.Frame
             (Host.Host 0 (Host.Disk {[tmp]} {[tmp]})
                (Host.trace h ++ [Host.IsMount tmp true;
                                  Host.Spawn ["umount"; tmp]]))
             (Some tmp)) out').
Proof.
  intros sys tmp h.
  apply (cleanup_unmount_failure_skips_removal sys tmp h []
           (Host.Exited 32 "" "target is busy")
           (Host.Disk {[tmp]} {[tmp]})).
  - reflexivity.
  - apply (bool_decide_unpack _). vm_compute. reflexivity.
  - reflexivity.
  - simpl. lia.
Defined.

(** X11.  In the [finally] block of the image functions, when the mount
    point is not mounted, exists, and [shutil.rmtree] raises, the block
    prints the warning with the error and returns normally: the failed
    removal does not change how the function ends. *)
Theorem cleanup_removal_failure_is_a_warning :
  ∀ (sys : Host.os) (tmp : string) (h : Host.host) (out : list string)
    (e : exn) (d : Host.disk),
    tmp ∉ Host.mounts (Host.disk_of h) →
    tmp ∈ Host.dirs (Host.disk_of h) →
    Host.rmtree_ sys tmp (Host.disk_of h) = (Some e, d) →
    ∃ out',
      ImagePackager.cleanup sys (St (ImagePackager.Frame h (Some tmp)) out)
      = (Return (),
         St (ImagePackager.Frame
               (Host.Host (Host.euid h) d
                  (Host.trace h ++ [Host.IsMount tmp false; Host.Rmtree tmp]))
               (Some tmp)) out') ∧
      ("WARNUNG: Konnte temporäres Verzeichnis '" +:+ tmp +:+
       "' nicht entfernen: " +:+ ImagePackager.describe e) ∈ out'.
Proof.
  intros sys tmp [uid disk tr] out e d Hm Hd Hrm. simpl in *.
  unfold ImagePackager.cleanup, ImagePackager.local_and, ImagePackager.local,
    ImagePackager.lift, Host.is_mount, Host.exists_, Host.rmtree.
  unfold mbind, mret, py_bind, py_ret, Py.bind, Py.get, Py.ret,
    Py.try_except, Py.print, Py.sys_exit, Py.modify, Py.when, Py.raise.
  simpl. rewrite bool_decide_eq_false_2 by done. simpl.
  rewrite bool_decide_eq_true_2 by done. simpl.
  rewrite Hrm. simpl. unfold Host.record, Host.set_disk. simpl.
  rewrite <- !(assoc_L (++)). simpl.
  eexists. split; [reflexivity|].
  apply elem_of_app. right. rewrite !elem_of_cons. tauto.
Qed.

Lemma cleanup_removal_failure_is_a_warning_witness :
  let sys := Host.OS (Host.spawn (Host.linux (λ _, None)))
               (Host.mkdtemp_ (Host.linux (λ _, None)))
               (λ _ d, (Some PermissionError, d))
               (Host.write_text_ (Host.linux (λ _, None))) in
  let tmp := "/tmp/rootfs_mount_0" in
  let h := Host.Host 0 (Host.Disk {[tmp]} ∅) [] in
  ∃ out',
    ImagePackager.cleanup sys (St (ImagePackager.Frame h (Some tmp)) [])
    = (Return (),
       St (ImagePackager.Frame
             (Host.Host (Host.euid h) (Host.Disk {[tmp]} ∅)
                (Host.trace h ++ [Host.IsMount tmp false; Host.Rmtree tmp]))
             (Some tmp)) out') ∧
    ("WARNUNG: Konnte temporäres Verzeichnis '" +:+ tmp +:+
     "' nicht entfernen: " +:+ ImagePackager.describe PermissionError) ∈ out'.
Proof.
  intros sys tmp h.
  apply (cleanup_removal_failure_is_a_warning sys tmp h [] PermissionError
           (Host.Disk {[tmp]} ∅)).
  - apply (bool_decide_unpack _). vm_compute. reflexivity.
  - apply (bool_decide_unpack _). vm_compute. reflexivity.
  - reflexivity.
Defined.

Section TraceFacts.
Import Host ImagePackager.
Variable sys : os.
Implicit Types (t : list event) (v : option string).

Lemma triple_ext {W A} (P : W → Prop) (m m' : py W A) Q E :
  (∀ s, m s = m' s) → Py.triple P m' Q E → Py.triple P m Q E.
Proof. intros Heq H s Hs. rewrite Heq. by apply H. Qed.

Lemma triple_exits {W A} (P : W → Prop) (c : Z) (Q : A → W → Prop) :
  Py.triple P (Py.sys_exit c) Q (λ _, True).
Proof. by intros s Hs. Qed.

Lemma triple_pure {W A} (φ : Prop) (P : W → Prop) (m : py W A) Q E :
  (φ → Py.triple P m Q E) → Py.triple (λ w, φ ∧ P w) m Q E.
Proof. intros H s [Hφ Hs]. by apply H. Qed.

Lemma triple_print_post {W} (P Q E : W → Prop) (msg : string) :
  (∀ w, P w → Q w) → Py.triple P (Py.print msg) (λ _, Q) E.
Proof. intros H s Hs. by apply H. Qed.

Lemma ran_run_command t v (commands : list string) (cwd : option string)
    (desc : string) (check_root : bool) :
  Py.triple (ran t v) (lift (run_command sys commands cwd desc check_root))
    (λ _, ran (t ++ [Spawn commands]) v) (ran (t ++ [Spawn commands]) v).
Proof.
  intros [[h l] out] (Hu & Ht & Hl). simpl in *. unfold lift; simpl.
  destruct (run_command_cases sys commands cwd desc check_root (St h out))
    as [pr ->]; simpl.
  rewrite Hu. simpl. rewrite andb_false_r.
  destruct (spawn sys commands (disk_of h)) as [p d]; simpl.
  assert (ran (t ++ [Spawn commands]) v
            (Frame (record (Spawn commands) (set_disk d h)) l)).
  { repeat split; simpl; [done | by rewrite Ht | done]. }
  by destruct (run_command_end p).
Qed.

Lemma ran_run_command' t v (commands : list string) (cwd : option string)
    (desc : string) (check_root : bool) :
  Py.triple (ran t v) (lift (run_command sys commands cwd desc check_root))
    (λ _, ran (t ++ [Spawn commands]) v) (λ _, True).
Proof. eapply triple_conseq; [apply ran_run_command|done..]. Qed.

Lemma ran_rmtree t v (path : string) :
  Py.triple (ran t v) (lift (rmtree sys path))
    (λ _, ran (t ++ [Rmtree path]) v) (ran (t ++ [Rmtree path]) v).
Proof.
  intros [[h l] out] (Hu & Ht & Hl). simpl in *.
  unfold lift, rmtree; simpl.
  unfold mbind, mret, py_bind, py_ret, Py.bind, Py.get, Py.ret,
    Py.modify, Py.raise; simpl.
  destruct (rmtree_ sys path (disk_of h)) as [r d]; simpl.
  assert (ran (t ++ [Rmtree path]) v
            (Frame (record (Rmtree path) (set_disk d h)) l)).
  { repeat split; simpl; [done | by rewrite Ht | done]. }
  by destruct r.
Qed.

Lemma ran_write_text t v (path content : string) :
  Py.triple (ran t v) (lift (write_text sys path content))
    (λ _, ran (t ++ [WriteText path]) v) (λ _, True).
Proof.
  intros [[h l] out] (Hu & Ht & Hl). simpl in *.
  unfold lift, write_text; simpl.
  unfold mbind, mret, py_bind, py_ret, Py.bind, Py.get, Py.ret,
    Py.modify, Py.raise; simpl.
  destruct (write_text_ sys path content (disk_of h)) as [r d]; simpl.
  destruct r; [done|].
  repeat split; simpl; [done | by rewrite Ht | done].
Qed.

Lemma ran_mkdtemp t v (prefix : string) :
  Py.triple (ran t v) (lift (mkdtemp sys prefix))
    (λ tmp, ran (t ++ [Mkdtemp tmp]) v) (λ _, True).
Proof.
  intros [[h l] out] (Hu & Ht & Hl). simpl in *.
  unfold lift, mkdtemp; simpl.
  unfold mbind, mret, py_bind, py_ret, Py.bind, Py.get, Py.ret,
    Py.modify, Py.raise; simpl.
  destruct (mkdtemp_ sys prefix (disk_of h)) as [[e|tmp] d]; simpl; [done|].
  repeat split; simpl; [done | by rewrite Ht | done].
Qed.

Lemma ran_assign t v v' :
  Py.triple (ran t v) (assign v') (λ _, ran t v') (λ _, True).
Proof. by intros [[h l] out] (Hu & Ht & Hl). Qed.

Lemma ran_query {A} t v (q : py host A) (f : host → A) :
  (∀ s, q s = (Return (f (world s)), s)) →
  Py.triple (ran t v) (lift q) (λ _, ran t v) (λ _, True).
Proof.
  intros Hq [[h l] out] H. unfold lift. rewrite Hq. by simpl.
Qed.

Lemma ran_local t v E :
  Py.triple (ran t v) local (λ r f, r = v ∧ ran t v f) E.
Proof. by intros [[h l] out] (Hu & Ht & Hl). Qed.

Lemma ran_allocate t v (image_path : string) (image_size_mb : Z) :
  Py.triple (ran t v) (allocate sys image_path image_size_mb)
    (λ _, ran (t ++ [Spawn ["fallocate"; "-l"; pretty image_size_mb +:+ "M";
                            image_path]]) v)
    (λ _, True).
Proof.
  eapply triple_ext; [apply allocate_handler_dead|].
  eapply triple_bind; [apply triple_print | intros ?].
  eapply triple_bind; [apply ran_run_command' | intros ?].
  apply triple_print.
Qed.

Lemma ran_cleanup t (tmp : string) :
  Py.triple (ran t (Some tmp)) (cleanup sys)
    (λ _ f, ∃ mounted present : bool,
       ran (t ++ cleanup_events tmp mounted present) (Some tmp) f)
    (λ _, True).
Proof.
  unfold cleanup.
  eapply triple_bind with
    (R := λ (b : bool), ran (t ++ [IsMount tmp b]) (Some tmp)).
  { intros [[h l] out] (Hu & Ht & Hl). simpl in *. subst l.
    repeat split; simpl; [done | by rewrite Ht]. }
  intros mounted.
  eapply triple_bind with
    (R := λ _, ran (t ++ IsMount tmp mounted ::
                      (if mounted then [Spawn ["umount"; tmp]] else []))
                   (Some tmp)).
  { destruct mounted; simpl; [|by intros s Hs].
    eapply triple_bind; [apply ran_local|].
    intros v. apply triple_pure. intros ->. simpl.
    eapply triple_bind; [apply triple_print | intros ?].
    eapply triple_try_except with
      (E1 := ran ((t ++ [IsMount tmp true]) ++ [Spawn ["umount"; tmp]])
                 (Some tmp)); [| |done].
    - eapply triple_bind; [apply ran_run_command | intros ?].
      apply triple_print_post.
      intros f. by rewrite <- (assoc_L (++)).
    - intros e h [= <-].
      eapply triple_bind; [apply triple_print | intros ?].
      apply triple_print_post.
      intros f. by rewrite <- (assoc_L (++)). }
  intros _.
  eapply triple_bind with
    (R := λ (b : bool), ran (t ++ IsMount tmp mounted ::
                      (if mounted then [Spawn ["umount"; tmp]] else []))
                   (Some tmp)).
  { intros [[h l] out] (Hu & Ht & Hl). simpl in *. subst l. by simpl. }
  intros present. unfold cleanup_events.
  destruct present; simpl.
  2:{ intros s Hs. simpl. exists mounted, false.
      by rewrite (right_id_L [] (++)). }
  eapply triple_bind; [apply ran_local|].
  intros v. apply triple_pure. intros ->. simpl.
  eapply triple_bind; [apply triple_print | intros ?].
  assert (Hfin : ∀ f,
    ran ((t ++ IsMount tmp mounted ::
            (if mounted then [Spawn ["umount"; tmp]] else []))
         ++ [Rmtree tmp]) (Some tmp) f →
    ∃ mounted0 present : bool,
      ran (t ++ IsMount tmp mounted0 ::
             (if mounted0 then [Spawn ["umount"; tmp]] else []) ++
             (if present then [Rmtree tmp] else [])) (Some tmp) f).
  { intros f Hf. exists mounted, true.
    by rewrite <- (assoc_L (++)) in Hf. }
  eapply triple_try_except with (E1 := ran _ (Some tmp)); [| |done].
  - eapply triple_bind; [apply ran_rmtree | intros ?].
    apply triple_print_post, Hfin.
  - intros e h [= <-].
    eapply triple_bind; [apply triple_print | intros ?].
    apply triple_print_post, Hfin.
Qed.
End TraceFacts.

Section PipelineFacts.
Import Host ImagePackager.
Variable sys : os.

Lemma triple_exists_pre {W A X} (P : X → W → Prop) (m : py W A) Q E :
  (∀ x, Py.triple (P x) m Q E) → Py.triple (λ w, ∃ x, P x w) m Q E.
Proof. intros H s [x Hs]. by apply (H x). Qed.

Lemma triple_trivial {W A} (P : W → Prop) (m : py W A) :
  Py.triple P m (λ _ _, True) (λ _, True).
Proof. intros s Hs. by destruct (m s) as [[| |] ?]. Qed.

(** The checks at the head of a function read the host and change
    nothing. *)
Lemma triple_guard {A V} (h : host) (q : py host V) (v : V)
    (test : V → bool) (msg : string) (k : V → py frame A) Q :
  (∀ out, q (St h out) = (Return v, St h out)) →
  (test v = false → Py.triple (λ f, f = enter h) (k v) Q (λ _, True)) →
  Py.triple (λ f, f = enter h)
    (r ← lift q;
     (if test r then Py.print msg ;; Py.sys_exit 1 else mret ()) ;; k r)
    Q (λ _, True).
Proof.
  intros Hq Hk [f out] Hf. simpl in Hf. subst f.
  unfold mbind at 1 2, py_bind, Py.bind, lift. simpl.
  rewrite Hq. simpl. destruct (test v); simpl; [done|].
  by apply (Hk eq_refl (St (enter h) out)).
Qed.

Ltac ran_step :=
  first
    [ eapply triple_bind; [apply triple_print | intros ?]
    | eapply triple_bind; [apply ran_run_command' | intros ?]
    | eapply triple_bind; [apply ran_allocate | intros ?]
    | eapply triple_bind; [apply ran_write_text | intros ?]
    | eapply triple_bind; [apply ran_assign | intros ?] ].

Lemma rootfs_trace (rootfs_base_dir image_output_path : string)
    (image_size_mb : Z) (h : host) :
  Py.triple (λ f, f = enter h)
    (create_rootfs_ext4_image sys rootfs_base_dir image_output_path
       image_size_mb)
    (λ _ f, euid h = 0 ∧ rootfs_base_dir ∈ dirs (disk_of h) ∧
       ∃ tmp (mounted present : bool),
         trace (machine f) =
           trace h ++
           rootfs_pipeline rootfs_base_dir image_output_path image_size_mb
             tmp ++
           cleanup_events tmp mounted present)
    (λ _, True).
Proof.
  unfold create_rootfs_ext4_image.
  eapply triple_bind; [apply triple_print | intros ?].
  apply (triple_guard h geteuid (euid h) (λ uid, negb (uid =? 0)));
    [done|]. intros Hu%negb_false_iff%Z.eqb_eq.
  apply (triple_guard h (is_dir rootfs_base_dir)
           (bool_decide (rootfs_base_dir ∈ dirs (disk_of h))) negb);
    [done|]. intros Hd%negb_false_iff%bool_decide_eq_true_1.
  eapply triple_bind with (R := λ _, ran (trace h) None).
  { intros [f out] Hf. simpl in Hf. subst f. by repeat split. }
  intros ?.
  eapply triple_bind with
    (R := λ _ f, ∃ tmp (mounted present : bool),
       ran (trace h ++
            rootfs_pipeline rootfs_base_dir image_output_path image_size_mb
              tmp ++ cleanup_events tmp mounted present) (Some tmp) f).
  2:{ intros ?. apply triple_print_post.
      intros f (tmp & m & p & _ & Ht & _). eauto 10. }
  eapply triple_try_finally with
    (Qb := λ _ f, ∃ tmp,
       ran (trace h ++
            rootfs_pipeline rootfs_base_dir image_output_path image_size_mb
              tmp) (Some tmp) f)
    (Eb := λ _, True).
  - eapply triple_try_except with (E1 := λ _, True); [| |done].
    + eapply triple_bind; [apply ran_mkdtemp | intros tmp].
      repeat ran_step.
      apply triple_print_post. intros f Hf. exists tmp.
      by rewrite <- !(assoc_L (++)) in Hf.
    + intros e k [= <-]. eapply triple_bind; [apply triple_print|].
      intros ?. apply triple_exits.
  - intros ?. apply triple_exists_pre. intros tmp.
    eapply triple_conseq; [apply ran_cleanup|done| |done].
    intros ? f (m & p & Hf). exists tmp, m, p.
    by rewrite <- !(assoc_L (++)) in Hf.
  - apply triple_trivial.
Qed.

Lemma ran_check t v (b : bool) (msg : string) :
  Py.triple (ran t v)
    (if b then Py.print msg ;; Py.sys_exit 1 else mret ())
    (λ _, ran t v) (λ _, True).
Proof. destruct b; by intros s Hs. Qed.

Lemma bootfs_trace (output_image_path firmware_clone_dir : string)
    (image_size_mb : Z) (h : host) :
  Py.triple (λ f, f = enter h)
    (create_bootfs_vfat_image sys output_image_path firmware_clone_dir
       image_size_mb)
    (λ _ f, euid h = 0 ∧
       ∃ tmp (mounted present : bool),
         trace (machine f) =
           trace h ++
           bootfs_pipeline output_image_path firmware_clone_dir
             image_size_mb
             (bool_decide (firmware_clone_dir ∈ dirs (disk_of h))) tmp ++
           cleanup_events tmp mounted present)
    (λ _, True).
Proof.
  unfold create_bootfs_vfat_image.
  eapply triple_bind; [apply triple_print | intros ?].
  apply (triple_guard h geteuid (euid h) (λ uid, negb (uid =? 0)));
    [done|]. intros Hu%negb_false_iff%Z.eqb_eq.
  eapply triple_bind with (R := λ _ f, f = enter h).
  { intros [f out] Hf. simpl in Hf. by subst f. }
  intros ?.
  set (cloned := bool_decide (firmware_clone_dir ∈ dirs (disk_of h))).
  eapply triple_bind with
    (R := λ _ f, ∃ tmp (mounted present : bool),
       ran (trace h ++
            bootfs_pipeline output_image_path firmware_clone_dir
              image_size_mb cloned tmp ++
            cleanup_events tmp mounted present) (Some tmp) f).
  2:{ intros ?. apply triple_print_post.
      intros f (tmp & m & p & _ & Ht & _). eauto 10. }
  eapply triple_try_finally with
    (Qb := λ _ f, ∃ tmp,
       ran (trace h ++
            bootfs_pipeline output_image_path firmware_clone_dir
              image_size_mb cloned tmp) (Some tmp) f)
    (Eb := λ _, True).
  - eapply triple_try_except with (E1 := λ _, True); [| |done].
    + eapply triple_bind with
        (R := λ c f, c = cloned ∧ ran (trace h) None f).
      { intros [f out] Hf. simpl in Hf. subst f. by repeat split. }
      intros c. apply triple_pure. intros ->.
      eapply triple_bind with
        (R := λ _, ran (trace h ++
                        [Spawn (firmware_command firmware_clone_dir cloned)])
                       None).
      { unfold firmware_command. destruct cloned; repeat ran_step;
          apply ran_run_command'. }
      intros ?. cbv zeta.
      eapply triple_bind.
      { by apply (ran_query _ _ _
                    (λ h0, bool_decide (joinpath firmware_clone_dir "boot"
                                          ∈ dirs (disk_of h0)))). }
      intros isd.
      eapply triple_bind; [apply ran_check | intros ?].
      eapply triple_bind; [apply triple_print | intros ?].
      eapply triple_bind; [apply ran_mkdtemp | intros tmp].
      repeat ran_step.
      apply triple_print_post. intros f Hf. exists tmp.
      by rewrite <- !(assoc_L (++)) in Hf.
    + intros e k [= <-]. eapply triple_bind; [apply triple_print|].
      intros ?. apply triple_exits.
  - intros ?. apply triple_exists_pre. intros tmp.
    eapply triple_conseq; [apply ran_cleanup|done| |done].
    intros ? f (m & p & Hf). exists tmp, m, p.
    by rewrite <- !(assoc_L (++)) in Hf.
  - apply triple_trivial.
Qed.
End PipelineFacts.

(** X12.  When [create_rootfs_ext4_image] returns normally, the process was
    root, the rootfs directory existed, and what it asked of the host is
    exactly, in order: the creation of the mount point, [fallocate],
    [mkfs.ext4], [mount], [rsync], and then the cleanup (mount check,
    [umount] if mounted, removal if present).  In particular each tool ran
    once and [dd] did not run. *)
Theorem rootfs_image_success_runs_pipeline :
  ∀ (sys : Host.os) (dir image : string) (size : Z) (h : Host.host)
    (out : list string) (s' : state ImagePackager.frame),
    ImagePackager.create_rootfs_ext4_image sys dir image size
      (St (ImagePackager.enter h) out) = (Return (), s') →
    Host.euid h = 0 ∧ dir ∈ Host.dirs (Host.disk_of h) ∧
    ∃ tmp (mounted present : bool),
      Host.trace (ImagePackager.machine (world s')) =
        Host.trace h ++ ImagePackager.rootfs_pipeline dir image size tmp ++
        ImagePackager.cleanup_events tmp mounted present.
Proof.
  intros sys dir image size h out s' Hrun.
  pose proof (rootfs_trace sys dir image size h
                (St (ImagePackager.enter h) out) eq_refl) as H.
  by rewrite Hrun in H.
Qed.

Lemma rootfs_image_success_runs_pipeline_witness :
  let sys := Host.linux (λ _, None) in
  let h := Host.build_host ["build/rootfs"] in
  let run := ImagePackager.create_rootfs_ext4_image sys "build/rootfs"
               "rootfs.ext4" 512 (St (ImagePackager.enter h) []) in
  Host.euid h = 0 ∧ "build/rootfs" ∈ Host.dirs (Host.disk_of h) ∧
  ∃ tmp (mounted present : bool),
    Host.trace (ImagePackager.machine (world run.2)) =
      Host.trace h ++
      ImagePackager.rootfs_pipeline "build/rootfs" "rootfs.ext4" 512 tmp ++
      ImagePackager.cleanup_events tmp mounted present.
Proof.
  intros sys h run.
  apply (rootfs_image_success_runs_pipeline sys "build/rootfs" "rootfs.ext4"
           512 h [] run.2).
  vm_compute. reflexivity.
Defined.

(** X13.  When [create_bootfs_vfat_image] returns normally, the process was
    root and what it asked of the host is exactly, in order: [git pull] if
    the firmware directory existed at the call and [git clone] otherwise,
    the creation of the mount point, [fallocate], [mkfs.vfat], [mount],
    [rsync] of the [boot] folder, the writes of [cmdline.txt] and
    [config.txt], and then the cleanup. *)
Theorem bootfs_image_success_runs_pipeline :
  ∀ (sys : Host.os) (image dir : string) (size : Z) (h : Host.host)
    (out : list string) (s' : state ImagePackager.frame),
    ImagePackager.create_bootfs_vfat_image sys image dir size
      (St (ImagePackager.enter h) out) = (Return (), s') →
    Host.euid h = 0 ∧
    ∃ tmp (mounted present : bool),
      Host.trace (ImagePackager.machine (world s')) =
        Host.trace h ++
        ImagePackager.bootfs_pipeline image dir size
          (bool_decide (dir ∈ Host.dirs (Host.disk_of h))) tmp ++
        ImagePackager.cleanup_events tmp mounted present.
Proof.
  intros sys image dir size h out s' Hrun.
  pose proof (bootfs_trace sys image dir size h
                (St (ImagePackager.enter h) out) eq_refl) as H.
  by rewrite Hrun in H.
Qed.

Lemma bootfs_image_success_runs_pipeline_witness :
  let sys := Host.linux (λ _, None) in
  let h := Host.build_host ["firmware"; "firmware/boot"] in
  let run := ImagePackager.create_bootfs_vfat_image sys "bootfs.vfat"
               "firmware" 256 (St (ImagePackager.enter h) []) in
  Host.euid h = 0 ∧
  ∃ tmp (mounted present : bool),
    Host.trace (ImagePackager.machine (world run.2)) =
      Host.trace h ++
      ImagePackager.bootfs_pipeline "bootfs.vfat" "firmware" 256
        (bool_decide ("firmware" ∈ Host.dirs (Host.disk_of h))) tmp ++
      ImagePackager.cleanup_events tmp mounted present.
Proof.
  intros sys h run.
  apply (bootfs_image_success_runs_pipeline sys "bootfs.vfat" "firmware"
           256 h [] run.2).
  vm_compute. reflexivity.
Defined.

(** ** Further properties of the device table *)

Section DeviceNodesGrowth.
Import DeviceNodes.
Variable sys : devos.

Lemma triple_returns {W A} (P : W → Prop) (m : py W A) (Q : A → W → Prop)
    (s : state W) :
  Py.triple P m Q (λ _, False) → P (world s) →
  ∃ a s', m s = (Return a, s') ∧ Q a (world s').
Proof.
  intros H Hs. specialize (H s Hs).
  destruct (m s) as [[a|e|c] s']; [by eexists _, _ | done..].
Qed.

Lemma create_device_nodes_grown (rootfs_dir : string) (h0 : devhost) :
  Py.triple (grown (umask sys) rootfs_dir h0)
    (create_device_nodes sys rootfs_dir)
    (λ _, grown (umask sys) rootfs_dir h0) (λ _, False).
Proof.
  unfold create_device_nodes.
  eapply triple_bind; [apply triple_print|]. intros ?. cbv zeta.
  eapply triple_bind; [|intros ?; apply triple_print].
  apply triple_for_each_in.
  intros [[[name major] minor] type_char] Hrow [h out] (Hu & Hold & Hnew).
  simpl in Hu, Hold, Hnew.
  unfold Py.try_except, exists_, os_mknod.
  unfold mbind, mret, py_bind, py_ret, Py.bind, Py.get, Py.ret, Py.modify,
    Py.raise, Py.print; simpl.
  destruct (bool_decide _) eqn:Hex; simpl; [done|].
  destruct (mknod_error sys _) as [e|]; [by destruct e|].
  rewrite Hex. simpl.
  apply bool_decide_eq_false_1 in Hex.
  assert (entries h !! joinpath (joinpath rootfs_dir "dev") name = None)
    as Hfree by (by apply eq_None_not_Some).
  split; [done|]. simpl. split.
  - intros p m Hp. rewrite lookup_insert_ne; [by apply Hold|].
    intros <-. apply Hold in Hp. congruence.
  - intros p m. destruct (decide (joinpath (joinpath rootfs_dir "dev") name = p))
      as [<-|Hne].
    + rewrite lookup_insert_eq. intros [= <-]. right.
      by exists name, major, minor, type_char.
    + rewrite lookup_insert_ne by done. apply Hnew.
Qed.
End DeviceNodesGrowth.

(** X14.  On every host [create_device_nodes] returns normally; everything
    that existed before is as it was (an existing path is never replaced),
    and every new entry is a node of the device table at
    [<rootfs>/dev/<name>] whose mode is the mode of its row less the bits of
    the process's umask. *)
Theorem create_device_nodes_best_effort :
  ∀ (sys : DeviceNodes.devos) (rootfs_dir : string)
    (s : state DeviceNodes.devhost),
    ∃ s', DeviceNodes.create_device_nodes sys rootfs_dir s = (Return (), s') ∧
      (∀ p m, DeviceNodes.entries (world s) !! p = Some m →
              DeviceNodes.entries (world s') !! p = Some m) ∧
      (∀ p m, DeviceNodes.entries (world s') !! p = Some m →
              DeviceNodes.entries (world s) !! p = Some m ∨
              ∃ name major minor type_char,
                (name, major, minor, type_char) ∈ DeviceNodes.device_nodes ∧
                p = DeviceNodes.joinpath
                      (DeviceNodes.joinpath rootfs_dir "dev") name ∧
                m = Mode.masked (DeviceNodes.umask sys)
                      (DeviceNodes.node_mode type_char)).
Proof.
  intros sys rootfs_dir s.
  destruct (triple_returns _ _ _ s
              (create_device_nodes_grown sys rootfs_dir (world s)))
    as ([] & s' & Hrun & _ & Hold & Hnew).
  { by repeat split; [|left]. }
  by exists s'.
Qed.

Section DeviceTable.
Import DeviceNodes.
Variable sys : devos.

Lemma app_inj_r (a b c : string) : a +:+ b = a +:+ c → b = c.
Proof.
  induction a as [|x a IH]; [done|]. rewrite !app_cons. intros [= H].
  by apply IH.
Qed.

Lemma joinpath_inj (d a b : string) : joinpath d a = joinpath d b → a = b.
Proof. unfold joinpath. intros H%app_inj_r. by injection H. Qed.

Lemma loop_makes (dev_dir : string) (step : spec → py devhost ())
    (rows : list spec) (h : devhost) (out : list string) :
  (∀ row h out,
     mknod_error sys (node_call dev_dir row).1.1 = None →
     entries h !! (node_call dev_dir row).1.1 = None →
     step row (St h out)
     = (Return (), St (with_node (umask sys) h (node_call dev_dir row)) out)) →
  NoDup ((λ row : spec, row.1.1.1) <$> rows) →
  (∀ row, row ∈ rows →
     mknod_error sys (node_call dev_dir row).1.1 = None ∧
     entries h !! (node_call dev_dir row).1.1 = None) →
  ∃ h',
    Py.for_each rows step (St h out) = (Return (), St h' out) ∧
    made h' = made h ++ (node_call dev_dir <$> rows) ∧
    (∀ row, row ∈ rows →
       entries h' !! (node_call dev_dir row).1.1
       = Some (Mode.masked (umask sys) (node_call dev_dir row).1.2)) ∧
    (∀ p m, entries h !! p = Some m → entries h' !! p = Some m).
Proof.
  intros Hstep. revert h. induction rows as [|row rows IH]; intros h Hnd Hok.
  { exists h. split; [done|]. split; [by rewrite app_nil_r|].
    split; [by intros ? ?%elem_of_nil | done]. }
  apply NoDup_cons in Hnd as [Hnotin Hnd].
  destruct (Hok row) as [Herr Hfree]; [left|].
  specialize (Hstep row h out Herr Hfree).
  destruct row as [[[name major] minor] type_char]. simpl in *.
  destruct (IH (with_node (umask sys) h
                  (joinpath dev_dir name, node_mode type_char,
                   makedev major minor)) Hnd)
    as (h' & Hrun & Hmade & Hrows & Hmono).
  { intros [[[n ma] mi] c] Hin. destruct (Hok (n, ma, mi, c)) as [He Hf]; [by right|]. simpl in *. split; [done|].
    rewrite lookup_insert_ne; [done|]. intros Heq%joinpath_inj. subst n.
    apply Hnotin. apply list_elem_of_fmap. by eexists (_, _, _, _). }
  exists h'. split; [|split; [|split]].
  - unfold Py.bind. by rewrite Hstep.
  - rewrite Hmade. simpl. by rewrite <- (assoc_L (++)).
  - intros r [->|Hin]%elem_of_cons; [|by apply Hrows].
    simpl. apply Hmono. simpl. by rewrite lookup_insert_eq.
  - intros p m Hp. apply Hmono. simpl.
    rewrite lookup_insert_ne; [done|]. intros <-. congruence.
Qed.
End DeviceTable.

(** X15.  On a host that refuses no [os.mknod], when none of the eight paths
    exists, [create_device_nodes] calls [os.mknod] exactly for the nodes of
    the table, in the order of the table, each with the mode and the device
    number [makedev(major, minor)] of its row; afterwards each node exists
    with that mode less the bits of the process's umask. *)
Theorem create_device_nodes_makes_table :
  ∀ (sys : DeviceNodes.devos) (rootfs_dir : string) (h : DeviceNodes.devhost)
    (out : list string),
    let dev_dir := DeviceNodes.joinpath rootfs_dir "dev" in
    (∀ row, row ∈ DeviceNodes.device_nodes →
       DeviceNodes.mknod_error sys (DeviceNodes.node_call dev_dir row).1.1 = None ∧
       DeviceNodes.entries h !! (DeviceNodes.node_call dev_dir row).1.1 = None) →
    ∃ s', DeviceNodes.create_device_nodes sys rootfs_dir (St h out)
          = (Return (), s') ∧
      DeviceNodes.made (world s')
      = DeviceNodes.made h ++ (DeviceNodes.node_call dev_dir <$> DeviceNodes.device_nodes) ∧
      (∀ row, row ∈ DeviceNodes.device_nodes →
         DeviceNodes.entries (world s') !! (DeviceNodes.node_call dev_dir row).1.1
         = Some (Mode.masked (DeviceNodes.umask sys)
                   (DeviceNodes.node_call dev_dir row).1.2)).
Proof.
  intros sys rootfs_dir h out dev_dir Hok.
  unfold DeviceNodes.create_device_nodes. cbv zeta. fold dev_dir.
  unfold mbind at 1 2, py_bind at 1 2, Py.bind at 1 2.
  cbn [Py.print world stdout].
  match goal with
  | |- context [Py.for_each _ ?body] =>
      destruct (loop_makes sys dev_dir body DeviceNodes.device_nodes h
                  (out ++ [Str.nl +:+ "Erstelle statische Geräteknoten in /dev..."]))
        as (h' & Hrun & Hmade & Hrows & _); [| |exact Hok|]
  end.
  { intros [[[name major] minor] type_char] h1 out1 Herr Hfree.
    simpl in Herr, Hfree.
    unfold Py.try_except, DeviceNodes.exists_, DeviceNodes.os_mknod.
    unfold mbind, mret, py_bind, py_ret, Py.bind, Py.get, Py.ret, Py.modify,
      Py.raise. simpl.
    rewrite Hfree, Herr. simpl. rewrite Hfree. reflexivity. }
  { apply (bool_decide_unpack _). vm_compute. reflexivity. }
  exists (St h' ((out ++ [Str.nl +:+ "Erstelle statische Geräteknoten in /dev..."])
                    ++ ["Statische Geräteknoten-Erstellung abgeschlossen (ggf. dynamisch durch mdev/udev ergänzt)."])).
  split; [|split; [exact Hmade | exact Hrows]].
  rewrite Hrun. reflexivity.
Qed.

(** Under the umask [0o022] the character devices of the table end with
    mode [0o20644]. *)
Lemma create_device_nodes_makes_table_witness :
  let h := DeviceNodes.DevHost 0 {[ "build/rootfs/dev" := Mode.o755 ]} [] in
  let dev_dir := DeviceNodes.joinpath "build/rootfs" "dev" in
  (∃ s', DeviceNodes.create_device_nodes DeviceNodes.privileged
           "build/rootfs" (St h [])
         = (Return (), s') ∧
     DeviceNodes.made (world s')
     = DeviceNodes.made h ++ (DeviceNodes.node_call dev_dir <$> DeviceNodes.device_nodes) ∧
     (∀ row, row ∈ DeviceNodes.device_nodes →
        DeviceNodes.entries (world s') !! (DeviceNodes.node_call dev_dir row).1.1
        = Some (Mode.masked (DeviceNodes.umask DeviceNodes.privileged)
                  (DeviceNodes.node_call dev_dir row).1.2))) ∧
  Mode.masked (DeviceNodes.umask DeviceNodes.privileged)
    (DeviceNodes.node_mode "c") = 8612.
Proof.
  intros h dev_dir. split; [|reflexivity].
  apply (create_device_nodes_makes_table DeviceNodes.privileged
           "build/rootfs" h []).
  intros row Hrow. split; [reflexivity|].
  revert row Hrow. apply Forall_forall.
  apply (bool_decide_unpack _). vm_compute. reflexivity.
Defined.

(** ** Further properties of the scaffold builder *)

Section ScaffoldFacts.
Import Path Scaffold.

Lemma grows_refl (ps : list path) (w : fs) : grows ps w w.
Proof. repeat split; auto. Qed.

Lemma grows_trans (ps1 ps2 ps : list path) (w1 w2 w3 : fs) :
  grows ps1 w1 w2 → grows ps2 w2 w3 →
  (∀ q p, p ∈ ps1 ∨ p ∈ ps2 → q `prefix_of` p →
          ∃ p', p' ∈ ps ∧ q `prefix_of` p') →
  grows ps w1 w3.
Proof.
  intros ((Hu1 & Ho1 & Hr1) & Hm1 & Hn1) ((Hu2 & Ho2 & Hr2) & Hm2 & Hn2) Hps.
  split; [repeat split; congruence|].
  split; [auto|]. intros q Hq.
  destruct (Hn2 q Hq) as [Hq2|(p & Hp & Hpre)]; [|right; eauto].
  destruct (Hn1 q Hq2) as [?|(p & Hp & Hpre)]; [by left | right; eauto].
Qed.

Lemma parent_prefix (p : path) : parent p `prefix_of` p.
Proof.
  unfold parent. destruct (decide (p = [])) as [->|Hne]; [done|].
  exists [List.last p ""]. by apply app_removelast_last.
Qed.

Lemma parent_length (p : path) : p ≠ [] → (length (parent p) < length p)%nat.
Proof.
  intros Hne. unfold parent.
  rewrite (app_removelast_last "" Hne) at 2.
  rewrite length_app. simpl. lia.
Qed.

(** *** Where nothing hinders *)

Lemma unhindered_mono (ps qs : list path) (w : fs) :
  (∀ q, q ∈ qs → ∃ p, p ∈ ps ∧ q `prefix_of` p) →
  unhindered ps w → unhindered qs w.
Proof.
  intros Hsub H q r Hq Hr. destruct (Hsub q Hq) as (p & Hp & Hqp).
  apply (H p r Hp). by etrans.
Qed.

Lemma unhindered_one (ps : list path) (p : path) (w : fs) :
  p ∈ ps → unhindered ps w → unhindered [p] w.
Proof.
  intros Hp. apply unhindered_mono.
  intros q ->%list_elem_of_singleton. by exists p.
Qed.

Lemma unhindered_parent (p : path) (w : fs) :
  unhindered [p] w → unhindered [parent p] w.
Proof.
  apply unhindered_mono. intros q ->%list_elem_of_singleton.
  exists p. split; [left | apply parent_prefix].
Qed.

Lemma unhindered_grows (ps qs : list path) (w w' : fs) :
  grows qs w w' → unhindered ps w → unhindered ps w'.
Proof.
  intros ((_ & Ho & Hr) & _) H p q Hp Hq. rewrite Ho, Hr. exact (H p q Hp Hq).
Qed.

Lemma unhindered_here (p : path) (w : fs) :
  unhindered [p] w →
  others w !! p = None ∧ (∀ c, refusal w c p = None) ∧ blocked w p = false.
Proof.
  intros H. destruct (H p p) as [Ho Hr]; [left | done |].
  split; [done|]. split; [done|].
  unfold blocked. apply not_true_is_false. intros Hex.
  apply existsb_exists in Hex as (k & _ & Hk).
  apply bool_decide_eq_true_1 in Hk.
  destruct (H p (take k p)) as [Hnone _]; [left | apply prefix_take |].
  rewrite Hnone in Hk. by destruct Hk.
Qed.

(** [os.mkdir] where nothing hinders it. *)
Lemma os_mkdir_cases (p : path) (w : fs) (out : list string) :
  unhindered [p] w →
  os_mkdir p Mode.o777 (St w out) =
    if bool_decide (is_Some (dirs w !! p))
    then (Raise FileExistsError, St w out)
    else if bool_decide (is_Some (dirs w !! parent p))
    then (Return (),
          St (FS (<[p := Mode.masked (umask w) Mode.o777]> (dirs w))
                 (others w) (umask w) (refusal w)) out)
    else (Raise FileNotFoundError, St w out).
Proof.
  intros (Ho & Hr & Hb)%unhindered_here.
  unfold os_mkdir, mbind, py_bind, Py.bind, Py.get. simpl.
  rewrite Hr, Hb, Ho.
  rewrite (bool_decide_eq_false_2 (is_Some None)) by (by intros [? ?]).
  rewrite orb_false_r.
  by repeat case_bool_decide.
Qed.

(** [os.mkdir] on any host: it raises and changes nothing, or it adds the
    directory. *)
Lemma os_mkdir_outcome (p : path) (mode : Z) (w : fs) (out : list string) :
  (∃ e, os_mkdir p mode (St w out) = (Raise e, St w out)) ∨
  (dirs w !! p = None ∧
   os_mkdir p mode (St w out)
   = (Return (),
      St (FS (<[p := Mode.masked (umask w) mode]> (dirs w))
             (others w) (umask w) (refusal w)) out)).
Proof.
  unfold os_mkdir, mbind, py_bind, Py.bind, Py.get. simpl.
  destruct (refusal w Mkdir p) as [e|]; [left; by exists e|].
  case_bool_decide as Hp; simpl; [left; by eexists|].
  destruct (bool_decide (is_Some (others w !! p))); simpl;
    [left; by eexists|].
  destruct (blocked w p); [left; by eexists|].
  case_bool_decide; [|left; by eexists].
  right. split; [by apply eq_None_not_Some | done].
Qed.

Lemma is_dir_clear (p : path) (w : fs) (out : list string) :
  refusal w Stat p = None →
  is_dir p (St w out)
  = (Return (bool_decide (is_Some (dirs w !! p))), St w out).
Proof.
  intros Hr. unfold is_dir, mbind, py_bind, Py.bind, Py.get. simpl.
  by rewrite Hr.
Qed.

Lemma is_dir_outcome (p : path) (w : fs) (out : list string) :
  (∃ e, is_dir p (St w out) = (Raise e, St w out)) ∨
  is_dir p (St w out)
  = (Return (bool_decide (is_Some (dirs w !! p))), St w out).
Proof.
  unfold is_dir, mbind, py_bind, Py.bind, Py.get. simpl.
  destruct (refusal w Stat p) as [e|]; [left; by exists e | by right].
Qed.

Lemma grows_insert (p : path) (m : Z) (w : fs) :
  dirs w !! p = None →
  grows [p] w (FS (<[p := m]> (dirs w)) (others w) (umask w) (refusal w)).
Proof.
  intros Hp. split; [done|]. simpl. split.
  - intros q m' Hq. rewrite lookup_insert_ne; [done|]. congruence.
  - intros q. destruct (decide (p = q)) as [<-|Hne].
    + right. exists p. split; [left | done].
    + rewrite lookup_insert_ne by done. by left.
Qed.

(** What the handler of [mkdir] for an [OSError] other than
    [FileNotFoundError] does: it looks at the directory and changes
    nothing. *)
Lemma exist_ok_outcome (p : path) (exist_ok : bool) (e : exn) (w : fs)
    (out : list string) :
  ∃ r, (here ← is_dir p;
        if negb exist_ok || negb here then Py.raise e else mret ())
         (St w out) = (r, St w out) ∧
       (∀ c, r ≠ SystemExit c) ∧
       (r = Return () → is_Some (dirs w !! p)).
Proof.
  unfold mbind, py_bind, Py.bind.
  destruct (is_dir_outcome p w out) as [[e' ->]| ->].
  { eexists. split; [done|]. by split. }
  destruct exist_ok; simpl; [|eexists; split; [done|]; by split].
  case_bool_decide; simpl; (eexists; split; [done|]; by split).
Qed.

(** Whatever its flags, whatever the host refuses and however it
    finishes, [mkdir] only adds the directory and ancestors of it, prints
    nothing and does not exit. *)
Lemma mkdir_rec_grows (depth : nat) (p : path) (parents exist_ok : bool)
    (w : fs) (out : list string) :
  ∃ r w', mkdir_rec depth p parents exist_ok (St w out) = (r, St w' out) ∧
    grows [p] w w' ∧ ∀ c, r ≠ SystemExit c.
Proof.
  revert p parents exist_ok w.
  induction depth as [|d IH]; intros p pa eo w.
  { exists (Raise OtherException), w. split; [done|].
    split; [apply grows_refl | done]. }
  cbn [mkdir_rec]. unfold Py.try_except.
  destruct (os_mkdir_outcome p Mode.o777 w out) as [[e ->]|[Hp ->]].
  2:{ eexists _, _. split; [done|]. split; [by apply grows_insert | done]. }
  assert (∀ e', is_OSError e' = true →
            ∃ r w', (here ← is_dir p;
                     if negb eo || negb here then Py.raise e' else mret ())
                      (St w out) = (r, St w' out) ∧
                    grows [p] w w' ∧ ∀ c, r ≠ SystemExit c) as Hother.
  { intros e' _. destruct (exist_ok_outcome p eo e' w out) as (r & -> & Hx & _).
    exists r, w. split; [done|]. split; [apply grows_refl | done]. }
  destruct e; simpl;
    try (by apply Hother);
    try (exists (Raise OtherException), w; split; [done|];
         split; [apply grows_refl | done]).
  - destruct (negb pa || bool_decide (parent p = p)).
    { exists (Raise FileNotFoundError), w. split; [done|].
      split; [apply grows_refl | done]. }
    unfold mbind, py_bind, Py.bind.
    destruct (IH (parent p) true true w) as (r1 & w1 & -> & Hg1 & Hx1).
    destruct r1 as [[]|e|c].
    + destruct (IH p false eo w1) as (r2 & w2 & -> & Hg2 & Hx2).
      exists r2, w2. split; [done|]. split; [|done].
      apply (grows_trans [parent p] [p] [p] w w1 w2 Hg1 Hg2).
      intros q p' [Hp'|Hp'] Hq; apply list_elem_of_singleton in Hp' as ->;
        exists p; (split; [left|]); [|done].
      etrans; [done | apply parent_prefix].
    + exists (Raise e), w1. split; [done|]. split; [|done].
      apply (grows_trans [parent p] [] [p] w w1 w1 Hg1 (grows_refl _ _)).
      intros q p' [Hp'|Hp'] Hq; [|by apply elem_of_nil in Hp'].
      apply list_elem_of_singleton in Hp' as ->.
      exists p. split; [left|]. etrans; [done | apply parent_prefix].
    + by destruct (Hx1 c).
  - eexists _, w. split; [done|]. split; [apply grows_refl | done].
Qed.

(** With [exist_ok], where nothing hinders, a directory whose parent is
    there is made, or taken as it is. *)
Lemma mkdir_rec_child (depth : nat) (p : path) (parents : bool)
    (w : fs) (out : list string) :
  (0 < depth)%nat →
  unhindered [p] w →
  is_Some (dirs w !! parent p) ∨ is_Some (dirs w !! p) →
  ∃ w', mkdir_rec depth p parents true (St w out) = (Return (), St w' out) ∧
    is_Some (dirs w' !! p) ∧ grows [p] w w'.
Proof.
  intros Hd Hfree Hpar. destruct depth as [|d]; [lia|].
  cbn [mkdir_rec]. unfold Py.try_except. rewrite os_mkdir_cases by done.
  destruct (unhindered_here p w Hfree) as (_ & Hr & _).
  case_bool_decide as Hp.
  { simpl. unfold mbind, py_bind, Py.bind.
    rewrite is_dir_clear by done.
    rewrite (bool_decide_eq_true_2 _ Hp). simpl.
    exists w. split; [done|]. split; [done | apply grows_refl]. }
  destruct Hpar as [Hpar|?]; [|done].
  rewrite (bool_decide_eq_true_2 _ Hpar).
  eexists. split; [done|]. simpl. split.
  - rewrite lookup_insert_eq. by eexists.
  - apply grows_insert. by apply eq_None_not_Some.
Qed.

(** With [parents] and [exist_ok], where nothing hinders and the current
    directory is there, the directory and its missing ancestors are
    made. *)
Lemma mkdir_rec_parents (depth : nat) (p : path) (w : fs)
    (out : list string) :
  (length p < depth)%nat →
  unhindered [p] w →
  is_Some (dirs w !! []) →
  ∃ w', mkdir_rec depth p true true (St w out) = (Return (), St w' out) ∧
    is_Some (dirs w' !! p) ∧ grows [p] w w'.
Proof.
  revert p w. induction depth as [|d IH]; intros p w Hlen Hfree Hcwd; [lia|].
  destruct (mkdir_rec_grows (S d) p true true w out)
    as (r & w' & Hrun & Hg & _).
  cut (r = Return () ∧ is_Some (dirs w' !! p)).
  { intros [-> Hp]. by exists w'. }
  revert Hrun. cbn [mkdir_rec]. unfold Py.try_except.
  rewrite os_mkdir_cases by done.
  destruct (unhindered_here p w Hfree) as (_ & Hr & _).
  case_bool_decide as Hp.
  { simpl. unfold mbind, py_bind, Py.bind.
    rewrite is_dir_clear by done.
    rewrite (bool_decide_eq_true_2 _ Hp). simpl. by intros [= <- <-]. }
  case_bool_decide as Hpar.
  { intros [= <- <-]. split; [done|]. simpl. rewrite lookup_insert_eq.
    by eexists. }
  assert (p ≠ []) as Hne by (by intros ->).
  pose proof (parent_length p Hne) as Hpl.
  rewrite bool_decide_eq_false_2; simpl.
  2:{ intros Heq. rewrite Heq in Hpl. lia. }
  unfold mbind, py_bind, Py.bind.
  destruct (IH (parent p) w) as (w1 & -> & Hpar1 & Hg1);
    [lia | by apply unhindered_parent | done |].
  destruct (mkdir_rec_child d p false w1 out) as (w2 & -> & Hp2 & _);
    [lia | by eapply unhindered_grows | by left |].
  by intros [= <- <-].
Qed.
End ScaffoldFacts.

Section ScaffoldLoops.
Import Path Scaffold.

Lemma mkdir_parents (p : path) (w : fs) (out : list string) :
  unhindered [p] w →
  is_Some (dirs w !! []) →
  ∃ w', mkdir p true true (St w out) = (Return (), St w' out) ∧
    is_Some (dirs w' !! p) ∧ grows [p] w w'.
Proof. intros. apply mkdir_rec_parents; [lia | done..]. Qed.

Lemma mkdir_child (p : path) (parents : bool) (w : fs) (out : list string) :
  unhindered [p] w →
  is_Some (dirs w !! parent p) ∨ is_Some (dirs w !! p) →
  ∃ w', mkdir p parents true (St w out) = (Return (), St w' out) ∧
    is_Some (dirs w' !! p) ∧ grows [p] w w'.
Proof. intros. apply mkdir_rec_child; [lia | done..]. Qed.

Lemma grows_exists (ps : list path) (w w' : fs) (q : path) :
  grows ps w w' → is_Some (dirs w !! q) → is_Some (dirs w' !! q).
Proof. intros (_ & Hm & _) [m Hq]. exists m. by apply Hm. Qed.

Lemma chmod_cases (p : path) (m : Z) (w : fs) (out : list string) :
  unhindered [p] w →
  chmod p m (St w out) =
    if bool_decide (is_Some (dirs w !! p))
    then (Return (),
          St (FS (<[p := m]> (dirs w)) (others w) (umask w) (refusal w)) out)
    else (Raise FileNotFoundError, St w out).
Proof.
  intros (Ho & Hr & Hb)%unhindered_here.
  unfold chmod, mbind, py_bind, Py.bind, Py.get. simpl.
  rewrite Hr, Hb, Ho.
  rewrite (bool_decide_eq_false_2 (is_Some None)) by (by intros [? ?]).
  by case_bool_decide.
Qed.

(** The loop over the directory list. *)
Lemma loop_mkdir (ds : list string) (have : list path)
    (w : fs) (out : list string) :
  unhindered (join rootfs_dir <$> ds) w →
  covered have (join rootfs_dir <$> ds) = true →
  (∀ q, q ∈ have → is_Some (dirs w !! q)) →
  ∃ w',
    Py.for_each ds (λ d, mkdir (join rootfs_dir d) false true) (St w out)
    = (Return (), St w' out) ∧
    (∀ d, d ∈ ds → is_Some (dirs w' !! join rootfs_dir d)) ∧
    grows (join rootfs_dir <$> ds) w w'.
Proof.
  revert have w. induction ds as [|d ds IH]; intros have w Hfree Hcov Hhave.
  { exists w. split; [done|]. split; [by intros ? ?%elem_of_nil|].
    apply grows_refl. }
  simpl in Hcov. apply andb_true_iff in Hcov as [Hpar%bool_decide_eq_true_1 Hcov].
  destruct (mkdir_child (join rootfs_dir d) false w out)
    as (w1 & Hrun1 & Hd1 & Hg1).
  { eapply unhindered_one; [|exact Hfree]. rewrite fmap_cons. left. }
  { left. by apply Hhave. }
  destruct (IH (join rootfs_dir d :: have) w1) as (w' & Hrun & Hds & Hg).
  { eapply unhindered_grows; [exact Hg1|].
    eapply unhindered_mono; [|exact Hfree].
    intros q Hq. exists q. split; [rewrite fmap_cons; by right | done]. }
  { done. }
  { intros q [->|Hq]%elem_of_cons; [done|].
    eapply grows_exists; [done | by apply Hhave]. }
  exists w'. split; [|split].
  - cbn [Py.for_each]. unfold Py.bind. by rewrite Hrun1.
  - intros d' [->|Hd']%elem_of_cons; [|by apply Hds].
    by eapply grows_exists.
  - eapply grows_trans; [exact Hg1 | exact Hg |].
    intros q p [Hp|Hp] Hq; exists p; (split; [|done]).
    + apply list_elem_of_singleton in Hp as ->. rewrite fmap_cons. left.
    + rewrite fmap_cons. by right.
Qed.
End ScaffoldLoops.

Section ScaffoldRuns.
Import Path Scaffold.

Let overrides : py fs () :=
  chmod (join rootfs_dir "tmp") Mode.o1777 ;;
  chmod (join rootfs_dir "var/log") Mode.o777 ;;
  chmod (join rootfs_dir "var/run") Mode.o777 ;;
  chmod (join rootfs_dir "var/tmp") Mode.o1777 ;;
  Py.print "Spezielle Berechtigungen für /tmp, /var/log, /var/run, /var/tmp gesetzt.".

Lemma unhindered_dirs (ps : list path) (t : gmap path Z) (w : fs) :
  unhindered ps w → unhindered ps (FS t (others w) (umask w) (refusal w)).
Proof. done. Qed.

Lemma unhindered_override (p : path) (w : fs) :
  unhindered override_paths w → p ∈ override_paths → unhindered [p] w.
Proof. intros H Hp. by eapply unhindered_one. Qed.

Lemma overrides_missing_tmp (w : fs) (out : list string) :
  unhindered override_paths w →
  dirs w !! join rootfs_dir "tmp" = None →
  overrides (St w out) = (Raise FileNotFoundError, St w out).
Proof.
  intros Hfree Htmp. unfold overrides, mbind, py_bind, Py.bind.
  rewrite chmod_cases
    by (apply unhindered_override; [done | unfold override_paths; set_solver]).
  rewrite bool_decide_eq_false_2; [done|].
  rewrite Htmp. by intros [? ?].
Qed.

Lemma overrides_run (w : fs) (out : list string) :
  unhindered override_paths w →
  (∀ p, p ∈ override_paths → is_Some (dirs w !! p)) →
  ∃ out', overrides (St w out)
          = (Return (),
             St (FS (overridden (dirs w)) (others w) (umask w) (refusal w))
                out').
Proof.
  intros Hfree Hex. unfold overrides, mbind, py_bind, Py.bind.
  rewrite chmod_cases
    by (apply unhindered_override; [done | unfold override_paths; set_solver]).
  rewrite bool_decide_eq_true_2
    by (apply Hex; unfold override_paths; set_solver).
  rewrite chmod_cases
    by (apply unhindered_dirs, unhindered_override;
        [done | unfold override_paths; set_solver]).
  cbn [world dirs umask others refusal].
  rewrite bool_decide_eq_true_2
    by (apply lookup_insert_is_Some'; right; apply Hex;
        unfold override_paths; set_solver).
  rewrite chmod_cases
    by (apply unhindered_dirs, unhindered_override;
        [done | unfold override_paths; set_solver]).
  cbn [world dirs umask others refusal].
  rewrite bool_decide_eq_true_2
    by (do 2 (apply lookup_insert_is_Some'; right); apply Hex;
        unfold override_paths; set_solver).
  rewrite chmod_cases
    by (apply unhindered_dirs, unhindered_override;
        [done | unfold override_paths; set_solver]).
  cbn [world dirs umask others refusal].
  rewrite bool_decide_eq_true_2
    by (do 3 (apply lookup_insert_is_Some'; right); apply Hex;
        unfold override_paths; set_solver).
  by eexists.
Qed.

Lemma overridden_modes (t : gmap path Z) :
  overridden t !! join rootfs_dir "tmp" = Some Mode.o1777 ∧
  overridden t !! join rootfs_dir "var/log" = Some Mode.o777 ∧
  overridden t !! join rootfs_dir "var/run" = Some Mode.o777 ∧
  overridden t !! join rootfs_dir "var/tmp" = Some Mode.o1777.
Proof.
  unfold overridden. repeat split.
  - rewrite !lookup_insert_ne by (by vm_compute). apply lookup_insert_eq.
  - rewrite !lookup_insert_ne by (by vm_compute). apply lookup_insert_eq.
  - rewrite !lookup_insert_ne by (by vm_compute). apply lookup_insert_eq.
  - apply lookup_insert_eq.
Qed.

Lemma overridden_other (t : gmap path Z) (q : path) :
  q ∉ override_paths → overridden t !! q = t !! q.
Proof.
  intros Hq. unfold overridden, override_paths in *.
  rewrite !lookup_insert_ne; [done|set_solver..].
Qed.

Lemma overridden_exists (t : gmap path Z) (q : path) :
  is_Some (t !! q) → is_Some (overridden t !! q).
Proof.
  intros Hq. unfold overridden.
  by do 4 (apply lookup_insert_is_Some'; right).
Qed.

(** The parts of the paths the function works on. *)
Lemma scaffold_paths_parts (w : fs) :
  unhindered scaffold_paths w →
  unhindered [build_dir] w ∧ unhindered [rootfs_dir] w ∧
  unhindered (join rootfs_dir <$> rootfs_dirs) w ∧
  unhindered override_paths w.
Proof.
  intros H. split; [|split; [|split]]; (eapply unhindered_mono; [|exact H]).
  - intros q ->%list_elem_of_singleton. exists (join rootfs_dir "tmp").
    split; apply (bool_decide_unpack _); by vm_compute.
  - intros q ->%list_elem_of_singleton. exists (join rootfs_dir "tmp").
    split; apply (bool_decide_unpack _); by vm_compute.
  - intros q Hq. exists q. split; [|done].
    unfold scaffold_paths. apply elem_of_app. by left.
  - intros q Hq. exists q. split; [|done].
    unfold scaffold_paths. apply elem_of_app. by right.
Qed.

(** Up to the overrides. *)
Lemma create_dirs_scaffold (w : fs) (out : list string) :
  unhindered scaffold_paths w →
  is_Some (dirs w !! []) →
  ∃ w' out',
    create_dirs (St w out) = overrides (St w' out') ∧
    (∀ d, d ∈ rootfs_dirs → is_Some (dirs w' !! join rootfs_dir d)) ∧
    grows (build_dir :: rootfs_dir :: (join rootfs_dir <$> rootfs_dirs)) w w'.
Proof.
  intros (Hfb & Hfr & Hfl & _)%scaffold_paths_parts Hcwd.
  destruct (mkdir_parents build_dir w
              (out ++ ["Erstelle Build-Verzeichnis: " +:+ to_string build_dir])
              Hfb Hcwd) as (w1 & Hr1 & Hb & Hg1).
  destruct (mkdir_parents rootfs_dir w1
              ((out ++ ["Erstelle Build-Verzeichnis: " +:+ to_string build_dir])
               ++ ["Erstelle Rootfs-Verzeichnis: " +:+ to_string rootfs_dir]))
    as (w2 & Hr2 & Hroot & Hg2);
    [by eapply unhindered_grows | by eapply grows_exists|].
  destruct (loop_mkdir rootfs_dirs [rootfs_dir] w2
              (((out ++ ["Erstelle Build-Verzeichnis: " +:+ to_string build_dir])
                ++ ["Erstelle Rootfs-Verzeichnis: " +:+ to_string rootfs_dir])
               ++ ["Erstelle grundlegende Rootfs-Ordner..."]))
    as (w3 & Hr3 & Hds & Hg3).
  { eapply unhindered_grows; [exact Hg2|]. by eapply unhindered_grows. }
  { by vm_compute. }
  { by intros q ->%list_elem_of_singleton. }
  exists w3. eexists. split; [|split; [exact Hds|]].
  - unfold create_dirs, overrides, mbind, py_bind.
    unfold Py.bind at 1 2 3 4 5 6. cbn [Py.print world stdout].
    rewrite Hr1. cbn [Py.print world stdout]. rewrite Hr2.
    cbn [Py.print world stdout]. rewrite Hr3. reflexivity.
  - apply (grows_trans [build_dir; rootfs_dir]
             (join rootfs_dir <$> rootfs_dirs) _ w w2 w3); [|exact Hg3|].
    + apply (grows_trans [build_dir] [rootfs_dir] _ w w1 w2 Hg1 Hg2).
      intros q p Hp Hq. exists p. split; [|done].
      rewrite !list_elem_of_singleton in Hp. rewrite !elem_of_cons. tauto.
    + intros q p Hp Hq. exists p. split; [|done].
      rewrite !elem_of_cons in *. rewrite elem_of_nil in Hp. tauto.
Qed.

(** [tmp] is not an ancestor of a directory of the list of [sub.py]. *)
Lemma tmp_not_made (w w' : fs) :
  grows (build_dir :: rootfs_dir :: (join rootfs_dir <$> rootfs_dirs)) w w' →
  dirs w !! join rootfs_dir "tmp" = None →
  dirs w' !! join rootfs_dir "tmp" = None.
Proof.
  intros (_ & _ & Hnew) Htmp. apply eq_None_not_Some. intros Hex.
  destruct (Hnew _ Hex) as [Hw|(p & Hp & Hpre)].
  { destruct Hw as [m Hw].
    assert (@None Z = Some m) by (etrans; [symmetry; exact Htmp | exact Hw]).
    discriminate. }
  revert p Hp Hpre.
  apply (proj1 (Forall_forall (λ p, ¬ join rootfs_dir "tmp" `prefix_of` p) _)).
  apply (bool_decide_unpack _). by vm_compute.
Qed.

Lemma create_dirs_run (w : fs) (out : list string) :
  unhindered scaffold_paths w →
  is_Some (dirs w !! []) →
  let run := create_dirs (St w out) in
  let tree := dirs (world run.2) in
  (∀ d, d ∈ rootfs_dirs → is_Some (tree !! join rootfs_dir d)) ∧
  (∀ q m, dirs w !! q = Some m → q ∉ override_paths → tree !! q = Some m) ∧
  (is_Some (dirs w !! join rootfs_dir "tmp") →
   run.1 = Return () ∧
   tree !! join rootfs_dir "tmp" = Some Mode.o1777 ∧
   tree !! join rootfs_dir "var/log" = Some Mode.o777 ∧
   tree !! join rootfs_dir "var/run" = Some Mode.o777 ∧
   tree !! join rootfs_dir "var/tmp" = Some Mode.o1777) ∧
  (dirs w !! join rootfs_dir "tmp" = None →
   run.1 = Raise FileNotFoundError ∧ tree !! join rootfs_dir "tmp" = None).
Proof.
  intros Hfree Hcwd run tree. subst run tree.
  destruct (create_dirs_scaffold w out Hfree Hcwd)
    as (w' & out' & -> & Hds & Hg).
  apply scaffold_paths_parts in Hfree as (_ & _ & _ & Hfo).
  assert (unhindered override_paths w') as Hfo'
    by (by eapply unhindered_grows).
  destruct (dirs w !! join rootfs_dir "tmp") as [m|] eqn:Htmp.
  - destruct (overrides_run w' out' Hfo') as [out'' ->].
    { intros p Hp. unfold override_paths in Hp.
      rewrite !elem_of_cons, elem_of_nil in Hp.
      destruct Hp as [->|[->|[->|[->|[]]]]];
        [eapply grows_exists; [exact Hg | by rewrite Htmp]
        | apply Hds; unfold rootfs_dirs; set_solver..]. }
    cbn [fst snd world dirs]. split; [|split; [|split; [|done]]].
    + intros d Hd. by apply overridden_exists, Hds.
    + intros q m' Hq Hno. rewrite overridden_other by done.
      by apply Hg.
    + intros _. split; [done | apply overridden_modes].
  - rewrite overrides_missing_tmp by (done || by apply (tmp_not_made w w')).
    cbn [fst snd world]. split; [done|]. split; [|split; [by intros [? ?]|]].
    + intros q m' Hq _. by apply Hg.
    + intros _. split; [done | by apply (tmp_not_made w w')].
Qed.
End ScaffoldRuns.

(** X16.  From every state in which the current directory exists, nothing
    but directories exists at the paths [create_dirs] works on and above
    them, and the host refuses no call there, [create_dirs] of [sub.py]
    creates every directory of its list and leaves the mode of every other
    existing directory alone; it returns normally, with the four overrides
    applied, when [build/rootfs/tmp] existed before the call, and ends in
    [FileNotFoundError], with [build/rootfs/tmp] still missing, when it did
    not. *)
Theorem create_dirs_returns_iff_tmp_exists :
  ∀ (w : Scaffold.fs) (out : list string),
    Scaffold.unhindered Scaffold.scaffold_paths w →
    is_Some (Scaffold.dirs w !! []) →
    let run := Scaffold.create_dirs (St w out) in
    let tree := Scaffold.dirs (world run.2) in
    (∀ d, d ∈ Scaffold.rootfs_dirs →
          is_Some (tree !! Path.join Scaffold.rootfs_dir d)) ∧
    (∀ q m, Scaffold.dirs w !! q = Some m → q ∉ Scaffold.override_paths →
            tree !! q = Some m) ∧
    (is_Some (Scaffold.dirs w !! Path.join Scaffold.rootfs_dir "tmp") →
     run.1 = Return () ∧
     tree !! Path.join Scaffold.rootfs_dir "tmp" = Some Mode.o1777 ∧
     tree !! Path.join Scaffold.rootfs_dir "var/log" = Some Mode.o777 ∧
     tree !! Path.join Scaffold.rootfs_dir "var/run" = Some Mode.o777 ∧
     tree !! Path.join Scaffold.rootfs_dir "var/tmp" = Some Mode.o1777) ∧
    (Scaffold.dirs w !! Path.join Scaffold.rootfs_dir "tmp" = None →
     run.1 = Raise FileNotFoundError ∧
     tree !! Path.join Scaffold.rootfs_dir "tmp" = None).
Proof. intros w out Hfree Hcwd. by apply create_dirs_run. Qed.

(** A working directory that holds the recipe file and a [build/rootfs/tmp]
    left by an earlier step. *)
Lemma create_dirs_returns_iff_tmp_exists_witness :
  let w := Scaffold.FS {[ [] := Mode.o755;
                          Path.parts "build" := Mode.o755;
                          Scaffold.rootfs_dir := Mode.o755;
                          Path.join Scaffold.rootfs_dir "tmp" := Mode.o755 ]}
                       {[ Path.parts "busybox.yaml" := Mode.o644 ]}
                       18 (λ _ _, None) in
  let run := Scaffold.create_dirs (St w []) in
  let tree := Scaffold.dirs (world run.2) in
  (∀ d, d ∈ Scaffold.rootfs_dirs →
        is_Some (tree !! Path.join Scaffold.rootfs_dir d)) ∧
  (∀ q m, Scaffold.dirs w !! q = Some m → q ∉ Scaffold.override_paths →
          tree !! q = Some m) ∧
  (is_Some (Scaffold.dirs w !! Path.join Scaffold.rootfs_dir "tmp") →
   run.1 = Return () ∧
   tree !! Path.join Scaffold.rootfs_dir "tmp" = Some Mode.o1777 ∧
   tree !! Path.join Scaffold.rootfs_dir "var/log" = Some Mode.o777 ∧
   tree !! Path.join Scaffold.rootfs_dir "var/run" = Some Mode.o777 ∧
   tree !! Path.join Scaffold.rootfs_dir "var/tmp" = Some Mode.o1777) ∧
  (Scaffold.dirs w !! Path.join Scaffold.rootfs_dir "tmp" = None →
   run.1 = Raise FileNotFoundError ∧
   tree !! Path.join Scaffold.rootfs_dir "tmp" = None).
Proof.
  intros w.
  apply (create_dirs_returns_iff_tmp_exists w []).
  - intros p q Hp Hq. split; [|done].
    apply lookup_singleton_None. intros <-.
    revert p Hp Hq.
    apply (proj1 (Forall_forall
                    (λ p, ¬ Path.parts "busybox.yaml" `prefix_of` p) _)).
    apply (bool_decide_unpack _). by vm_compute.
  - apply (bool_decide_unpack _). vm_compute. reflexivity.
Defined.

(** A regular file named [build] in the working directory: [create_dirs]
    ends in [FileExistsError] at its first [mkdir]. *)
Example create_dirs_file_in_the_way :
  let w := Scaffold.FS {[ [] := Mode.o755 ]}
                       {[ Path.parts "build" := Mode.o644 ]}
                       18 (λ _ _, None) in
  (Scaffold.create_dirs (St w [])).1 = Raise FileExistsError.
Proof. by vm_compute. Qed.

Section OutputDirFacts.
Import Path Scaffold OutputDir.

Lemma mkdir_rec_Return (depth : nat) (p : path) (parents exist_ok : bool)
    (s s' : state fs) :
  mkdir_rec depth p parents exist_ok s = (Return (), s') →
  is_Some (dirs (world s') !! p).
Proof.
  revert p parents exist_ok s s'.
  induction depth as [|d IH]; intros p pa eo [w out] s'; [done|].
  cbn [mkdir_rec]. unfold Py.try_except.
  destruct (os_mkdir_outcome p Mode.o777 w out) as [[e ->]|[Hp ->]].
  2:{ intros [= <-]. simpl. rewrite lookup_insert_eq. by eexists. }
  assert (∀ e', (here ← is_dir p;
                 if negb eo || negb here then Py.raise e' else mret ())
                  (St w out) = (Return (), s') →
                is_Some (dirs (world s') !! p)) as Hother.
  { intros e'. destruct (exist_ok_outcome p eo e' w out) as (r & -> & _ & Hr).
    intros [= -> <-]. by apply Hr. }
  destruct e; simpl; try (by apply Hother); try done.
  destruct (negb pa || bool_decide (parent p = p)); [done|].
  unfold mbind, py_bind, Py.bind.
  destruct (mkdir_rec d (parent p) true true _) as [[[]|e|c] s1]; [|done..].
  apply IH.
Qed.
End OutputDirFacts.

(** X18.  [create_initramfs_output_dir] returns normally or ends in
    [SystemExit] with status 1, never in an exception, whatever exists and
    whatever the host refuses; when it returns, the directory exists; it
    returns when the current directory exists, nothing but directories
    exists at the output directory and above it, and the host refuses no
    call there; and it only adds directories, the output directory and
    ancestors of it, leaving every existing directory as it was. *)
Theorem create_initramfs_output_dir_makes_or_exits :
  ∀ (output_dir : Path.path) (w : Scaffold.fs) (out : list string),
    let run := OutputDir.create_initramfs_output_dir output_dir (St w out) in
    (run.1 = Return () ∨ run.1 = SystemExit 1) ∧
    (run.1 = Return () →
     is_Some (Scaffold.dirs (world run.2) !! output_dir)) ∧
    (is_Some (Scaffold.dirs w !! []) →
     Scaffold.unhindered [output_dir] w → run.1 = Return ()) ∧
    (∀ q m, Scaffold.dirs w !! q = Some m →
            Scaffold.dirs (world run.2) !! q = Some m) ∧
    (∀ q, is_Some (Scaffold.dirs (world run.2) !! q) →
          is_Some (Scaffold.dirs w !! q) ∨ q `prefix_of` output_dir).
Proof.
  intros output_dir w out run. subst run.
  unfold OutputDir.create_initramfs_output_dir.
  unfold mbind, py_bind, Py.bind, Py.try_except, Py.except_Exception.
  cbn [Py.print world stdout].
  destruct (mkdir_rec_grows (2 * S (length output_dir)) output_dir true true w
              (out ++ [Str.nl +:+ "--- Erstelle Initramfs-Ausgabeverzeichnis: "
                       +:+ Path.to_string output_dir +:+ " ---"]))
    as (r & w' & Hrun & (_ & Hm & Hn) & Hx).
  assert (∀ q, is_Some (Scaffold.dirs w' !! q) →
            is_Some (Scaffold.dirs w !! q) ∨ q `prefix_of` output_dir) as Hn'.
  { intros q Hq. destruct (Hn q Hq) as [?|(p & ->%list_elem_of_singleton & ?)];
      [by left | by right]. }
  pose proof (λ s', mkdir_rec_Return (2 * S (length output_dir)) output_dir
                       true true
                (St w (out ++ [Str.nl +:+
                   "--- Erstelle Initramfs-Ausgabeverzeichnis: "
                   +:+ Path.to_string output_dir +:+ " ---"])) s') as Hret.
  pose proof (mkdir_parents output_dir w
                (out ++ [Str.nl +:+ "--- Erstelle Initramfs-Ausgabeverzeichnis: "
                         +:+ Path.to_string output_dir +:+ " ---"])) as Hok.
  unfold Scaffold.mkdir in *. rewrite Hrun in *.
  destruct r as [[]|e|c]; cbn [fst snd world Py.print Py.sys_exit].
  - split; [by left|]. split; [|by split].
    intros _. by apply (Hret _ eq_refl).
  - split; [by right|]. split; [done|]. split; [|done].
    intros Hcwd Hfree. by destruct (Hok Hfree Hcwd) as (? & ? & _).
  - by destruct (Hx c).
Qed.

(** On a fresh output root the output directory and its parent are made;
    with a regular file [output] in the way the function ends the build. *)
Example create_initramfs_output_dir_runs :
  let output_dir := Path.parts "output/initramfs" in
  let blocked := Scaffold.FS {[ [] := Mode.o755 ]}
                             {[ Path.parts "output" := Mode.o644 ]}
                             18 (λ _ _, None) in
  (OutputDir.create_initramfs_output_dir output_dir (St Scaffold.fresh [])).1
  = Return () ∧
  (OutputDir.create_initramfs_output_dir output_dir (St blocked [])).1
  = SystemExit 1.
Proof. split; by vm_compute. Qed.

(** ** Further properties of the resolver *)

Section ResolverHits.
Import Resolver.
Variable sys : rhost.
Variable cross_prefix : string.

Lemma first_hit_inv (lib_name : string) (paths : list ppath) (p : ppath) :
  first_hit sys lib_name paths = Some p →
  exists_ sys p = true ∧
  ∃ search_path, search_path ∈ paths ∧ p = div search_path lib_name.
Proof.
  induction paths as [|sp paths IH]; [done|]. simpl.
  destruct (exists_ sys (div sp lib_name)) eqn:Hex.
  - intros [= <-]. split; [done|]. exists sp. split; [left | done].
  - intros H. destruct (IH H) as (? & sp' & ? & ?). split; [done|].
    exists sp'. split; [by right | done].
Qed.
End ResolverHits.



(** X20.  When readelf is missing or exits with a non-zero status and
    output that decodes as text, or when readelf succeeds but no cross
    compiler root is configured ([None] or the empty string), the resolver
    prints a warning and returns the empty list; it does not raise. *)
Theorem resolver_degrades_to_empty :
  ∀ (sys : Resolver.rhost) (cross_prefix binary_path : string)
    (cross_compiler_root : option string) (s : state ()),
    Host.command_failed
      (Resolver.readelf sys [cross_prefix +:+ "readelf"; "-d"; binary_path]) ∨
    ((∃ out err,
        Resolver.readelf sys [cross_prefix +:+ "readelf"; "-d"; binary_path]
        = Host.Exited 0 out err) ∧
     (cross_compiler_root = None ∨ cross_compiler_root = Some "")) →
    ∃ printed,
      Resolver.find_dynamic_libraries sys cross_prefix binary_path
        cross_compiler_root s
      = (Return [], St (world s) (stdout s ++ printed)) ∧
      Resolver.warnings printed ≠ [].
Proof.
  intros sys cross_prefix binary_path root [[] out] Hcase.
  unfold Resolver.find_dynamic_libraries, Resolver.read_needed, mbind, py_bind,
    Py.bind, Py.try_except, Py.print, Py.raise, mret, py_ret, Py.ret.
  destruct Hcase as [Hfail|[(o & e & ->) Hroot]].
  - destruct (Resolver.readelf sys _) as [rc o e|rc| |e]; simpl in Hfail;
      [|done|clear Hfail|done].
    + destruct rc as [|rc|rc]; [done| |]; simpl;
        (eexists [_]; split; [reflexivity | done]).
    + simpl. eexists [_]. split; [reflexivity | done].
  - simpl. destruct Hroot as [-> | ->]; simpl;
      rewrite <- (assoc_L (++)); (eexists; split; [reflexivity | done]).
Qed.

Lemma resolver_degrades_to_empty_witness :
  ∃ printed,
    Resolver.find_dynamic_libraries Resolver.sample_host "aarch64-linux-gnu-"
      "build/rootfs/bin/busybox" None (St () [])
    = (Return [], St () ([] ++ printed)) ∧
    Resolver.warnings printed ≠ [].
Proof.
  apply (resolver_degrades_to_empty Resolver.sample_host "aarch64-linux-gnu-"
           "build/rootfs/bin/busybox" None (St () [])).
  right. split; [by eexists _, _ | by left].
Defined.

(** ** Further properties of the classifier *)

Section DirectoryModes.
Import Path Permissions.
Variable sys : permos.
Variable top : path.
Variable t0 : tree.

(** One of the existence checks of the overrides is refused. *)
Let R : Prop :=
  ∃ t' p e, p ∈ checked_paths top ∧ refuses sys Stat t' p = Some e.

Lemma refused_check (k : nat) (p : path) (t' : tree) (e : exn) :
  checked_paths top !! k = Some p → refuses sys Stat t' p = Some e → R.
Proof.
  intros Hk He. exists t', p, e. split; [|done].
  by eapply list_elem_of_lookup_2.
Qed.

(** Whatever the host refuses, only modes change. *)
Lemma classifier_shape :
  Py.triple (same_shape t0) (set_rootfs_permissions sys top)
    (λ _, same_shape t0) (λ t', same_shape t0 t' ∧ R).
Proof.
  apply (classifier_triple sys top (same_shape t0) (same_shape t0)
           (λ _, same_shape t0)).
  - apply (directory_pass_keeps sys top t0); [done|].
    intros q. apply same_shape_survives.
  - apply (file_pass_keeps sys top t0); [done|].
    intros t' d dn fn x _ _ _. apply step_file; apply same_shape_survives.
  - intros k p set warning Hk. apply step_override.
    + intros t' e. by apply (refused_check k).
    + done.
    + intros t' j n Ht' _ Hr.
      by apply (same_shape_survives t0 p (directory_mode top p) t' j n).
Qed.

Lemma checked_paths_NoDup : NoDup (checked_paths top).
Proof.
  unfold checked_paths.
  repeat (apply NoDup_cons; split;
          [rewrite ?elem_of_cons, elem_of_nil; intros H;
           repeat (destruct H as [H|H]); try done;
           first [ apply app_inv_head in H; discriminate
                 | apply (f_equal length) in H;
                   rewrite ?length_app in H; simpl in H; lia ]|]).
  apply NoDup_nil_2.
Qed.

Lemma walks_to_last (t : tree) (dirs : list string) (cur : path) :
  dirs ≠ [] → walks_to sys t cur dirs →
  ∀ t', refuses sys EntryIsDir t' (cur ++ dirs) = None.
Proof.
  revert cur. induction dirs as [|d dirs IH]; intros cur Hne; [done|].
  intros (_ & _ & _ & Hentry & Hrest).
  destruct dirs as [|d' dirs]; [done|].
  replace (cur ++ d :: d' :: dirs) with ((cur ++ [d]) ++ d' :: dirs)
    by (by rewrite <- (assoc_L (++))).
  by apply IH.
Qed.

(** *** One directory *)

(** The directory of the theorem is fixed in this section: the walk gets
    to [p], which names the directory numbered [j]; the directory has no
    other name, and the host lets the classifier chmod it. *)
Section OneDirectory.
Variable dirs : list string.
Variable j : nat.
Variable mode : Z.
Let p : path := top ++ dirs.
Hypothesis Hwalk : walks_to sys t0 top dirs.
Hypothesis Hres : resolve t0 p = Some (j, NDir mode).
Hypothesis Hsole : sole_name t0 p j.
Hypothesis Hchmod : lets sys [Chmod] p.

Let dm : Z := directory_mode top p.
Let Pd (t' : tree) : Prop :=
  same_shape t0 t' ∧ nodes t' !! j = Some (NDir dm).

Lemma p_resolves (t' : tree) :
  same_shape t0 t' → ∃ m', resolve t' p = Some (j, NDir m').
Proof.
  intros Ht'. pose proof (same_shape_resolve t0 t' p Ht') as H.
  rewrite Hres in H. destruct (resolve t' p) as [[j' n']|]; [|done].
  destruct H as [-> Hn]. destruct n'; try done. by eexists.
Qed.

Lemma other_directory (t' : tree) (q : path) (j' : nat) (n : node) :
  same_shape t0 t' → q ≠ p → resolve t' q = Some (j', n) → j' ≠ j.
Proof.
  intros [Hn _] Hq [[link Hname] _]%resolve_node ->.
  rewrite Hn in Hname. by apply Hsole in Hname.
Qed.

Lemma Pd_survives_other (q : path) (m : Z) (t' : tree) (j' : nat)
    (n : node) :
  q ≠ p → Pd t' → resolve t' q = Some (j', n) →
  Pd (Tree (names t') (<[j' := set_mode m n]> (nodes t'))).
Proof.
  intros Hq [Hshape Hj] Hr. split.
  - by apply (same_shape_survives t0 q m t' j' n).
  - cbn [nodes]. rewrite lookup_insert_ne; [done|].
    by eapply other_directory.
Qed.

(** A [chmod] to the mode the directory is meant to have does no
    harm, whatever path it goes through. *)
Lemma Pd_survives_dm (q : path) (t' : tree) (j' : nat) (n : node) :
  Pd t' → resolve t' q = Some (j', n) →
  Pd (Tree (names t') (<[j' := set_mode dm n]> (nodes t'))).
Proof.
  intros [Hshape Hj] Hr. split.
  - by apply (same_shape_survives t0 q dm t' j' n).
  - cbn [nodes]. destruct (decide (j' = j)) as [->|Hne].
    + apply resolve_node in Hr as [_ Hn]. rewrite Hj in Hn.
      injection Hn as <-. apply lookup_insert_eq.
    + by rewrite lookup_insert_ne.
Qed.

Lemma chmod_p_establishes (t' : tree) (out : list string) :
  same_shape t0 t' →
  ∃ t'', chmod sys p dm (St t' out) = (Return (), St t'' out) ∧ Pd t''.
Proof.
  intros Ht'. destruct (p_resolves t' Ht') as [m' Hr].
  unfold chmod, mbind, py_bind, Py.bind, Py.get, Py.raise, Py.modify.
  simpl. rewrite (Hchmod Chmod t') by (by left). rewrite Hr. simpl.
  eexists. split; [done|]. split.
  - exact (same_shape_chmod t0 t' j (NDir m') dm Ht'
             (proj2 (resolve_node _ _ _ _ Hr))).
  - cbn [nodes]. apply lookup_insert_eq.
Qed.

(** The override of a checked path that is [p]. *)
Lemma override_establishes (set warning : string) :
  p ∈ checked_paths top →
  Py.triple (same_shape t0) (set_special sys p dm set warning)
    (λ _, Pd) (λ _, R).
Proof.
  intros Hp.
  eapply triple_conseq;
    [apply (step_override sys (same_shape t0) Pd R p dm set warning)
    | done | done | by intros t' [_ ?]].
  - intros t' e He. exists t', p, e. by split.
  - intros t' Ht' Hskip. destruct (p_resolves t' Ht') as [m' Hr].
    destruct Hskip.
    + unfold is_dir_in. by rewrite Hr.
    + apply Hchmod. by left.
  - intros t' j' n Ht' _ Hr. destruct (p_resolves t' Ht') as [m' Hr'].
    rewrite Hr' in Hr. injection Hr as <- <-. split.
    + exact (same_shape_chmod t0 t' j (NDir m') dm Ht'
               (proj2 (resolve_node _ _ _ _ Hr'))).
    + cbn [nodes]. apply lookup_insert_eq.
Qed.

(** The override of a checked path other than [p]. *)
Lemma override_keeps (q : path) (set warning : string) :
  q ∈ checked_paths top → q ≠ p →
  Py.triple Pd (set_special sys q (directory_mode top q) set warning)
    (λ _, Pd) (λ _, R).
Proof.
  intros Hq Hne.
  eapply triple_conseq;
    [apply (step_override sys Pd Pd R q (directory_mode top q) set warning)
    | done | done | by intros t' [_ ?]].
  - intros t' e He. exists t', q, e. by split.
  - done.
  - intros t' j' n Ht' _ Hr. by apply (Pd_survives_other q).
Qed.

Lemma override_shape (q : path) (set warning : string) :
  q ∈ checked_paths top →
  Py.triple (same_shape t0)
    (set_special sys q (directory_mode top q) set warning)
    (λ _, same_shape t0) (λ _, R).
Proof.
  intros Hq.
  eapply triple_conseq;
    [apply (step_override sys (same_shape t0) (same_shape t0) R q
              (directory_mode top q) set warning)
    | done | done | by intros t' [_ ?]].
  - intros t' e He. exists t', q, e. by split.
  - done.
  - intros t' j' n Ht' _ Hr.
    by apply (same_shape_survives t0 q (directory_mode top q) t' j' n).
Qed.

(** A directory that is one of the checked paths gets its mode from
    its override. *)
Lemma classifier_checked_directory :
  p ∈ checked_paths top →
  Py.triple (same_shape t0) (set_rootfs_permissions sys top)
    (λ _, Pd) (λ _, R).
Proof.
  intros Hp. apply list_elem_of_lookup in Hp as [k Hk].
  pose proof (lookup_lt_Some _ _ _ Hk) as Hlt. simpl in Hlt.
  eapply triple_conseq;
    [apply (classifier_triple sys top (same_shape t0) (same_shape t0)
              (λ n t', if decide (k < n)%nat then Pd t'
                       else same_shape t0 t') (λ _, R))
    | done | | done].
  - apply (directory_pass_keeps sys top t0); [done|].
    intros q. apply same_shape_survives.
  - destruct (decide (k < 0)%nat); [lia|].
    apply (file_pass_keeps sys top t0); [done|].
    intros t' d dn fn x _ _ _. apply step_file; apply same_shape_survives.
  - intros k' q set warning Hk'. cbv beta.
    assert (q ∈ checked_paths top) as Hq
      by (by eapply list_elem_of_lookup_2).
    destruct (decide (k < k')%nat) as [Hlt'|Hge].
    + destruct (decide (k < S k')%nat); [|lia]. apply override_keeps; [done|].
      intros ->. pose proof (NoDup_lookup _ _ _ _ checked_paths_NoDup
                               Hk Hk'). lia.
    + destruct (decide (k' = k)) as [->|Hne].
      * destruct (decide (k < S k)%nat); [|lia].
        assert (q = p) as -> by congruence.
        by apply override_establishes.
      * destruct (decide (k < S k')%nat); [lia|].
        by apply override_shape.
  - intros [] t' H. by destruct (decide (k < 7)%nat); [|lia].
Qed.

Lemma step_directory_establishes :
  p ∉ checked_paths top →
  Py.triple (same_shape t0) (set_directory_default sys top p)
    (λ _, Pd) (λ _, False).
Proof.
  intros Hp [t' out] Ht'. simpl in Ht'.
  unfold set_directory_default, Py.try_except. cbv zeta.
  rewrite bool_decide_eq_true_2.
  2:{ intros Hin. apply Hp. unfold checked_paths.
      rewrite !elem_of_cons in *. tauto. }
  assert (dm = Mode.o755) as Hdm.
  { unfold dm, directory_mode.
    rewrite !bool_decide_eq_false_2; [done|..];
      intros Hin; apply Hp; unfold checked_paths;
      rewrite !elem_of_cons in *; tauto. }
  rewrite <- Hdm.
  destruct (chmod_p_establishes t' out Ht') as (t'' & -> & Hd). done.
Qed.

(** A directory that is none of the checked paths gets 0755 in the
    directory pass and keeps it. *)
Lemma classifier_other_directory :
  p ∉ checked_paths top →
  Py.triple (same_shape t0) (set_rootfs_permissions sys top)
    (λ _, Pd) (λ _, R).
Proof.
  intros Hp.
  assert (dm = Mode.o755) as Hdm.
  { unfold dm, directory_mode.
    rewrite !bool_decide_eq_false_2; [done|..];
      intros Hin; apply Hp; unfold checked_paths;
      rewrite !elem_of_cons in *; tauto. }
  assert (dirs ≠ []) as Hdirs.
  { intros Hnil. apply Hp. unfold p. rewrite Hnil, app_nil_r.
    unfold checked_paths. rewrite !elem_of_cons. tauto. }
  pose proof (walks_to_last t0 dirs top Hdirs Hwalk) as Hentry.
  apply (classifier_triple sys top (same_shape t0) Pd (λ _, Pd) (λ _, R)).
  - apply (os_walk_establishes sys top t0 _ (same_shape t0) Pd dirs);
      [done | by intros t' [? _] | | | done |].
    + intros t' d dn fn _ _. apply step_directory.
      intros t'' j' n. apply same_shape_survives.
    + intros t' d dn fn _ _. apply step_directory.
      intros t'' j' n. rewrite <- Hdm. apply (Pd_survives_dm d).
    + intros t' dn fn _ _. by apply step_directory_establishes.
  - apply (file_pass_keeps sys top t0); [by intros t' [? _]|].
    intros t' d dn fn x [Ht' Hj] Hscan Hx.
    assert (d ++ [x] ≠ p) as Hne.
    { intros Heq.
      apply (proj1 (proj2 (scandir_Some sys _ _ _ _ Hscan) x)) in Hx
        as [_ Hfile].
      rewrite Heq in Hfile. unfold entry_is_dir in Hfile.
      rewrite (Hentry t' : refuses sys EntryIsDir t' p = None) in Hfile.
      destruct (p_resolves t' Ht') as [m' Hr].
      unfold is_dir_in in Hfile. by rewrite Hr in Hfile. }
    apply step_file; intros t'' j' n; by apply (Pd_survives_other (d ++ [x])).
  - intros k q set warning Hk.
    assert (q ∈ checked_paths top) as Hq
      by (by eapply list_elem_of_lookup_2).
    apply override_keeps; [done|]. by intros ->.
Qed.

Lemma classifier_one_directory (out : list string) :
  (∀ q, q ∈ checked_paths top → lets sys [Stat] q) →
  let run := set_rootfs_permissions sys top (St t0 out) in
  run.1 = Return () ∧ nodes (world run.2) !! j = Some (NDir dm).
Proof.
  intros Hstat run. subst run.
  assert (¬ R) as HR.
  { intros (t' & q & e & Hq & He).
    rewrite (Hstat q Hq Stat t') in He by (by left). done. }
  assert (Py.triple (same_shape t0) (set_rootfs_permissions sys top)
            (λ _, Pd) (λ _, R)) as H.
  { destruct (decide (p ∈ checked_paths top)).
    - by apply classifier_checked_directory.
    - by apply classifier_other_directory. }
  specialize (H (St t0 out) (same_shape_refl t0)).
  destruct (set_rootfs_permissions sys top (St t0 out))
    as [[[]|e|c] s']; simpl in *; [|done..].
  split; [done | apply H].
Qed.
End OneDirectory.
End DirectoryModes.

(** X21.  On every tree and every host, whatever the host refuses and
    however the function ends, [set_rootfs_permissions] changes nothing but
    modes: afterwards every path names what it named, every object is what
    it was (a directory, a file, something else), and every file has the
    bytes it had.  The function returns normally when the host refuses none
    of the existence checks of its last part, which stand outside any
    [try]. *)
Theorem classifier_only_changes_modes :
  ∀ (sys : Permissions.permos) (top : Path.path) (t : Permissions.tree)
    (out : list string),
    let run := Permissions.set_rootfs_permissions sys top (St t out) in
    Permissions.same_shape t (world run.2) ∧
    ((∀ p, p ∈ Permissions.checked_paths top →
           Permissions.lets sys [Permissions.Stat] p) →
     run.1 = Return ()).
Proof.
  intros sys top t out run. subst run.
  pose proof (classifier_shape sys top t (St t out)
                (same_shape_refl t)) as H.
  destruct (Permissions.set_rootfs_permissions sys top (St t out))
    as [[[]|e|c] s']; simpl in *.
  - split; [done|]. by intros _.
  - destruct H as [? (t' & p & e' & Hp & He)]. split; [done|].
    intros Hstat. rewrite (Hstat p Hp Permissions.Stat t') in He by (by left).
    done.
  - destruct H as [? (t' & p & e' & Hp & He)]. split; [done|].
    intros Hstat. rewrite (Hstat p Hp Permissions.Stat t') in He by (by left).
    done.
Qed.

(** A host that refuses to look at [var/tmp]: the function ends in the
    error of that check, after the walks and the override of [tmp]. *)
Example classifier_refused_check :
  let top := ["build"; "rootfs"] in
  let sys := Permissions.PermOS (λ c _ p,
               if bool_decide (p = top ++ ["var"; "tmp"])
               then Some PermissionError else None) in
  let run := Permissions.set_rootfs_permissions sys top
               (St (Permissions.sample top) []) in
  run.1 = Raise PermissionError ∧
  Permissions.nodes (world run.2) !! 8%nat
  = Some (Permissions.NDir Mode.o1777) ∧
  Permissions.nodes (world run.2) !! 0%nat
  = Some (Permissions.NDir Mode.o755).
Proof. split; [|split]; by vm_compute. Qed.

(** X22.  A directory that the walk of [set_rootfs_permissions] gets to,
    that has no other name in the tree (no symbolic link leads to it), and
    that the host lets the classifier chmod, has afterwards the mode the
    function means it to have, provided the host refuses none of the
    existence checks of the overrides: 01777 if it is [tmp] or [var/tmp]
    under the root, 0777 if it is [var/log], [var/run] or [var/lock] under
    the root, and 0755 otherwise (the root and [dev] included); and the
    function returns normally. *)
Theorem classifier_directory_modes :
  ∀ (sys : Permissions.permos) (top : Path.path) (dirs : list string)
    (t : Permissions.tree) (j : nat) (mode : Z) (out : list string),
    Permissions.walks_to sys t top dirs →
    Permissions.resolve t (top ++ dirs) = Some (j, Permissions.NDir mode) →
    Permissions.sole_name t (top ++ dirs) j →
    Permissions.lets sys [Permissions.Chmod] (top ++ dirs) →
    (∀ q, q ∈ Permissions.checked_paths top →
          Permissions.lets sys [Permissions.Stat] q) →
    let run := Permissions.set_rootfs_permissions sys top (St t out) in
    run.1 = Return () ∧
    Permissions.nodes (world run.2) !! j
    = Some (Permissions.NDir
              (Permissions.directory_mode top (top ++ dirs))).
Proof.
  intros sys top dirs t j mode out Hwalk Hres Hsole Hchmod Hstat.
  apply (classifier_one_directory sys top t dirs j mode Hwalk Hres Hsole
           Hchmod out Hstat).
Qed.

(** [tmp] of the sample tree ends with 01777. *)
Lemma classifier_directory_modes_witness :
  let top := ["build"; "rootfs"] in
  let run := Permissions.set_rootfs_permissions Permissions.willing top
               (St (Permissions.sample top) []) in
  (run.1 = Return () ∧
   Permissions.nodes (world run.2) !! 8%nat
   = Some (Permissions.NDir
             (Permissions.directory_mode top (top ++ ["tmp"])))) ∧
  Permissions.directory_mode top (top ++ ["tmp"]) = Mode.o1777.
Proof.
  intros top. split; [|by vm_compute].
  apply (classifier_directory_modes Permissions.willing top ["tmp"]
           (Permissions.sample top) 8%nat Mode.o755 []).
  - split; [by vm_compute|]. split; [intros ?; reflexivity|].
    split; [by vm_compute|]. split; [intros ?; reflexivity|].
    split; [by vm_compute|]. split; [intros ?; reflexivity | done].
  - by vm_compute.
  - intros q link Hq.
    apply elem_of_map_to_list in Hq.
    set (l := map_to_list _) in Hq. vm_compute in l. subst l.
    repeat (apply elem_of_cons in Hq as [Hq|Hq];
            [injection Hq; intros; subst; (discriminate || reflexivity)|]).
    by apply elem_of_nil in Hq.
  - intros c t' _. reflexivity.
  - intros q _ c t' _. reflexivity.
Defined.

(** ** BusyBox configuration and installation *)

Section BusyBoxFacts.
Import Host BusyBox.
Variable sys : bbos.
Variable upper : string → string.
Variable busybox_src_dir rootfs_dir : string.
Variable disabled_features : list string.

(** The host has been asked [t], [busybox.defconfig] holds [d] and
    [.config] is [c]. *)
Let at_ (d : string) (t : list event) (c : option string) (w : bbhost) : Prop :=
  trace (machine w) = t ∧ defconfig w = Some d ∧ config w = c.

Lemma at_run_make (d : string) (t : list event) (c : option string)
    (commands : list string) (desc : string) :
  Py.triple (at_ d t c) (run_make sys busybox_src_dir commands desc)
    (λ _, at_ d (t ++ [Spawn commands]) (config_after sys commands c))
    (λ _, True).
Proof.
  intros [[h dc cf] out] (Ht & Hd & Hc). simpl in *. unfold run_make. simpl.
  destruct (run_command_cases (tools sys) commands (Some busybox_src_dir)
              desc false (St h out)) as [pr ->].
  simpl. destruct (spawn (tools sys) commands (disk_of h)) as [p dk]. simpl.
  destruct (run_command_end p); [|done..].
  repeat split; simpl; [by rewrite Ht | done | by rewrite Hc].
Qed.

Lemma at_copy2 (d : string) (t : list event) (c : option string) :
  Py.triple (at_ d t c) (copy2 sys) (λ _, at_ d t (Some d)) (λ _, True).
Proof.
  intros [[h dc cf] out] (Ht & Hd & Hc). simpl in *. unfold copy2.
  destruct (copy2_error sys); [done|].
  unfold mbind, py_bind, Py.bind, Py.get, Py.modify, Py.raise. simpl.
  rewrite Hd. by repeat split.
Qed.

Lemma at_patch (d : string) (t : list event) (c : option string) :
  Py.triple (at_ d t c)
    (match disabled_features with
     | [] => mret ()
     | _ :: _ =>
         Py.print ("Modifiziere BusyBox .config zur Deaktivierung der Features: "
                   +:+ String.concat ", " disabled_features) ;;
         Py.try_except
           (text ← read_config sys;
            let '(new_text, printed) :=
              ConfigPatcher.patch_text upper disabled_features text in
            Py.for_each printed Py.print ;;
            write_config sys new_text ;;
            Py.print "BusyBox .config erfolgreich modifiziert.")
           (Py.except_Exception (λ e,
              Py.print ("Fehler beim Modifizieren der BusyBox .config: " +:+
                        ImagePackager.describe e) ;;
              Py.sys_exit 1))
     end)
    (λ _, at_ d t (patched upper disabled_features c)) (λ _, True).
Proof.
  unfold patched. destruct disabled_features as [|f fs] eqn:Hfs.
  { by intros s Hs. }
  rewrite <- Hfs. clear Hfs.
  eapply triple_bind; [apply triple_print | intros ?].
  eapply triple_try_except with (E1 := λ _, True); [| |done].
  2:{ intros e h [= <-]. eapply triple_bind; [apply triple_print|].
      intros ?. apply triple_exits. }
  eapply triple_bind with
    (R := λ text w, c = Some text ∧ at_ d t c w).
  { intros [[h dc cf] out] (Ht & Hd & Hc). simpl in *. unfold read_config.
    destruct (read_error sys); [done|].
    unfold mbind, py_bind, Py.bind, Py.get, Py.raise, mret, py_ret, Py.ret.
    simpl. destruct cf; [|done]. by repeat split. }
  intros text. apply triple_pure. intros ->.
  change (ConfigPatcher.patch_file upper disabled_features <$> Some text)
    with (Some (ConfigPatcher.patch_text upper disabled_features text).1).
  destruct (ConfigPatcher.patch_text upper disabled_features text)
    as [new_text printed].
  eapply triple_bind.
  { apply triple_for_each. intros msg. apply triple_print. }
  intros ?.
  eapply triple_bind with (R := λ _, at_ d t (Some new_text)).
  { intros [[h dc cf] out] (Ht & Hd & Hc). simpl in *. unfold write_config.
    destruct (write_error sys); [done|]. by repeat split. }
  intros ?. apply triple_print.
Qed.

Lemma configure_and_install_busybox_trace (w : bbhost) :
  Py.triple (λ w', w' = w)
    (configure_and_install_busybox sys upper busybox_src_dir rootfs_dir
       disabled_features)
    (λ _ w', ∃ d, defconfig w = Some d ∧
       at_ d (trace (machine w) ++ (Spawn <$> make_commands rootfs_dir))
         (config_after sys ["make"; "INSTALL_DIR=" +:+ rootfs_dir; "install"]
            (config_after sys ["make"]
               (patched upper disabled_features
                  (config_after sys ["make"; "oldconfig"] (Some d))))) w')
    (λ _, True).
Proof.
  unfold configure_and_install_busybox.
  eapply triple_bind; [apply triple_print | intros ?].
  apply triple_get_bind. intros v ->.
  destruct (defconfig w) as [d|] eqn:Hd.
  2:{ by intros s Hs. }
  simpl negb. cbv iota.
  eapply triple_bind with (R := λ _, at_ d (trace (machine w)) (config w)).
  { intros [w' out] Hw'. simpl in Hw'. subst w'. by repeat split. }
  intros ?.
  eapply triple_bind; [apply triple_print | intros ?].
  eapply triple_bind.
  { eapply triple_try_except with (E1 := λ _, True); [| |done].
    - eapply triple_bind; [apply at_copy2 | intros ?]. apply triple_print.
    - intros e h [= <-]. eapply triple_bind; [apply triple_print|].
      intros ?. apply triple_exits. }
  intros ?.
  eapply triple_bind; [apply triple_print | intros ?].
  eapply triple_bind; [apply at_run_make | intros ?].
  eapply triple_bind; [apply at_patch | intros ?].
  eapply triple_bind; [apply triple_print | intros ?].
  eapply triple_bind; [apply at_run_make | intros ?].
  eapply triple_bind; [apply triple_print | intros ?].
  eapply triple_bind; [apply at_run_make | intros ?].
  apply triple_print_post. intros w' Hw'. exists d. split; [done|].
  by rewrite <- !(assoc_L (++)) in Hw'.
Qed.
End BusyBoxFacts.

(** X23.  Without [busybox.defconfig], [configure_and_install_busybox]
    prints the error and ends in [SystemExit] with status 1: no tool is run
    and [.config] is not touched. *)
Theorem busybox_needs_defconfig :
  ∀ (sys : BusyBox.bbos) (upper : string → string)
    (busybox_src_dir rootfs_dir : string) (disabled_features : list string)
    (w : BusyBox.bbhost) (out : list string),
    BusyBox.defconfig w = None →
    ∃ out',
      BusyBox.configure_and_install_busybox sys upper busybox_src_dir rootfs_dir
        disabled_features (St w out)
      = (SystemExit 1, St w out').
Proof.
  intros sys upper src root features w out Hd.
  unfold BusyBox.configure_and_install_busybox.
  unfold mbind, py_bind, Py.bind, Py.get, Py.print, Py.sys_exit. simpl.
  rewrite Hd. simpl. by eexists.
Qed.

Lemma busybox_needs_defconfig_witness :
  let w := BusyBox.BBHost (Host.build_host ["build/busybox-1.36.1"]) None None in
  ∃ out',
    BusyBox.configure_and_install_busybox BusyBox.willing Str.ascii_upper
      "build/busybox-1.36.1" "build/rootfs" ["foo"] (St w [])
    = (SystemExit 1, St w out').
Proof.
  intros w.
  apply (busybox_needs_defconfig BusyBox.willing Str.ascii_upper
           "build/busybox-1.36.1" "build/rootfs" ["foo"] w []).
  reflexivity.
Defined.

(** X24.  When [configure_and_install_busybox] returns normally,
    [busybox.defconfig] existed, the commands run are exactly [make
    oldconfig], [make] and [make INSTALL_DIR=<rootfs> install], in this
    order, and the [.config] that [make] builds from is the patched text of
    what [make oldconfig] left of the copied defconfig: the patch is applied
    after [make oldconfig], and no later step rewrites the file before the
    build. *)
Theorem busybox_success_patches_between_oldconfig_and_make :
  ∀ (sys : BusyBox.bbos) (upper : string → string)
    (busybox_src_dir rootfs_dir : string) (disabled_features : list string)
    (w : BusyBox.bbhost) (out : list string) (s' : state BusyBox.bbhost),
    BusyBox.configure_and_install_busybox sys upper busybox_src_dir rootfs_dir
      disabled_features (St w out) = (Return (), s') →
    ∃ d, BusyBox.defconfig w = Some d ∧
      Host.trace (BusyBox.machine (world s'))
      = Host.trace (BusyBox.machine w)
        ++ (Host.Spawn <$> BusyBox.make_commands rootfs_dir) ∧
      BusyBox.config (world s')
      = BusyBox.config_after sys
          ["make"; "INSTALL_DIR=" +:+ rootfs_dir; "install"]
          (BusyBox.config_after sys ["make"]
             (BusyBox.patched upper disabled_features
                (BusyBox.config_after sys ["make"; "oldconfig"] (Some d)))).
Proof.
  intros sys upper src root features w out s' Hrun.
  pose proof (configure_and_install_busybox_trace sys upper src root features
                w (St w out) eq_refl) as H.
  rewrite Hrun in H. destruct H as (d & Hd & Ht & _ & Hc). by exists d.
Qed.

Lemma busybox_success_patches_between_oldconfig_and_make_witness :
  let text := "CONFIG_FOO=y" +:+ Str.nl in
  let w := BusyBox.BBHost (Host.build_host ["build/busybox-1.36.1"])
             (Some text) None in
  let run := BusyBox.configure_and_install_busybox BusyBox.willing
               Str.ascii_upper "build/busybox-1.36.1" "build/rootfs" ["foo"]
               (St w []) in
  ∃ d, BusyBox.defconfig w = Some d ∧
    Host.trace (BusyBox.machine (world run.2))
    = Host.trace (BusyBox.machine w)
      ++ (Host.Spawn <$> BusyBox.make_commands "build/rootfs") ∧
    BusyBox.config (world run.2)
    = BusyBox.config_after BusyBox.willing
        ["make"; "INSTALL_DIR=" +:+ "build/rootfs"; "install"]
        (BusyBox.config_after BusyBox.willing ["make"]
           (BusyBox.patched Str.ascii_upper ["foo"]
              (BusyBox.config_after BusyBox.willing ["make"; "oldconfig"]
                 (Some d)))).
Proof.
  intros text w run.
  apply (busybox_success_patches_between_oldconfig_and_make BusyBox.willing
           Str.ascii_upper "build/busybox-1.36.1" "build/rootfs" ["foo"]
           w [] run.2).
  vm_compute. reflexivity.
Defined.
